(** * Pads of PDCurses (graphics/pdcurs34/pdcurses/pdc_pad.c) and the file
      helpers of NSH (nshlib/nsh_fsutils.c)

    The two C files are embedded shallowly.  Memory is a store of WINDOW
    structures and a store of cell rows; a [WINDOW *] is an index (or NULL),
    a [chtype *] is a row block with an offset.  A C execution whose behaviour
    is undefined (an access outside an array, a signed overflow, a null
    dereference) has the outcome [Undef]; every other execution is [Done]. *)

From Stdlib Require Import ZArith Bool Lia String.
From stdpp Require Import list strings.

Open Scope Z_scope.

(** ** Outcomes of C executions *)

Inductive outcome (A : Type) : Type :=
  | Done (a : A)
  | Undef.
Arguments Done {A} a.
Arguments Undef {A}.

Definition bind {A B : Type} (m : outcome A) (f : A -> outcome B) : outcome B :=
  match m with
  | Done a => f a
  | Undef => Undef
  end.

Notation "'let*' x ':=' m 'in' k" := (bind m (fun x => k))
  (at level 10, x name, m at level 100, k at level 200, only parsing).

(** [int] is a 32-bit two's complement integer; an arithmetic result outside
    its range is a signed overflow. *)
Definition INT_MIN : Z := - 2 ^ 31.
Definition INT_MAX : Z := 2 ^ 31 - 1.

Definition int_op (z : Z) : outcome Z :=
  if (INT_MIN <=? z) && (z <=? INT_MAX) then Done z else Undef.

Definition is_int (z : Z) : Prop := INT_MIN <= z <= INT_MAX.

(** [a[i]] for an array held as a list: outside the array it is undefined. *)
Definition aget {A : Type} (a : list A) (i : Z) : outcome A :=
  if i <? 0 then Undef
  else match a !! Z.to_nat i with
       | Some x => Done x
       | None => Undef
       end.

(** [a[i] = v]. *)
Definition aset {A : Type} (a : list A) (i : Z) (v : A) : outcome (list A) :=
  if (0 <=? i) && (i <? Z.of_nat (length a)) then Done (<[Z.to_nat i := v]> a)
  else Undef.

Module Pad.

(** ** curses.h and curspriv.h *)

Definition chtype := Z.

(** Modelled from the spec: curses.h is not among the sources.  The result
    codes, the window flags and the "no change" sentinel of a damage range
    take the values PDCurses gives them. *)
Definition OK : Z := 0.
Definition ERR : Z := -1.
Definition _PAD : Z := 16.
Definition _SUBPAD : Z := 32.
Definition _NO_CHANGE : Z := -1.

(** A [chtype *]: a position in a row block of the cell store. *)
Inductive rowptr : Type :=
  | NullRow
  | RowAt (blk : nat) (off : Z).

Definition ptr_add (p : rowptr) (k : Z) : rowptr :=
  match p with
  | NullRow => NullRow
  | RowAt b o => RowAt b (o + k)
  end.

(** The fields of [WINDOW] that pdc_pad.c reads or writes. *)
Record WINDOW : Type := mkWINDOW {
  _cury : Z;
  _curx : Z;
  _maxy : Z;
  _maxx : Z;
  _begy : Z;
  _begx : Z;
  _flags : Z;
  _attrs : chtype;
  _clear : bool;
  _leaveit : bool;
  _scroll : bool;
  _nodelay : bool;
  _use_keypad : bool;
  _y : list rowptr;
  _firstch : list Z;
  _lastch : list Z;
  _parent : option nat
}.

(** The globals of the curses library and its heap. *)
Record curses : Type := mkCurses {
  LINES : Z;
  COLS : Z;
  curscr : option nat;
  wins : list WINDOW;
  cells : list (list chtype);
  alloc_fail : list bool
}.

(** The file's static variables: the values saved for pechochar(). *)
Record state : Type := mkState {
  cur : curses;
  save_pminrow : Z;
  save_pmincol : Z;
  save_sminrow : Z;
  save_smincol : Z;
  save_smaxrow : Z;
  save_smaxcol : Z
}.

Definition set_cur (st : state) (c : curses) : state :=
  mkState c (save_pminrow st) (save_pmincol st) (save_sminrow st)
    (save_smincol st) (save_smaxrow st) (save_smaxcol st).

Definition set_wins (c : curses) (ws : list WINDOW) : curses :=
  mkCurses (LINES c) (COLS c) (curscr c) ws (cells c) (alloc_fail c).

Definition set_cells (c : curses) (m : list (list chtype)) : curses :=
  mkCurses (LINES c) (COLS c) (curscr c) (wins c) m (alloc_fail c).

Definition set_damage (w : WINDOW) (f l : list Z) : WINDOW :=
  mkWINDOW (_cury w) (_curx w) (_maxy w) (_maxx w) (_begy w) (_begx w)
    (_flags w) (_attrs w) (_clear w) (_leaveit w) (_scroll w) (_nodelay w)
    (_use_keypad w) (_y w) f l (_parent w).

Definition set_clear (w : WINDOW) (b : bool) : WINDOW :=
  mkWINDOW (_cury w) (_curx w) (_maxy w) (_maxx w) (_begy w) (_begx w)
    (_flags w) (_attrs w) b (_leaveit w) (_scroll w) (_nodelay w)
    (_use_keypad w) (_y w) (_firstch w) (_lastch w) (_parent w).

Definition set_cursor (w : WINDOW) (y x : Z) : WINDOW :=
  mkWINDOW y x (_maxy w) (_maxx w) (_begy w) (_begx w)
    (_flags w) (_attrs w) (_clear w) (_leaveit w) (_scroll w) (_nodelay w)
    (_use_keypad w) (_y w) (_firstch w) (_lastch w) (_parent w).

(** [*p] for a [WINDOW *p]. *)
Definition get_win (c : curses) (p : option nat) : outcome WINDOW :=
  match p with
  | None => Undef
  | Some i => match wins c !! i with
              | Some w => Done w
              | None => Undef
              end
  end.

Definition put_win (c : curses) (p : option nat) (w : WINDOW) : curses :=
  match p with
  | None => c
  | Some i => set_wins c (<[i := w]> (wins c))
  end.

(** ** memcpy over rows of cells *)

Definition load_cells (m : list (list chtype)) (p : rowptr) (n : Z)
  : outcome (list chtype) :=
  match p with
  | NullRow => Undef
  | RowAt b o =>
    match m !! b with
    | None => Undef
    | Some row =>
      if (0 <=? o) && (0 <=? n) && (o + n <=? Z.of_nat (length row))
      then Done (take (Z.to_nat n) (drop (Z.to_nat o) row))
      else Undef
    end
  end.

Definition store_cells (m : list (list chtype)) (p : rowptr) (cs : list chtype)
  : outcome (list (list chtype)) :=
  match p with
  | NullRow => Undef
  | RowAt b o =>
    match m !! b with
    | None => Undef
    | Some row =>
      if (0 <=? o) && (o + Z.of_nat (length cs) <=? Z.of_nat (length row))
      then Done (<[b := take (Z.to_nat o) row ++ cs
                          ++ drop (Z.to_nat o + length cs) row]> m)
      else Undef
    end
  end.

(** Source and destination of memcpy may not overlap. *)
Definition overlap (dst src : rowptr) (n : Z) : bool :=
  match dst, src with
  | RowAt b1 o1, RowAt b2 o2 =>
    Nat.eqb b1 b2 && (o1 <? o2 + n) && (o2 <? o1 + n)
  | _, _ => false
  end.

(** [memcpy(dst, src, n * sizeof(chtype))]; a negative [n] converts to a
    huge [size_t] and runs off both rows. *)
Definition memcpy (m : list (list chtype)) (dst src : rowptr) (n : Z)
  : outcome (list (list chtype)) :=
  let* cs := load_cells m src n in
  if overlap dst src n then Undef else store_cells m dst cs.

(** ** pnoutrefresh *)

(** One pass of the body of [while (sline <= sy2)] for which
    [pline < w->_maxy] holds. *)
Definition copy_row (c : curses) (w : option nat)
    (sline pline sx1 sx2 px num_cols : Z) : outcome curses :=
  let* win := get_win c w in
  let* scr := get_win c (curscr c) in
  let* dst := aget (_y scr) sline in
  let* src := aget (_y win) pline in
  let* m := memcpy (cells c) (ptr_add dst sx1) (ptr_add src px) num_cols in
  let c := set_cells c m in
  let* f := aget (_firstch scr) sline in
  let* fs := (if (f =? _NO_CHANGE) || (f >? sx1)
              then aset (_firstch scr) sline sx1
              else Done (_firstch scr)) in
  let* l := aget (_lastch scr) sline in
  let* ls := (if sx2 >? l
              then aset (_lastch scr) sline sx2
              else Done (_lastch scr)) in
  let c := put_win c (curscr c) (set_damage scr fs ls) in
  let* win := get_win c w in
  let* wf := aset (_firstch win) pline _NO_CHANGE in
  let* wl := aset (_lastch win) pline _NO_CHANGE in
  Done (put_win c w (set_damage win wf wl)).

(** The loop [while (sline <= sy2) { ...; sline++; pline++; }].  [fuel] bounds
    the number of passes; [sy2 - sline + 1] passes are enough
    (see [copy_rows_fuel]). *)
Fixpoint copy_rows (fuel : nat) (c : curses) (w : option nat)
    (sline pline sy2 sx1 sx2 px num_cols : Z) : outcome curses :=
  if sline <=? sy2 then
    match fuel with
    | O => Undef
    | S fuel' =>
      let* win := get_win c w in
      let* c := (if pline <? _maxy win
                 then copy_row c w sline pline sx1 sx2 px num_cols
                 else Done c) in
      let* sline := int_op (sline + 1) in
      let* pline := int_op (pline + 1) in
      copy_rows fuel' c w sline pline sy2 sx1 sx2 px num_cols
    end
  else Done c.

(** [if (w->_clear) { w->_clear = false; curscr->_clear = true; }] *)
Definition move_clear (c : curses) (w : option nat) : outcome curses :=
  let* win := get_win c w in
  if _clear win then
    let c := put_win c w (set_clear win false) in
    let* scr := get_win c (curscr c) in
    Done (put_win c (curscr c) (set_clear scr true))
  else Done c.

(** The cursor test and move at the end of pnoutrefresh; [&&] evaluates its
    right operand only when the left one holds. *)
Definition move_cursor (c : curses) (w : option nat)
    (py px sy1 sx1 sy2 sx2 : Z) : outcome curses :=
  let* win := get_win c w in
  if negb (_leaveit win) && (_cury win >=? py) && (_curx win >=? px) then
    let* ymax := int_op (py + (sy2 - sy1)) in
    if _cury win <=? ymax then
      let* xmax := int_op (px + (sx2 - sx1)) in
      if _curx win <=? xmax then
        let* scr := get_win c (curscr c) in
        let* y := int_op ((_cury win - py) + sy1) in
        let c := put_win c (curscr c) (set_cursor scr y (_curx scr)) in
        let* win := get_win c w in
        let* scr := get_win c (curscr c) in
        let* x := int_op ((_curx win - px) + sx1) in
        Done (put_win c (curscr c) (set_cursor scr (_cury scr) x))
      else Done c
    else Done c
  else Done c.

Definition pnoutrefresh (st : state) (w : option nat)
    (py px sy1 sx1 sy2 sx2 : Z) : outcome (state * Z) :=
  let sline := sy1 in
  let pline := py in
  match w with
  | None => Done (st, ERR)
  | Some _ =>
    let* win := get_win (cur st) w in
    if (Z.land (_flags win) (Z.lor _PAD _SUBPAD) =? 0)
       || (sy2 >=? LINES (cur st)) || (sy2 >=? COLS (cur st))
    then Done (st, ERR)
    else
      let py := if py <? 0 then 0 else py in
      let px := if px <? 0 then 0 else px in
      let sy1 := if sy1 <? 0 then 0 else sy1 in
      let sx1 := if sx1 <? 0 then 0 else sx1 in
      if (sy2 <? sy1) || (sx2 <? sx1) then Done (st, ERR)
      else
        let* width := int_op (sx2 - sx1 + 1) in
        let* rest := int_op (_maxx win - px) in
        let num_cols := Z.min width rest in
        let* c := copy_rows (Z.to_nat (sy2 - sline + 1)) (cur st) w
                    sline pline sy2 sx1 sx2 px num_cols in
        let* c := move_clear c w in
        let* c := move_cursor c w py px sy1 sx1 sy2 sx2 in
        Done (set_cur st c, OK)
  end.

(** ** Creation of pads *)

Definition set_alloc_fail (c : curses) (s : list bool) : curses :=
  mkCurses (LINES c) (COLS c) (curscr c) (wins c) (cells c) s.

(** The next entry of the allocation schedule: [true] when the allocation
    fails; an empty schedule lets every allocation succeed. *)
Definition next_alloc (c : curses) : curses * bool :=
  match alloc_fail c with
  | [] => (c, false)
  | b :: s => (set_alloc_fail c s, b)
  end.

(** Modelled from the spec: PDC_makenew (window.c) is not among the sources;
    it is the collaborator's allocate(height, width, originRow, originCol) ->
    Buffer | failure.  The new window has the requested size and origin, a
    line-pointer array and two damage arrays of [nlines] entries, every line
    marked changed, the cursor at the origin and no flags. *)
Definition PDC_makenew (c : curses) (nlines ncols begy begx : Z)
  : curses * option nat :=
  let (c, failed) := next_alloc c in
  if failed || (nlines <? 0) then (c, None)
  else
    let n := Z.to_nat nlines in
    let w := mkWINDOW 0 0 nlines ncols begy begx 0 0
               ((nlines =? LINES c) && (ncols =? COLS c))
               false false false false
               (replicate n NullRow) (replicate n 0)
               (replicate n (ncols - 1)) None in
    (set_wins c (wins c ++ [w]), Some (length (wins c))).

(** Modelled from the spec: PDC_makelines (window.c) is not among the sources;
    it is the collaborator's deriveRows(Buffer) -> Buffer, which materializes
    row storage: one fresh block of [_maxx] cells for each line. *)
Definition PDC_makelines (c : curses) (p : option nat) : outcome (curses * option nat) :=
  let* w := get_win c p in
  let (c, failed) := next_alloc c in
  if failed || (_maxx w <? 0) then Done (c, None)
  else
    let n := length (_y w) in
    let base := length (cells c) in
    let w' := mkWINDOW (_cury w) (_curx w) (_maxy w) (_maxx w) (_begy w)
                (_begx w) (_flags w) (_attrs w) (_clear w) (_leaveit w)
                (_scroll w) (_nodelay w) (_use_keypad w)
                (map (fun i => RowAt (base + i)%nat 0) (seq 0 n))
                (_firstch w) (_lastch w) (_parent w) in
    let m := cells c ++ replicate n (replicate (Z.to_nat (_maxx w)) 0) in
    Done (put_win (set_cells c m) p w', p).

(** Modelled from the spec: werase (clear.c) is not among the sources; it is
    the collaborator's erase(Buffer): every cell becomes a blank, every line
    is marked changed and the cursor goes to the origin. *)
Definition blank : chtype := 32.

Fixpoint erase_rows (m : list (list chtype)) (ys : list rowptr) (n : Z)
  : outcome (list (list chtype)) :=
  match ys with
  | [] => Done m
  | p :: ys =>
    let* m := store_cells m p (replicate (Z.to_nat n) blank) in
    erase_rows m ys n
  end.

Definition werase (c : curses) (p : option nat) : outcome curses :=
  let* w := get_win c p in
  let* m := erase_rows (cells c) (_y w) (_maxx w) in
  let n := length (_y w) in
  let w' := set_cursor (set_damage w (replicate n 0)
                          (replicate n (_maxx w - 1))) 0 0 in
  Done (put_win (set_cells c m) p w').

Definition set_flags (w : WINDOW) (f : Z) : WINDOW :=
  mkWINDOW (_cury w) (_curx w) (_maxy w) (_maxx w) (_begy w) (_begx w)
    f (_attrs w) (_clear w) (_leaveit w) (_scroll w) (_nodelay w)
    (_use_keypad w) (_y w) (_firstch w) (_lastch w) (_parent w).

Definition set_y (w : WINDOW) (ys : list rowptr) : WINDOW :=
  mkWINDOW (_cury w) (_curx w) (_maxy w) (_maxx w) (_begy w) (_begx w)
    (_flags w) (_attrs w) (_clear w) (_leaveit w) (_scroll w) (_nodelay w)
    (_use_keypad w) ys (_firstch w) (_lastch w) (_parent w).

Definition newpad (st : state) (nlines ncols : Z) : outcome (state * option nat) :=
  let (c, win) := PDC_makenew (cur st) nlines ncols (-1) (-1) in
  match win with
  | None => Done (set_cur st c, None)
  | Some _ =>
    let* cw := PDC_makelines c win in
    let (c, win) := cw : curses * option nat in
    match win with
    | None => Done (set_cur st c, None)
    | Some _ =>
      let* c := werase c win in
      let* w := get_win c win in
      let c := put_win c win (set_flags w _PAD) in
      let* smaxrow := int_op (Z.min (LINES c) nlines - 1) in
      let* smaxcol := int_op (Z.min (COLS c) ncols - 1) in
      Done (mkState c 0 0 0 0 smaxrow smaxcol, win)
    end
  end.

(** The assignments under "Initialize window variables" in subpad. *)
Definition inherit (win orig : WINDOW) (parent : option nat) : WINDOW :=
  mkWINDOW (_cury win) (_curx win) (_maxy win) (_maxx win) (_begy win)
    (_begx win) (_flags win) (_attrs orig) (_clear win) (_leaveit orig)
    (_scroll orig) (_nodelay orig) (_use_keypad orig) (_y win)
    (_firstch win) (_lastch win) parent.

(** [for (i = 0; i < nlines; i++) win->_y[i] = (orig->_y[j++]) + k;] *)
Fixpoint alias_rows (fuel : nat) (c : curses) (win orig : option nat)
    (i j k nlines : Z) : outcome curses :=
  if i <? nlines then
    match fuel with
    | O => Undef
    | S fuel' =>
      let* ow := get_win c orig in
      let* p := aget (_y ow) j in
      let* j := int_op (j + 1) in
      let* w := get_win c win in
      let* ys := aset (_y w) i (ptr_add p k) in
      let c := put_win c win (set_y w ys) in
      let* i := int_op (i + 1) in
      alias_rows fuel' c win orig i j k nlines
    end
  else Done c.

Definition subpad (st : state) (orig : option nat)
    (nlines ncols begy begx : Z) : outcome (state * option nat) :=
  let j := begy in
  let k := begx in
  match orig with
  | None => Done (st, None)
  | Some _ =>
    let* ow := get_win (cur st) orig in
    if Z.land (_flags ow) _PAD =? 0 then Done (st, None)
    else if (begy <? _begy ow) || (begx <? _begx ow) then Done (st, None)
    else
      let* bottom := int_op (begy + nlines) in
      let* obottom := int_op (_begy ow + _maxy ow) in
      if bottom >? obottom then Done (st, None)
      else
        let* right := int_op (begx + ncols) in
        let* oright := int_op (_begx ow + _maxx ow) in
        if right >? oright then Done (st, None)
        else
          let* nlines := (if nlines =? 0 then int_op (_maxy ow - 1 - j)
                          else Done nlines) in
          let* ncols := (if ncols =? 0 then int_op (_maxx ow - 1 - k)
                         else Done ncols) in
          let (c, win) := PDC_makenew (cur st) nlines ncols begy begx in
          match win with
          | None => Done (set_cur st c, None)
          | Some _ =>
            let* w := get_win c win in
            let* ow := get_win c orig in
            let c := put_win c win (inherit w ow orig) in
            let* c := alias_rows (Z.to_nat nlines) c win orig 0 j k nlines in
            let* w := get_win c win in
            let c := put_win c win (set_flags w _SUBPAD) in
            let* smaxrow := int_op (Z.min (LINES c) nlines - 1) in
            let* smaxcol := int_op (Z.min (COLS c) ncols - 1) in
            Done (mkState c 0 0 0 0 smaxrow smaxcol, win)
          end
  end.

(** ** prefresh and pechochar *)

Section Collaborators.

(** waddch (addch.c) and doupdate (refresh.c) are not among the sources.
    They belong to other files, so the statics of pdc_pad.c are out of
    their reach: they act on the curses data alone. *)
Variable waddch : curses -> option nat -> chtype -> outcome (curses * Z).
Variable doupdate : curses -> outcome (curses * Z).

Definition prefresh (st : state) (win : option nat)
    (py px sy1 sx1 sy2 sx2 : Z) : outcome (state * Z) :=
  let* r := pnoutrefresh st win py px sy1 sx1 sy2 sx2 in
  let (st, rc) := r : state * Z in
  if rc =? ERR then Done (st, ERR)
  else
    let* d := doupdate (cur st) in
    Done (set_cur st (fst d), OK).

Definition pechochar (st : state) (pad : option nat) (ch : chtype)
  : outcome (state * Z) :=
  let* a := waddch (cur st) pad ch in
  let (c, rc) := a : curses * Z in
  let st := set_cur st c in
  if rc =? ERR then Done (st, ERR)
  else prefresh st pad (save_pminrow st) (save_pmincol st)
         (save_sminrow st) (save_smincol st)
         (save_smaxrow st) (save_smaxcol st).

(** [pecho_wchar], compiled with CONFIG_PDCURSES_WIDE; [wch] is the
    character the argument points to, [None] for a null pointer. *)
Definition pecho_wchar (st : state) (pad : option nat) (wch : option chtype)
  : outcome (state * Z) :=
  match wch with
  | None => Done (st, ERR)
  | Some ch =>
    let* a := waddch (cur st) pad ch in
    let (c, rc) := a : curses * Z in
    let st := set_cur st c in
    if rc =? ERR then Done (st, ERR)
    else prefresh st pad (save_pminrow st) (save_pmincol st)
           (save_sminrow st) (save_smincol st)
           (save_smaxrow st) (save_smaxcol st)
  end.

End Collaborators.

(** ** Observations used by the statements *)

(** The parts of a window that the copy loop leaves alone: everything but
    the damage arrays. *)
Definition skeleton (w : WINDOW) : WINDOW := set_damage w [] [].

(** Clamping of a negative coordinate, as in [if (py < 0) py = 0;]. *)
Definition clamp (z : Z) : Z := if z <? 0 then 0 else z.

(** The new lower bound of a damage range that takes in column [sx1]. *)
Definition upd_first (sx1 f : Z) : Z :=
  if (f =? _NO_CHANGE) || (f >? sx1) then sx1 else f.

(** The new upper bound of a damage range that takes in column [sx2]. *)
Definition upd_last (sx2 l : Z) : Z := if sx2 >? l then sx2 else l.

(** Screen line [s] is copied by the walk that starts at screen line [sline]
    and pad line [pline] and ends at screen line [sy2]. *)
Definition touched (sline pline sy2 maxy s : Z) : bool :=
  (sline <=? s) && (s <=? sy2) && (pline + (s - sline) <? maxy).

(** Pad line [p] is copied by that walk. *)
Definition pad_touched (sline pline sy2 maxy p : Z) : bool :=
  (pline <=? p) && (sline + (p - pline) <=? sy2) && (p <? maxy).

(** [l[i]] as an option, for an [int] index. *)
Definition zget {A : Type} (l : list A) (i : Z) : option A :=
  if i <? 0 then None else l !! Z.to_nat i.

(** The cell a [chtype *] points to. *)
Definition cell_at (m : list (list chtype)) (p : rowptr) : option chtype :=
  match p with
  | NullRow => None
  | RowAt b o => match m !! b with
                 | Some row => zget row o
                 | None => None
                 end
  end.

(** The cell at line [r], column [x] of the window [p]. *)
Definition win_cell (c : curses) (p : option nat) (r x : Z) : option chtype :=
  match get_win c p with
  | Done w => match zget (_y w) r with
              | Some q => cell_at (cells c) (ptr_add q x)
              | None => None
              end
  | Undef => None
  end.

Definition blk_of (p : rowptr) : option nat :=
  match p with
  | NullRow => None
  | RowAt b _ => Some b
  end.

(** curscr is an ordinary window: it carries neither pad flag. *)
Definition screen_not_pad (c : curses) : Prop :=
  forall scr, get_win c (curscr c) = Done scr ->
    Z.land (_flags scr) (Z.lor _PAD _SUBPAD) = 0.

(** The lines of the screen [scr] lie in blocks of their own: no two of them
    share a block and no line of the window [win] lies in one of them. *)
Definition rows_apart (scr win : WINDOW) : Prop :=
  NoDup (blk_of <$> _y scr) /\
  Forall (fun p => blk_of p ∉ blk_of <$> _y scr) (_y win).

(** Distinct lines of [ys] lie in distinct blocks. *)
Definition lines_distinct (ys : list rowptr) : Prop :=
  forall s s' b o o', zget ys s = Some (RowAt b o) ->
    zget ys s' = Some (RowAt b o') -> s = s'.

(** No line of [yw] lies in a block of [ys]. *)
Definition lines_apart (ys yw : list rowptr) : Prop :=
  forall s p b o o', zget ys s = Some (RowAt b o) ->
    zget yw p = Some (RowAt b o') -> False.

(** The test that decides whether pnoutrefresh moves the screen cursor:
    cursor placement is not suppressed and the pad cursor lies in the part
    of the pad that is displayed. *)
Definition cursor_shown (win : WINDOW) (py px sy1 sx1 sy2 sx2 : Z) : Prop :=
  _leaveit win = false /\
  py <= _cury win <= py + (sy2 - sy1) /\
  px <= _curx win <= px + (sx2 - sx1).

(** The union of the damage range [(f, l)] of a line with the columns
    [sx1 .. sx2]; a range that starts at the "no change" sentinel has no
    lower bound yet. *)
Definition damage_union (f l sx1 sx2 : Z) : Z * Z :=
  (if f =? _NO_CHANGE then sx1 else Z.min f sx1, Z.max l sx2).

(** The six saved values. *)
Definition saved (st : state) : list Z :=
  [save_pminrow st; save_pmincol st; save_sminrow st; save_smincol st;
   save_smaxrow st; save_smaxcol st].

(** A screen of [lines] by [cols] cells with nothing drawn on it, as
    initscr leaves it, for the examples. *)
Definition screen_window (lines cols : nat) : WINDOW :=
  mkWINDOW 0 0 (Z.of_nat lines) (Z.of_nat cols) 0 0 0 0 false false false
    false false (map (fun i => RowAt i 0) (seq 0 lines))
    (replicate lines _NO_CHANGE) (replicate lines _NO_CHANGE) None.

Definition screen (lines cols : nat) : state :=
  mkState (mkCurses (Z.of_nat lines) (Z.of_nat cols) (Some 0%nat)
             [screen_window lines cols]
             (replicate lines (replicate cols 0)) [])
    0 0 0 0 0 0.

Definition state_of {A : Type} (o : outcome (state * A)) : state :=
  match o with
  | Done (st, _) => st
  | Undef => screen 0 0
  end.

Definition win_of (c : curses) (p : option nat) : WINDOW :=
  match get_win c p with
  | Done w => w
  | Undef => screen_window 0 0
  end.

(** A 4 x 6 screen with one 3 x 3 pad (window 1). *)
Definition small_pad : state := state_of (newpad (screen 4 6) 3 3).

(** The same with the cells of pad line [r] holding [10 * r + column] and
    the pad cursor at line [y], column [x]. *)
Definition drawn_pad (y x : Z) : state :=
  let c := cur small_pad in
  let w := win_of c (Some 1%nat) in
  set_cur small_pad
    (put_win (set_cells c (take 4 (cells c) ++ [[0; 1; 2]; [10; 11; 12]; [20; 21; 22]]))
       (Some 1%nat) (set_cursor w y x)).

(** Modelled from the spec: waddch (addch.c) is not among the sources; it is
    the collaborator's appendCell(Buffer, cell), which stores the cell at the
    cursor, marks the line changed there and advances the cursor (here by
    one column, staying on the last column of a line). *)
Definition waddch_model (c : curses) (p : option nat) (ch : chtype)
  : outcome (curses * Z) :=
  match p with
  | None => Done (c, ERR)
  | Some _ =>
    let* w := get_win c p in
    if (_cury w <? 0) || (_cury w >=? _maxy w)
       || (_curx w <? 0) || (_curx w >=? _maxx w)
    then Done (c, ERR)
    else
      let* q := aget (_y w) (_cury w) in
      let* m := store_cells (cells c) (ptr_add q (_curx w)) [ch] in
      let* f := aget (_firstch w) (_cury w) in
      let* l := aget (_lastch w) (_cury w) in
      let* fs := aset (_firstch w) (_cury w) (upd_first (_curx w) f) in
      let* ls := aset (_lastch w) (_cury w) (upd_last (_curx w) l) in
      let x := if _curx w + 1 <? _maxx w then _curx w + 1 else _curx w in
      Done (put_win (set_cells c m) p
              (set_cursor (set_damage w fs ls) (_cury w) x), OK)
  end.

(** Modelled from the spec: doupdate (refresh.c) is not among the sources; it
    is the collaborator's flush(), which consumes the damage ranges of the
    screen and its pending full redraw. *)
Definition doupdate_model (c : curses) : outcome (curses * Z) :=
  let* scr := get_win c (curscr c) in
  let n := length (_firstch scr) in
  Done (put_win c (curscr c)
          (set_clear (set_damage scr (replicate n _NO_CHANGE)
                        (replicate n _NO_CHANGE)) false), OK).

(** The state after an explicit prefresh of [small_pad] with the viewport
    pad (1,1), screen (1,2)-(2,3), and the curses data after the waddch of
    a following pechochar. *)
Definition after_prefresh : state :=
  state_of (prefresh doupdate_model small_pad (Some 1%nat) 1 1 1 2 2 3).

Definition after_waddch : curses :=
  match waddch_model (cur after_prefresh) (Some 1%nat) 65 with
  | Done (c, _) => c
  | Undef => cur after_prefresh
  end.

(** ** Well-formed windows and further examples *)

(** The row block a line pointer lies in has room for [width] cells from
    the pointer on. *)
Definition row_fits (m : list (list chtype)) (width : Z) (p : rowptr) : bool :=
  match p with
  | NullRow => false
  | RowAt b o =>
    match m !! b with
    | Some row => (0 <=? o) && (o + width <=? Z.of_nat (length row))
    | None => false
    end
  end.

(** A window as the library keeps it: [_maxy] line pointers and damage
    entries, and room for [_maxx] cells on every line. *)
Definition window_ok (c : curses) (p : option nat) : bool :=
  match get_win c p with
  | Done w =>
    (0 <=? _maxx w) && (_maxx w <=? INT_MAX)
    && (Z.of_nat (length (_y w)) =? _maxy w)
    && (Z.of_nat (length (_firstch w)) =? _maxy w)
    && (Z.of_nat (length (_lastch w)) =? _maxy w)
    && forallb (row_fits (cells c) (_maxx w)) (_y w)
  | Undef => false
  end.

(** What the copy loop of pnoutrefresh keeps of the state it starts in: the
    screen [cs], the lengths [sh] of the row blocks, and of the pad [win]
    and the screen window [scr] the line pointers and the lengths of the
    damage arrays. *)
Definition copy_ready (w cs : option nat) (win scr : WINDOW) (sh : list nat)
    (c : curses) : Prop :=
  curscr c = cs /\ length <$> cells c = sh /\
  exists win' scr',
    get_win c w = Done win' /\ get_win c cs = Done scr' /\
    _y win' = _y win /\ _maxy win' = _maxy win /\ _y scr' = _y scr /\
    length (_firstch win') = length (_firstch win) /\
    length (_lastch win') = length (_lastch win) /\
    length (_firstch scr') = length (_firstch scr) /\
    length (_lastch scr') = length (_lastch scr).

(** The curses data an outcome ends with, for the examples. *)
Definition curses_of (o : outcome (curses * Z)) (dflt : curses) : curses :=
  match o with
  | Done (c, _) => c
  | Undef => dflt
  end.

(** The sub-pad of the examples: the region of [small_pad] from line 1,
    column 1 on, with the sizes left to subpad. *)
Definition small_subpad : state :=
  state_of (subpad small_pad (Some 1%nat) 0 0 1 1).

(** The drawn pad with a full redraw pending on it. *)
Definition flagged_pad : state :=
  let c := cur (drawn_pad 0 0) in
  set_cur small_pad
    (put_win c (Some 1%nat) (set_clear (win_of c (Some 1%nat)) true)).

End Pad.

(** * nshlib/nsh_fsutils.c *)

Module Nsh.

(** Modelled from the spec: nsh.h, errno.h and the NuttX configuration are
    not among the sources.  The result codes and the two error numbers take
    the values NuttX gives them; [IOBUFFERSIZE] and
    [CONFIG_DISABLE_SIGNALS] are settings of the build. *)
Definition OK : Z := 0.
Definition ERROR : Z := -1.
Definition ENOENT : Z := 2.
Definition EINTR : Z := 4.

Record config : Type := mkConfig {
  CONFIG_DISABLE_SIGNALS : bool;
  IOBUFFERSIZE : Z
}.

(** [size_t] is a 32-bit unsigned integer. *)
Definition size_wrap (z : Z) : Z := z mod 2 ^ 32.

(** What the next call of read() does: fail with an error number, or
    transfer at most [S k] bytes. *)
Inductive rd_event : Type :=
  | RdFail (e : Z)
  | RdShort (k : nat).

(** What the next call of nsh_write() does: fail with an error number, or
    accept at most [k] bytes. *)
Inductive wr_event : Type :=
  | WrFail (e : Z)
  | WrShort (k : nat).

(** The calls of nsh_output(): the two formats of nsh_fsutils.c and plain
    text. *)
Inductive message : Type :=
  | CmdFailed (cmd op : string) (e : Z)
  | SignalRecvd (cmd : string)
  | Text (s : string).

Inductive out_event : Type :=
  | Wrote (bs : list Z)
  | Printed (m : message).

(** The world around the two helpers: the files, what the coming read() and
    nsh_write() calls will do (once a schedule is used up every call
    transfers all it is asked for), errno, whether malloc() fails, what has
    reached the console, and the buffers nsh_write() was called with. *)
Record world : Type := mkWorld {
  files : list (string * list Z);
  reads : list rd_event;
  writes : list wr_event;
  errno : Z;
  malloc_fail : bool;
  out : list out_event;
  requests : list (list Z)
}.

Definition set_reads (w : world) (r : list rd_event) : world :=
  mkWorld (files w) r (writes w) (errno w) (malloc_fail w) (out w)
    (requests w).

Definition set_writes (w : world) (r : list wr_event) : world :=
  mkWorld (files w) (reads w) r (errno w) (malloc_fail w) (out w)
    (requests w).

Definition set_errno (w : world) (e : Z) : world :=
  mkWorld (files w) (reads w) (writes w) e (malloc_fail w) (out w)
    (requests w).

Definition emit (w : world) (o : out_event) : world :=
  mkWorld (files w) (reads w) (writes w) (errno w) (malloc_fail w)
    (out w ++ [o]) (requests w).

Definition log_request (w : world) (bs : list Z) : world :=
  mkWorld (files w) (reads w) (writes w) (errno w) (malloc_fail w) (out w)
    (requests w ++ [bs]).

Definition nsh_output (w : world) (m : message) : world := emit w (Printed m).

Definition newline : string := String (Ascii.ascii_of_nat 10) EmptyString.

(** The bytes that went through nsh_write(). *)
Fixpoint written (o : list out_event) : list Z :=
  match o with
  | [] => []
  | Wrote bs :: o => bs ++ written o
  | Printed _ :: o => written o
  end.

Fixpoint printed (o : list out_event) : list message :=
  match o with
  | [] => []
  | Wrote _ :: o => printed o
  | Printed m :: o => m :: printed o
  end.

(** An open file: its contents and the file position. *)
Record file : Type := mkFile {
  data : list Z;
  pos : nat
}.

Fixpoint lookup_file (fs : list (string * list Z)) (path : string)
  : option (list Z) :=
  match fs with
  | [] => None
  | (p, d) :: fs => if String.eqb p path then Some d else lookup_file fs path
  end.

(** [open(filepath, O_RDONLY)] *)
Definition sys_open (w : world) (path : string) : world * option file :=
  match lookup_file (files w) path with
  | Some d => (w, Some (mkFile d 0))
  | None => (set_errno w ENOENT, None)
  end.

(** [read(fd, buf, count)]: the new world and file, the result and the
    bytes delivered. *)
Definition sys_read (w : world) (f : file) (count : Z)
  : world * file * Z * list Z :=
  let avail := Z.of_nat (length (data f) - pos f) in
  let deliver (w : world) (n : Z) :=
    let k := Z.to_nat n in
    (w, mkFile (data f) (pos f + k), n, take k (drop (pos f) (data f))) in
  match reads w with
  | RdFail e :: r => (set_errno (set_reads w r) e, f, -1, [])
  | RdShort k :: r =>
    deliver (set_reads w r) (Z.min (Z.of_nat (S k)) (Z.min count avail))
  | [] => deliver w (Z.min count avail)
  end.

(** [nsh_write(vtbl, buffer, nbytes)]: the new world and the result. *)
Definition nsh_write (w : world) (buffer : list Z) (nbytes : Z) : world * Z :=
  let w := log_request w (take (Z.to_nat nbytes) buffer) in
  match writes w with
  | WrFail e :: r => (set_errno (set_writes w r) e, -1)
  | WrShort k :: r =>
    let n := Z.min (Z.of_nat k) nbytes in
    (emit (set_writes w r) (Wrote (take (Z.to_nat n) buffer)), n)
  | [] => (emit w (Wrote (take (Z.to_nat nbytes) buffer)), nbytes)
  end.

(** The report of a failed read() or nsh_write() in nsh_catfile. *)
Definition report (cfg : config) (w : world) (cmd op : string) (errval e : Z)
  : world :=
  if negb (CONFIG_DISABLE_SIGNALS cfg) && (errval =? EINTR)
  then nsh_output w (SignalRecvd cmd)
  else nsh_output w (CmdFailed cmd op e).

(** [while (nbyteswritten < nbytesread) { ... }] of nsh_catfile; the result
    is the new world and the new value of [ret]. *)
Fixpoint write_loop (fuel : nat) (cfg : config) (w : world) (cmd : string)
    (buffer : list Z) (nbytesread nbyteswritten ret : Z)
  : outcome (world * Z) :=
  if nbyteswritten <? nbytesread then
    match fuel with
    | O => Undef
    | S fuel' =>
      let (w, n) := nsh_write w buffer nbytesread in
      if n <? 0 then
        let errval := errno w in
        Done (report cfg w cmd "write" errval (errno w), ERROR)
      else
        write_loop fuel' cfg w cmd buffer nbytesread (nbyteswritten + n) ret
    end
  else Done (w, ret).

(** [for (;;) { ... }] of nsh_catfile. *)
Fixpoint cat_loop (fuel : nat) (cfg : config) (w : world) (cmd : string)
    (f : file) (ret : Z) : outcome (world * Z) :=
  match fuel with
  | O => Undef
  | S fuel' =>
    let '(w, f, nbytesread, buffer) := sys_read w f (IOBUFFERSIZE cfg) in
    if nbytesread <? 0 then
      let errval := errno w in
      Done (report cfg w cmd "read" errval errval, ERROR)
    else if nbytesread >? 0 then
      let* r := write_loop (S (length (writes w))) cfg w cmd buffer
                  nbytesread 0 ret in
      cat_loop fuel' cfg (fst r) cmd f (snd r)
    else Done (w, ret)
  end.

Definition nsh_catfile (cfg : config) (w : world) (cmd filepath : string)
  : outcome (world * Z) :=
  let ret := OK in
  let (w, fd) := sys_open w filepath in
  match fd with
  | None => Done (nsh_output w (CmdFailed cmd "open" (errno w)), ERROR)
  | Some f =>
    if malloc_fail w
    then Done (nsh_output w (CmdFailed cmd "malloc" (errno w)), ERROR)
    else
      let* r := cat_loop (S (length (reads w) + length (data f))) cfg w cmd
                  f ret in
      Done (nsh_output (fst r) (Text newline), snd r)
  end.

(** [memcpy] of the bytes read() delivers into the caller's buffer. *)
Definition blit (buffer : list Z) (off : Z) (bs : list Z)
  : outcome (list Z) :=
  if (0 <=? off) && (off + Z.of_nat (length bs) <=? Z.of_nat (length buffer))
  then Done (take (Z.to_nat off) buffer ++ bs
             ++ drop (Z.to_nat off + length bs) buffer)
  else Undef.

(** [do { ... } while (buflen > 0);] of nsh_readfile; the result is the new
    world, the caller's buffer and the new value of [ret]. *)
Fixpoint read_loop (fuel : nat) (w : world) (cmd : string) (f : file)
    (buffer : list Z) (buflen bufptr remaining ntotal ret : Z)
  : outcome (world * list Z * Z) :=
  match fuel with
  | O => Undef
  | S fuel' =>
    let '(w, f, nread, bs) := sys_read w f remaining in
    if nread <? 0 then
      let errcode := errno w in
      if negb (errcode =? EINTR)
      then Done (nsh_output w (CmdFailed cmd "read" (errno w)), buffer, ret)
      else if buflen >? 0
           then read_loop fuel' w cmd f buffer buflen bufptr remaining
                  ntotal ret
           else Done (w, buffer, ret)
    else if nread =? 0 then Done (w, buffer, OK)
    else
      let* buffer := blit buffer bufptr bs in
      let ntotal := ntotal + nread in
      let* buffer := aset buffer ntotal 0 in
      let bufptr := bufptr + nread in
      let remaining := size_wrap (remaining - nread) in
      if buflen >? 0
      then read_loop fuel' w cmd f buffer buflen bufptr remaining ntotal ret
      else Done (w, buffer, ret)
  end.

Definition nsh_readfile (w : world) (cmd filepath : string)
    (buffer : list Z) (buflen : Z) : outcome (world * list Z * Z) :=
  let (w, fd) := sys_open w filepath in
  match fd with
  | None => Done (nsh_output w (CmdFailed cmd "open" (errno w)), buffer, ERROR)
  | Some f =>
    let ntotal := 0 in
    let* buffer := aset buffer 0 0 in
    let bufptr := 0 in
    let remaining := size_wrap (buflen - 1) in
    let ret := ERROR in
    read_loop (S (length (reads w) + Z.to_nat remaining)) w cmd f buffer
      buflen bufptr remaining ntotal ret
  end.

(** ** Observations used by the statements *)

(** The C string a buffer holds: the bytes before the first NUL. *)
Fixpoint c_string (buffer : list Z) : list Z :=
  match buffer with
  | [] => []
  | b :: buffer => if b =? 0 then [] else b :: c_string buffer
  end.

(** The bytes of an open file after the file position. *)
Definition avail (f : file) : Z := Z.of_nat (length (data f) - pos f).

(** The buffer with [n] bytes of the file [d] in it and the terminator
    after them. *)
Definition filled (d buffer : list Z) (n : nat) : list Z :=
  take n d ++ [0] ++ drop (n + 1) buffer.

(** A world with one file, "/f", for the examples. *)
Definition one_file (d : list Z) (r : list rd_event) (wr : list wr_event)
  : world := mkWorld [("/f"%string, d)] r wr 0 false [] [].

Definition default_config : config := mkConfig false 4.

End Nsh.

(** * Facts about the outcome monad *)

(** Closed facts are settled by evaluation. *)
Ltac by_eval := vm_compute; reflexivity.

Lemma bind_Done {A B : Type} (m : outcome A) (f : A -> outcome B) r :
  bind m f = Done r -> exists a, m = Done a /\ f a = Done r.
Proof. destruct m; simpl; [eauto | discriminate]. Qed.

(** * Facts about pdc_pad.c *)

Module PadFacts.
Import Pad.

Lemma int_op_Done z r : int_op z = Done r -> r = z /\ INT_MIN <= z <= INT_MAX.
Proof.
  unfold int_op. destruct (_ && _) eqn:E; [|discriminate].
  intros [= <-]. apply andb_true_iff in E. lia.
Qed.

Lemma aget_Done {A : Type} (l : list A) i x :
  aget l i = Done x -> 0 <= i /\ l !! Z.to_nat i = Some x.
Proof.
  unfold aget. destruct (Z.ltb_spec i 0); [discriminate|].
  destruct (l !! Z.to_nat i); [|discriminate]. intros [= ->]. auto.
Qed.

Lemma aget_zget {A : Type} (l : list A) i x :
  aget l i = Done x <-> zget l i = Some x.
Proof.
  unfold aget, zget. destruct (i <? 0); [split; discriminate|].
  destruct (l !! Z.to_nat i); split; congruence.
Qed.

Lemma aset_Done {A : Type} (l : list A) i v l' :
  aset l i v = Done l' ->
  0 <= i < Z.of_nat (length l) /\ l' = <[Z.to_nat i := v]> l.
Proof.
  unfold aset. destruct (_ && _) eqn:E; [|discriminate].
  intros [= <-]. apply andb_true_iff in E. split; [lia|done].
Qed.

Lemma zget_insert {A : Type} (l : list A) i j v :
  0 <= i < Z.of_nat (length l) ->
  zget (<[Z.to_nat i := v]> l) j = if j =? i then Some v else zget l j.
Proof.
  intros Hi. unfold zget. destruct (Z.eqb_spec j i) as [->|Hne].
  - destruct (Z.ltb_spec i 0); [lia|]. apply list_lookup_insert_eq. lia.
  - destruct (Z.ltb_spec j 0); [done|]. apply list_lookup_insert_ne. lia.
Qed.

Ltac bool_hyps :=
  repeat match goal with
  | H : _ && _ = true |- _ => apply andb_true_iff in H; destruct H
  | H : _ || _ = false |- _ => apply orb_false_iff in H; destruct H
  | H : negb _ = true |- _ => apply negb_true_iff in H
  | H : negb _ = false |- _ => apply negb_false_iff in H
  | H : context [(_ >=? _)] |- _ => rewrite Z.geb_leb in H
  | H : context [(_ >? _)] |- _ => rewrite Z.gtb_ltb in H
  | H : (_ <=? _) = true |- _ => apply Z.leb_le in H
  | H : (_ <=? _) = false |- _ => apply Z.leb_gt in H
  | H : (_ <? _) = true |- _ => apply Z.ltb_lt in H
  | H : (_ <? _) = false |- _ => apply Z.ltb_ge in H
  | H : (_ =? _) = true |- _ => apply Z.eqb_eq in H
  | H : (_ =? _) = false |- _ => apply Z.eqb_neq in H
  end.

Ltac inv_out :=
  repeat match goal with
  | H : bind _ _ = Done _ |- _ =>
      let x := fresh "x" in let E := fresh "E" in
      apply bind_Done in H; destruct H as (x & E & H)
  | H : Done _ = Done _ |- _ => injection H as H
  | H : Undef = Done _ |- _ => discriminate H
  | H : int_op _ = Done _ |- _ => apply int_op_Done in H; destruct H as [-> H]
  end.

Lemma get_put_same c p w w0 :
  get_win c p = Done w0 -> get_win (put_win c p w) p = Done w.
Proof.
  destruct p as [i|]; [|discriminate]. simpl.
  destruct (wins c !! i) eqn:E; [|discriminate]. intros _.
  rewrite list_lookup_insert_eq; [done|]. by eapply lookup_lt_Some.
Qed.

Lemma get_put_ne c p q w :
  p <> q -> get_win (put_win c p w) q = get_win c q.
Proof.
  destruct p as [i|], q as [j|]; simpl; try done.
  intros Hne. rewrite list_lookup_insert_ne; [done|congruence].
Qed.


Lemma copy_row_inv c w sline pline sx1 sx2 px n c' :
  copy_row c w sline pline sx1 sx2 px n = Done c' -> w <> curscr c ->
  exists win scr dst src m f l,
    get_win c w = Done win /\ get_win c (curscr c) = Done scr /\
    aget (_y scr) sline = Done dst /\ aget (_y win) pline = Done src /\
    memcpy (cells c) (ptr_add dst sx1) (ptr_add src px) n = Done m /\
    zget (_firstch scr) sline = Some f /\ zget (_lastch scr) sline = Some l /\
    0 <= pline < Z.of_nat (length (_firstch win)) /\
    pline < Z.of_nat (length (_lastch win)) /\
    c' = put_win
           (put_win (set_cells c m) (curscr c)
              (set_damage scr
                 (<[Z.to_nat sline := upd_first sx1 f]> (_firstch scr))
                 (<[Z.to_nat sline := upd_last sx2 l]> (_lastch scr))))
           w (set_damage win (<[Z.to_nat pline := _NO_CHANGE]> (_firstch win))
                (<[Z.to_nat pline := _NO_CHANGE]> (_lastch win))).
Proof.
  unfold copy_row. intros H Hne. inv_out.
  rename x into win, x0 into scr, x1 into dst, x2 into src, x3 into m,
    x4 into f, x5 into fs, x6 into l, x7 into ls, x8 into win2,
    x9 into wf, x10 into wl.
  simpl in E8. rewrite get_put_ne in E8 by congruence.
  change (get_win c w = Done win2) in E8. rewrite E in E8. injection E8 as <-.
  apply aset_Done in E9 as [Hp1 ->], E10 as [Hp2 ->].
  exists win, scr, dst, src, m, f, l.
  apply aget_zget in E4 as Hf. apply aget_zget in E6 as Hl.
  apply aget_Done in E4 as [_ E4], E6 as [_ E6].
  repeat split; try done; try lia.
  rewrite <- H. f_equal. f_equal. f_equal.
  - unfold upd_first. destruct (_ || _).
    + by apply aset_Done in E5 as [_ ->].
    + injection E5 as <-. symmetry. by apply list_insert_id.
  - unfold upd_last. destruct (sx2 >? l).
    + by apply aset_Done in E7 as [_ ->].
    + injection E7 as <-. symmetry. by apply list_insert_id.
Qed.

Lemma skeleton_set_damage w f l : skeleton (set_damage w f l) = skeleton w.
Proof. done. Qed.

Lemma zget_Some_range {A : Type} (l : list A) i x :
  zget l i = Some x -> 0 <= i < Z.of_nat (length l).
Proof.
  unfold zget. destruct (Z.ltb_spec i 0) as [|Hi]; [discriminate|].
  intros Hx%lookup_lt_Some. lia.
Qed.

Lemma put_win_globals c p w :
  curscr (put_win c p w) = curscr c /\ LINES (put_win c p w) = LINES c /\
  COLS (put_win c p w) = COLS c /\ cells (put_win c p w) = cells c /\
  alloc_fail (put_win c p w) = alloc_fail c.
Proof. by destruct p. Qed.

Lemma touched_spec sline pline sy2 maxy s :
  touched sline pline sy2 maxy s = true <->
  sline <= s <= sy2 /\ pline + (s - sline) < maxy.
Proof.
  unfold touched. rewrite !andb_true_iff, !Z.leb_le, Z.ltb_lt. lia.
Qed.

Lemma pad_touched_spec sline pline sy2 maxy p :
  pad_touched sline pline sy2 maxy p = true <->
  pline <= p /\ sline + (p - pline) <= sy2 /\ p < maxy.
Proof.
  unfold pad_touched. rewrite !andb_true_iff, !Z.leb_le, Z.ltb_lt. lia.
Qed.

Section CopyRows.
Variables (w : option nat) (sy2 sx1 sx2 px n : Z).

Lemma copy_rows_damage fuel : forall c sline pline c' win scr,
  copy_rows fuel c w sline pline sy2 sx1 sx2 px n = Done c' ->
  w <> curscr c ->
  get_win c w = Done win -> get_win c (curscr c) = Done scr ->
  exists win' scr',
    get_win c' w = Done win' /\ get_win c' (curscr c) = Done scr' /\
    curscr c' = curscr c /\ LINES c' = LINES c /\ COLS c' = COLS c /\
    skeleton win' = skeleton win /\ skeleton scr' = skeleton scr /\
    (forall s, touched sline pline sy2 (_maxy win) s = true ->
       0 <= s /\ 0 <= pline + (s - sline) /\
       is_Some (zget (_firstch scr) s) /\ is_Some (zget (_lastch scr) s)) /\
    (forall s, zget (_firstch scr') s =
       if touched sline pline sy2 (_maxy win) s
       then upd_first sx1 <$> zget (_firstch scr) s
       else zget (_firstch scr) s) /\
    (forall s, zget (_lastch scr') s =
       if touched sline pline sy2 (_maxy win) s
       then upd_last sx2 <$> zget (_lastch scr) s
       else zget (_lastch scr) s) /\
    (forall p, zget (_firstch win') p =
       if pad_touched sline pline sy2 (_maxy win) p
       then Some _NO_CHANGE else zget (_firstch win) p) /\
    (forall p, zget (_lastch win') p =
       if pad_touched sline pline sy2 (_maxy win) p
       then Some _NO_CHANGE else zget (_lastch win) p).
Proof.
  induction fuel as [|fuel IH]; intros c sline pline c' win scr H Hne Hw Hs;
    simpl in H.
  - destruct (Z.leb_spec sline sy2); [discriminate|]. injection H as <-.
    exists win, scr. split_and!; try done;
      try (intros s Hs2%touched_spec; lia);
      intros s; unfold touched, pad_touched;
      match goal with |- _ = if ?b then _ else _ => destruct b eqn:Hb end;
      try done; lia.
  - destruct (Z.leb_spec sline sy2) as [Hle|Hgt].
    2:{ injection H as <-.
        exists win, scr. split_and!; try done;
        try (intros s Hs2%touched_spec; lia);
        intros s; unfold touched, pad_touched;
        match goal with |- _ = if ?b then _ else _ => destruct b eqn:Hb end;
        try done; lia. }
    inv_out. rewrite Hw in E. injection E as <-.
    destruct (Z.ltb_spec pline (_maxy win)) as [Hlt|Hge].
    + apply copy_row_inv in E0 as
        (win0 & scr0 & dst & src & m & f & l & Hw0 & Hs0 & Hdst & Hsrc & Hm
         & Hf & Hl & Hp1 & Hp2 & ->); [|done].
      rewrite Hw in Hw0. injection Hw0 as <-.
      rewrite Hs in Hs0. injection Hs0 as <-.
      set (scr1 := set_damage scr _ _) in *.
      set (win1 := set_damage win _ _) in *.
      set (c1 := put_win _ w win1) in *.
      assert (Hc1 : curscr c1 = curscr c).
      { subst c1. by rewrite !(proj1 (put_win_globals _ _ _)). }
      assert (Hw1 : get_win c1 w = Done win1).
      { subst c1. eapply get_put_same. rewrite get_put_ne by congruence.
        exact Hw. }
      assert (Hs1 : get_win c1 (curscr c1) = Done scr1).
      { rewrite Hc1. subst c1. rewrite get_put_ne by done.
        eapply get_put_same. exact Hs. }
      apply (IH _ _ _ _ win1 scr1) in H as
        (win' & scr' & Hw' & Hs' & Hcur & HL & HC & Hkw & Hks & Hnn & Hf' & Hl'
         & Hpf & Hpl); [|congruence|done|done].
      exists win', scr'. rewrite Hc1 in *.
      assert (HLc : LINES c1 = LINES c).
      { subst c1. by destruct w, (curscr c). }
      assert (HCc : COLS c1 = COLS c).
      { subst c1. by destruct w, (curscr c). }
      apply aget_Done in Hdst as [Hs0 _].
      pose proof (zget_Some_range _ _ _ Hf) as Hrf.
      pose proof (zget_Some_range _ _ _ Hl) as Hrl.
      change (_maxy win1) with (_maxy win) in *.
      split_and!; try congruence;
        try (by rewrite Hkw); try (by rewrite Hks).
      * intros s Hs2%touched_spec.
        destruct (Z.eq_dec s sline) as [->|].
        { rewrite Hf, Hl. split_and!; try lia; by eexists. }
        destruct (Hnn s) as (? & ? & Hi1 & Hi2); [apply touched_spec; lia|].
        subst scr1. simpl in Hi1, Hi2.
        rewrite zget_insert in Hi1, Hi2 by done.
        destruct (Z.eqb_spec s sline); [lia|].
        split_and!; try done; lia.
      * intros s. rewrite Hf'. subst scr1. simpl.
        rewrite zget_insert by done. unfold touched.
        destruct (Z.eqb_spec s sline) as [->|Hne'].
        -- rewrite Hf.
           replace (_ && _ && (pline + 1 + _ <? _)) with false by lia.
           replace (_ && _ && _) with true by lia. done.
        -- replace ((sline <=? s) && (s <=? sy2) && (pline + (s - sline) <? _maxy win))
             with ((sline + 1 <=? s) && (s <=? sy2) && (pline + 1 + (s - (sline + 1)) <? _maxy win)) by lia.
           done.
      * intros s. rewrite Hl'. subst scr1. simpl.
        rewrite zget_insert by done. unfold touched.
        destruct (Z.eqb_spec s sline) as [->|Hne'].
        -- rewrite Hl.
           replace (_ && _ && (pline + 1 + _ <? _)) with false by lia.
           replace (_ && _ && _) with true by lia. done.
        -- replace ((sline <=? s) && (s <=? sy2) && (pline + (s - sline) <? _maxy win))
             with ((sline + 1 <=? s) && (s <=? sy2) && (pline + 1 + (s - (sline + 1)) <? _maxy win)) by lia.
           done.
      * intros p. rewrite Hpf. subst win1. simpl.
        rewrite zget_insert by done. unfold pad_touched.
        destruct (Z.eqb_spec p pline) as [->|Hne'].
        -- replace (_ && _ && _) with false by lia.
           replace (_ && _ && _) with true by lia. done.
        -- replace ((pline <=? p) && (sline + (p - pline) <=? sy2) && (p <? _maxy win))
             with ((pline + 1 <=? p) && (sline + 1 + (p - (pline + 1)) <=? sy2) && (p <? _maxy win)) by lia.
           done.
      * intros p. rewrite Hpl. subst win1. simpl.
        rewrite zget_insert by lia. unfold pad_touched.
        destruct (Z.eqb_spec p pline) as [->|Hne'].
        -- replace (_ && _ && _) with false by lia.
           replace (_ && _ && _) with true by lia. done.
        -- replace ((pline <=? p) && (sline + (p - pline) <=? sy2) && (p <? _maxy win))
             with ((pline + 1 <=? p) && (sline + 1 + (p - (pline + 1)) <=? sy2) && (p <? _maxy win)) by lia.
           done.
    + injection E0 as <-.
      apply (IH _ _ _ _ win scr) in H as
        (win' & scr' & Hw' & Hs' & Hcur & HL & HC & Hkw & Hks & Hnn & Hf' & Hl'
         & Hpf & Hpl); [|done..].
      exists win', scr'.
      split_and!; try congruence;
        try (intros s Hs2%touched_spec; lia);
        intros s; rewrite ?Hf', ?Hl', ?Hpf, ?Hpl; unfold touched, pad_touched;
        repeat match goal with |- context [if ?b then _ else _] => destruct b eqn:? end;
        try done; lia.
Qed.
End CopyRows.


Lemma splice_lookup {A : Type} (row cs : list A) (o n i : nat) :
  length cs = n -> (o + n <= length row)%nat ->
  (take o row ++ cs ++ drop (o + n) row) !! i =
  if decide (o <= i < o + n)%nat then cs !! (i - o)%nat else row !! i.
Proof.
  intros <- Hlen. case_decide as Hi.
  - rewrite lookup_app_r; rewrite length_take_le by lia; [|lia].
    rewrite lookup_app_l by lia. done.
  - destruct (decide (i < o)%nat).
    + rewrite lookup_app_l by (rewrite length_take_le; lia).
      by rewrite lookup_take_lt.
    + rewrite lookup_app_r; rewrite length_take_le by lia; [|lia].
      rewrite lookup_app_r by lia. rewrite lookup_drop. f_equal. lia.
Qed.

Lemma memcpy_cell m bd od bs os n m' :
  memcpy m (RowAt bd od) (RowAt bs os) n = Done m' ->
  0 <= n /\ 0 <= od /\ 0 <= os /\
  (forall k, 0 <= k < n -> is_Some (cell_at m (RowAt bs (os + k)))) /\
  forall b i, cell_at m' (RowAt b i) =
    if Nat.eqb b bd && (od <=? i) && (i <? od + n)
    then cell_at m (RowAt bs (os + (i - od)))
    else cell_at m (RowAt b i).
Proof.
  unfold memcpy, load_cells, store_cells. intros H. inv_out.
  destruct (m !! bs) as [srow|] eqn:Hsrow; [|discriminate].
  destruct (_ && _) eqn:Hb in E; [|discriminate]. injection E as <-.
  destruct (overlap _ _ _) eqn:Hov; [discriminate|]. clear Hov.
  destruct (m !! bd) as [drow|] eqn:Hdrow; [|discriminate].
  destruct (_ && _) eqn:Hb2 in H; [|discriminate]. injection H as <-.
  bool_hyps.
  assert (Hn : 0 <= n) by lia. assert (Hos : 0 <= os) by lia.
  assert (Hsl : os + n <= Z.of_nat (length srow)) by lia.
  assert (Hlen : length (take (Z.to_nat n) (drop (Z.to_nat os) srow)) = Z.to_nat n).
  { rewrite length_take_le; [done|]. rewrite length_drop. lia. }
  rewrite Hlen in H0 |- *.
  assert (Hod : 0 <= od) by lia.
  assert (Hdl : od + n <= Z.of_nat (length drow)) by lia.
  split_and!; try done.
  - intros k Hk. simpl. rewrite Hsrow. unfold zget.
    destruct (Z.ltb_spec (os + k) 0); [lia|].
    apply lookup_lt_is_Some. lia.
  - intros b i. simpl. destruct (Nat.eqb_spec b bd) as [->|Hne]; simpl.
    + rewrite list_lookup_insert_eq by (by eapply lookup_lt_Some).
      rewrite Hdrow, Hsrow. unfold zget.
      destruct (Z.ltb_spec i 0) as [Hi|Hi].
      { replace ((od <=? i) && _) with false by lia. done. }
      rewrite (splice_lookup _ _ _ (Z.to_nat n)) by (done || lia).
      case_decide as Hin.
      * replace ((od <=? i) && _) with true by lia.
        destruct (Z.ltb_spec (os + (i - od)) 0); [lia|].
        rewrite lookup_take_lt by lia. rewrite lookup_drop. f_equal. lia.
      * replace ((od <=? i) && _) with false by lia. done.
    + rewrite list_lookup_insert_ne by done. done.
Qed.

Lemma memcpy_ptrs m dst src n m' :
  memcpy m dst src n = Done m' ->
  exists bd od bs os, dst = RowAt bd od /\ src = RowAt bs os.
Proof.
  unfold memcpy. intros H. inv_out.
  destruct src as [|bs os]; [discriminate|].
  destruct (overlap _ _ _); [discriminate|].
  destruct dst as [|bd od]; [discriminate|]. eauto 6.
Qed.

Section CopyCells.
Variables (w : option nat) (sy2 sx1 sx2 px n : Z).

Lemma copy_rows_cells fuel : forall c sline pline c' win scr,
  copy_rows fuel c w sline pline sy2 sx1 sx2 px n = Done c' ->
  w <> curscr c ->
  get_win c w = Done win -> get_win c (curscr c) = Done scr ->
  lines_distinct (_y scr) -> lines_apart (_y scr) (_y win) ->
  (forall s, touched sline pline sy2 (_maxy win) s = true ->
     exists b o bp op,
       zget (_y scr) s = Some (RowAt b o) /\
       zget (_y win) (pline + (s - sline)) = Some (RowAt bp op) /\
       0 <= n /\
       forall k, 0 <= k < n ->
         is_Some (cell_at (cells c) (RowAt bp (op + px + k))) /\
         cell_at (cells c') (RowAt b (o + sx1 + k)) =
         cell_at (cells c) (RowAt bp (op + px + k))) /\
  (forall b i,
     (forall s o, touched sline pline sy2 (_maxy win) s = true ->
        zget (_y scr) s = Some (RowAt b o) ->
        ~ (o + sx1 <= i < o + sx1 + n)) ->
     cell_at (cells c') (RowAt b i) = cell_at (cells c) (RowAt b i)).
Proof.
  induction fuel as [|fuel IH];
    intros c sline pline c' win scr H Hne Hw Hs HD1 HD2; simpl in H.
  - destruct (Z.leb_spec sline sy2); [discriminate|]. injection H as <-.
    split; [|done]. intros s Ht%touched_spec. lia.
  - destruct (Z.leb_spec sline sy2) as [Hle|Hgt].
    2:{ injection H as <-. split; [|done].
        intros s Ht%touched_spec. lia. }
    inv_out. rewrite Hw in E. injection E as <-.
    destruct (Z.ltb_spec pline (_maxy win)) as [Hlt|Hge].
    + apply copy_row_inv in E0 as
        (win0 & scr0 & dst & src & m & f & l & Hw0 & Hs0 & Hdst & Hsrc & Hm
         & Hf & Hl & Hp1 & Hp2 & ->); [|done].
      rewrite Hw in Hw0. injection Hw0 as <-.
      rewrite Hs in Hs0. injection Hs0 as <-.
      set (scr1 := set_damage scr _ _) in *.
      set (win1 := set_damage win _ _) in *.
      set (c1 := put_win _ w win1) in *.
      assert (Hc1 : curscr c1 = curscr c).
      { subst c1. by rewrite !(proj1 (put_win_globals _ _ _)). }
      assert (Hm1 : cells c1 = m).
      { subst c1. by destruct w, (curscr c). }
      assert (Hw1 : get_win c1 w = Done win1).
      { subst c1. eapply get_put_same. rewrite get_put_ne by congruence.
        exact Hw. }
      assert (Hs1 : get_win c1 (curscr c1) = Done scr1).
      { rewrite Hc1. subst c1. rewrite get_put_ne by done.
        eapply get_put_same. exact Hs. }
      apply (IH _ _ _ _ win1 scr1) in H as [HA HB];
        [|congruence|done|done|done|done].
      change (_maxy win1) with (_maxy win) in *.
      change (_y win1) with (_y win) in *.
      change (_y scr1) with (_y scr) in *.
      rewrite Hm1 in HA, HB.
      destruct (memcpy_ptrs _ _ _ _ _ Hm) as (bd' & od' & bs' & os' & Hd & Hsr).
      destruct dst as [|bd od]; [discriminate|].
      destruct src as [|bs os]; [discriminate|].
      simpl in Hm. apply memcpy_cell in Hm as (Hn & _ & _ & Hsome & Hcell).
      apply aget_zget in Hdst, Hsrc.
      split.
      * intros s Ht. destruct (Z.eq_dec s sline) as [->|Hns].
        -- exists bd, od, bs, os. replace (pline + (sline - sline)) with pline by lia.
           split_and!; try done. intros k Hk. split.
           ++ specialize (Hsome k Hk). by replace (os + px + k) with (os + px + k) by lia.
           ++ rewrite HB.
              ** rewrite Hcell. rewrite Nat.eqb_refl.
                 replace (od + sx1 <=? od + sx1 + k) with true by lia.
                 replace (od + sx1 + k <? od + sx1 + n) with true by lia.
                 replace (od + sx1 + k - (od + sx1)) with k by lia. done.
              ** intros s' o' Ht' Hz' _.
                 assert (s' = sline) by exact (HD1 _ _ _ _ _ Hz' Hdst).
                 apply touched_spec in Ht'. lia.
        -- destruct (HA s) as (b & o & bp & op & Hz & Hzp & _ & Hk).
           { apply touched_spec. apply touched_spec in Ht. lia. }
           exists b, o, bp, op.
           replace (pline + (s - sline)) with (pline + 1 + (s - (sline + 1))) by lia.
           split_and!; try done. intros k Hkr.
           destruct (Hk k Hkr) as [Hsm Heq].
           assert (Hbp : cell_at m (RowAt bp (op + px + k)) =
                         cell_at (cells c) (RowAt bp (op + px + k))).
           { rewrite Hcell. destruct (Nat.eqb_spec bp bd) as [->|]; [|done].
             exfalso. exact (HD2 _ _ _ _ _ Hdst Hzp). }
           rewrite Hbp in *. done.
      * intros b i Hcond. rewrite HB.
        -- rewrite Hcell.
           destruct (Nat.eqb_spec b bd) as [->|]; [|done]. simpl.
           destruct (_ && _) eqn:Hin; [|done]. exfalso.
           apply (Hcond sline od); [apply touched_spec; lia|done|lia].
        -- intros s o Ht%touched_spec Hz. apply (Hcond s o); [|done].
           apply touched_spec. lia.
    + injection E0 as <-.
      apply (IH _ _ _ _ win scr) in H as [HA HB]; [|done..].
      split.
      * intros s Ht%touched_spec. lia.
      * intros b i Hcond. apply HB. intros s o Ht%touched_spec. lia.
Qed.
End CopyCells.

Lemma pnoutrefresh_inv st w py px sy1 sx1 sy2 sx2 st' r :
  pnoutrefresh st w py px sy1 sx1 sy2 sx2 = Done (st', r) ->
  (r = ERR /\ st' = st /\
   (w = None \/
    exists win, get_win (cur st) w = Done win /\
      (Z.land (_flags win) (Z.lor _PAD _SUBPAD) = 0 \/
       LINES (cur st) <= sy2 \/ COLS (cur st) <= sy2 \/
       sy2 < clamp sy1 \/ sx2 < clamp sx1))) \/
  (r = OK /\
   exists win c1 c2 c3,
     w <> None /\ get_win (cur st) w = Done win /\
     Z.land (_flags win) (Z.lor _PAD _SUBPAD) <> 0 /\
     sy2 < LINES (cur st) /\ sy2 < COLS (cur st) /\
     clamp sy1 <= sy2 /\ clamp sx1 <= sx2 /\
     INT_MIN <= sx2 - clamp sx1 + 1 <= INT_MAX /\
     INT_MIN <= _maxx win - clamp px <= INT_MAX /\
     copy_rows (Z.to_nat (sy2 - sy1 + 1)) (cur st) w sy1 py sy2 (clamp sx1)
       sx2 (clamp px)
       (Z.min (sx2 - clamp sx1 + 1) (_maxx win - clamp px)) = Done c1 /\
     move_clear c1 w = Done c2 /\
     move_cursor c2 w (clamp py) (clamp px) (clamp sy1) (clamp sx1) sy2 sx2
       = Done c3 /\
     st' = set_cur st c3).
Proof.
  unfold pnoutrefresh. fold (clamp py) (clamp px) (clamp sy1) (clamp sx1).
  destruct w as [i|]; [|intros [= <- <-]; left; auto].
  intros H. inv_out. rename x into win.
  destruct (_ || _) eqn:Hv in H.
  { injection H as <- <-. left. split_and!; try done. right. exists win.
    split; [done|]. rewrite !orb_true_iff in Hv.
    rewrite Z.eqb_eq, !Z.geb_leb, !Z.leb_le in Hv. tauto. }
  destruct (_ || _) eqn:Hv2 in H.
  { injection H as <- <-. left. split_and!; try done. right. exists win.
    split; [done|]. rewrite !orb_true_iff, !Z.ltb_lt in Hv2. tauto. }
  inv_out. subst. bool_hyps.
  right. split; [done|]. exists win, x1, x2, x3. split_and!; try done; lia.
Qed.

Lemma curscr_put_win c p w : curscr (put_win c p w) = curscr c.
Proof. by destruct p. Qed.

Lemma cells_put_win c p w : cells (put_win c p w) = cells c.
Proof. by destruct p. Qed.

Ltac win_simpl :=
  repeat first
  [ progress rewrite ?curscr_put_win, ?cells_put_win in *
  | match goal with
    | E : get_win (put_win ?c ?p ?v) ?p = Done ?x |- _ =>
        erewrite get_put_same in E by eassumption; injection E as E;
        first [subst x | rewrite <- E in *; clear E]
    | E : get_win (put_win ?c ?p ?v) ?q = Done ?x |- _ =>
        rewrite get_put_ne in E by congruence
    | E : get_win ?c ?p = Done ?x, E' : get_win ?c ?p = Done ?y |- _ =>
        lazymatch x with y => fail | _ => idtac end;
        assert (x = y) by congruence; first [subst x | subst y]; clear E
    end ].

Lemma move_clear_inv c w c' win scr :
  move_clear c w = Done c' -> w <> curscr c ->
  get_win c w = Done win -> get_win c (curscr c) = Done scr ->
  c' = if _clear win
       then put_win (put_win c w (set_clear win false)) (curscr c)
              (set_clear scr true)
       else c.
Proof.
  unfold move_clear. intros H Hne Hw Hs. inv_out.
  rewrite Hw in E. injection E as <-.
  destruct (_clear win); [|by injection H]. inv_out. subst c'.
  by win_simpl.
Qed.

Lemma put_put c p w1 w2 : put_win (put_win c p w1) p w2 = put_win c p w2.
Proof.
  destruct p as [i|]; [|done]. unfold put_win, set_wins. simpl.
  by rewrite list_insert_insert_eq.
Qed.

Lemma move_cursor_inv c w py px sy1 sx1 sy2 sx2 c' win scr :
  move_cursor c w py px sy1 sx1 sy2 sx2 = Done c' -> w <> curscr c ->
  get_win c w = Done win -> get_win c (curscr c) = Done scr ->
  (cursor_shown win py px sy1 sx1 sy2 sx2 /\
   c' = put_win c (curscr c)
          (set_cursor scr (_cury win - py + sy1) (_curx win - px + sx1))) \/
  (~ cursor_shown win py px sy1 sx1 sy2 sx2 /\ c' = c).
Proof.
  unfold move_cursor, cursor_shown. intros H Hne Hw Hs. inv_out.
  rewrite Hw in E. injection E as <-.
  destruct (_ && _) eqn:Hc in H.
  2:{ injection H as <-. right. split; [|done].
      rewrite !andb_false_iff, negb_false_iff, !Z.geb_leb, !Z.leb_gt in Hc.
      intros (Hl & ? & ?). rewrite Hl in Hc.
      destruct Hc as [[|]|]; [discriminate|lia|lia]. }
  bool_hyps. inv_out.
  destruct (Z.leb_spec (_cury win) (py + (sy2 - sy1))).
  2:{ injection H as <-. right. split; [lia|done]. }
  inv_out.
  destruct (Z.leb_spec (_curx win) (px + (sx2 - sx1))).
  2:{ injection H as <-. right. split; [lia|done]. }
  inv_out. subst c'. win_simpl.
  left. split; [split_and!; try done; lia|].
  rewrite put_put. done.
Qed.

Lemma clamp_spec z : clamp z = Z.max 0 z.
Proof. unfold clamp. destruct (Z.ltb_spec z 0); lia. Qed.

Lemma not_pad_ne c w win :
  screen_not_pad c -> get_win c w = Done win ->
  Z.land (_flags win) (Z.lor _PAD _SUBPAD) <> 0 -> w <> curscr c.
Proof. intros Hn Hw Hf ->. apply Hf. by apply Hn. Qed.

(** What a successful pnoutrefresh leaves behind, in terms of the state
    [c1] at the end of the copy loop. *)
Lemma pnoutrefresh_post st w py px sy1 sx1 sy2 sx2 st' win scr :
  screen_not_pad (cur st) ->
  pnoutrefresh st w py px sy1 sx1 sy2 sx2 = Done (st', OK) ->
  get_win (cur st) w = Done win ->
  get_win (cur st) (curscr (cur st)) = Done scr ->
  exists c1 win1 scr1 win' scr',
    w <> curscr (cur st) /\
    clamp sy1 <= sy2 /\ clamp sx1 <= sx2 /\
    copy_rows (Z.to_nat (sy2 - sy1 + 1)) (cur st) w sy1 py sy2 (clamp sx1)
      sx2 (clamp px)
      (Z.min (sx2 - clamp sx1 + 1) (_maxx win - clamp px)) = Done c1 /\
    get_win c1 w = Done win1 /\ get_win c1 (curscr (cur st)) = Done scr1 /\
    skeleton win1 = skeleton win /\ skeleton scr1 = skeleton scr /\
    (forall s, touched sy1 py sy2 (_maxy win) s = true ->
       0 <= s /\ 0 <= py + (s - sy1)) /\
    curscr (cur st') = curscr (cur st) /\ cells (cur st') = cells c1 /\
    get_win (cur st') w = Done win' /\
    get_win (cur st') (curscr (cur st)) = Done scr' /\
    set_clear win' false = set_clear win1 false /\
    set_cursor (set_clear scr' false) 0 0 = set_cursor (set_clear scr1 false) 0 0 /\
    ((cursor_shown win (clamp py) (clamp px) (clamp sy1) (clamp sx1) sy2 sx2 /\
      _cury scr' = _cury win - clamp py + clamp sy1 /\
      _curx scr' = _curx win - clamp px + clamp sx1) \/
     (~ cursor_shown win (clamp py) (clamp px) (clamp sy1) (clamp sx1) sy2 sx2 /\
      _cury scr' = _cury scr /\ _curx scr' = _curx scr)) /\
    saved st' = saved st.
Proof.
  intros Hnp H Hw Hs.
  apply pnoutrefresh_inv in H as [(Hr & _)|(_ & win0 & c1 & c2 & c3 & Hnn & Hw0
    & Hfl & HL & HC & Hy & Hx & Hi1 & Hi2 & Hloop & Hclr & Hcur & ->)];
    [discriminate|].
  rewrite Hw in Hw0. injection Hw0 as <-.
  assert (Hne : w <> curscr (cur st)) by (by eapply not_pad_ne).
  pose proof Hne as Hne0.
  destruct (copy_rows_damage _ _ _ _ _ _ _ _ _ _ _ win scr Hloop Hne Hw Hs)
    as (win1 & scr1 & Hw1 & Hs1 & Hc1 & _ & _ & Hkw & Hks & Hpos' & _).
  assert (Hpos : forall s, touched sy1 py sy2 (_maxy win) s = true ->
                   0 <= s /\ 0 <= py + (s - sy1)).
  { intros s Hs2. destruct (Hpos' s Hs2). tauto. }
  rewrite <- Hc1 in Hs1, Hne.
  pose proof (move_clear_inv _ _ _ _ _ Hclr Hne Hw1 Hs1) as Hc2.
  set (win2 := if _clear win1 then set_clear win1 false else win1).
  set (scr2 := if _clear win1 then set_clear scr1 true else scr1).
  assert (Hcc2 : curscr c2 = curscr c1).
  { subst c2. destruct (_clear win1); [|done]. by rewrite !curscr_put_win. }
  assert (Hm2 : cells c2 = cells c1).
  { subst c2. destruct (_clear win1); [|done]. by rewrite !cells_put_win. }
  assert (Hw2 : get_win c2 w = Done win2).
  { subst c2 win2. destruct (_clear win1); [|done].
    rewrite get_put_ne by done. by eapply get_put_same. }
  assert (Hs2 : get_win c2 (curscr c2) = Done scr2).
  { rewrite Hcc2. subst c2 scr2. destruct (_clear win1); [|done].
    eapply get_put_same. rewrite get_put_ne by congruence. done. }
  rewrite <- Hcc2 in Hne.
  pose proof (move_cursor_inv _ _ _ _ _ _ _ _ _ _ _ Hcur Hne Hw2 Hs2) as Hc3.
  assert (Hfw : _leaveit win2 = _leaveit win /\ _cury win2 = _cury win /\
                _curx win2 = _curx win).
  { assert (Hk : _leaveit win1 = _leaveit win /\ _cury win1 = _cury win /\
                 _curx win1 = _curx win).
    { split_and!.
      - change (_leaveit (skeleton win1) = _leaveit (skeleton win)). by rewrite Hkw.
      - change (_cury (skeleton win1) = _cury (skeleton win)). by rewrite Hkw.
      - change (_curx (skeleton win1) = _curx (skeleton win)). by rewrite Hkw. }
    subst win2. by destruct (_clear win1). }
  destruct Hfw as (Hf1 & Hf2 & Hf3).
  assert (Hfs : _cury scr2 = _cury scr /\ _curx scr2 = _curx scr).
  { assert (Hk : _cury scr1 = _cury scr /\ _curx scr1 = _curx scr).
    { split.
      - change (_cury (skeleton scr1) = _cury (skeleton scr)). by rewrite Hks.
      - change (_curx (skeleton scr1) = _curx (skeleton scr)). by rewrite Hks. }
    subst scr2. by destruct (_clear win1). }
  assert (Hsh : cursor_shown win2 (clamp py) (clamp px) (clamp sy1) (clamp sx1) sy2 sx2
                <-> cursor_shown win (clamp py) (clamp px) (clamp sy1) (clamp sx1) sy2 sx2).
  { unfold cursor_shown. by rewrite Hf1, Hf2, Hf3. }
  exists c1, win1, scr1, win2.
  rewrite Hc1 in *.
  assert (Hk1 : set_clear win2 false = set_clear win1 false).
  { subst win2. by destruct (_clear win1). }
  assert (Hk2 : forall y x, set_cursor (set_clear (set_cursor scr2 y x) false) 0 0
                = set_cursor (set_clear scr1 false) 0 0).
  { intros. subst scr2. by destruct (_clear win1). }
  assert (Hk3 : set_cursor (set_clear scr2 false) 0 0
                = set_cursor (set_clear scr1 false) 0 0).
  { subst scr2. by destruct (_clear win1). }
  destruct Hc3 as [(Hshown & ->)|(Hnot & ->)].
  - exists (set_cursor scr2 (_cury win2 - clamp py + clamp sy1)
                     (_curx win2 - clamp px + clamp sx1)).
    simpl. rewrite curscr_put_win, cells_put_win, Hcc2.
    assert (Ha : get_win (put_win c2 (curscr (cur st))
                   (set_cursor scr2 (_cury win2 - clamp py + clamp sy1)
                      (_curx win2 - clamp px + clamp sx1))) w = Done win2).
    { rewrite <- Hw2. apply get_put_ne. congruence. }
    assert (Hb : get_win (put_win c2 (curscr (cur st))
                   (set_cursor scr2 (_cury win2 - clamp py + clamp sy1)
                      (_curx win2 - clamp px + clamp sx1))) (curscr (cur st))
                 = Done (set_cursor scr2 (_cury win2 - clamp py + clamp sy1)
                      (_curx win2 - clamp px + clamp sx1))).
    { eapply get_put_same. rewrite <- Hcc2. exact Hs2. }
    split_and!; try done.
    left. rewrite Hf2, Hf3. split_and!; try done. by apply Hsh.
  - exists scr2. simpl. rewrite Hcc2.
    assert (Hb : get_win c2 (curscr (cur st)) = Done scr2) by (by rewrite <- Hcc2).
    split_and!; try done.
    right. rewrite <- Hsh. tauto.
Qed.

Lemma touched_clamp sy1 py sy2 maxy :
  clamp sy1 <= sy2 ->
  (forall s, touched sy1 py sy2 maxy s = true ->
     0 <= s /\ 0 <= py + (s - sy1)) ->
  (forall s, touched (clamp sy1) (clamp py) sy2 maxy s
             = touched sy1 py sy2 maxy s) /\
  (forall p, pad_touched (clamp sy1) (clamp py) sy2 maxy p
             = pad_touched sy1 py sy2 maxy p).
Proof.
  rewrite !clamp_spec. intros Hle Hpos.
  assert (Hc : (0 <= sy1 /\ 0 <= py) \/ maxy <= py).
  { destruct (Z_lt_le_dec py maxy) as [Hlt|]; [left|by right].
    destruct (Hpos sy1); [apply touched_spec|]; lia. }
  split; intros s; apply eq_iff_eq_true;
    rewrite ?touched_spec, ?pad_touched_spec; lia.
Qed.

Lemma damage_of_frame w1 w2 :
  set_cursor (set_clear w1 false) 0 0 = set_cursor (set_clear w2 false) 0 0 ->
  _firstch w1 = _firstch w2 /\ _lastch w1 = _lastch w2 /\ _y w1 = _y w2.
Proof.
  intros H. split_and!.
  - change (_firstch (set_cursor (set_clear w1 false) 0 0) =
            _firstch (set_cursor (set_clear w2 false) 0 0)). by rewrite H.
  - change (_lastch (set_cursor (set_clear w1 false) 0 0) =
            _lastch (set_cursor (set_clear w2 false) 0 0)). by rewrite H.
  - change (_y (set_cursor (set_clear w1 false) 0 0) =
            _y (set_cursor (set_clear w2 false) 0 0)). by rewrite H.
Qed.

Lemma damage_of_clear w1 w2 :
  set_clear w1 false = set_clear w2 false ->
  _firstch w1 = _firstch w2 /\ _lastch w1 = _lastch w2 /\ _y w1 = _y w2.
Proof. intros H. apply damage_of_frame. by rewrite H. Qed.

Lemma upd_first_union sx1 sx2 f l :
  (upd_first sx1 f, upd_last sx2 l) = damage_union f l sx1 sx2.
Proof.
  unfold upd_first, upd_last, damage_union.
  destruct (Z.eqb_spec f _NO_CHANGE); simpl; f_equal;
    repeat match goal with |- context [if ?b then _ else _] => destruct b eqn:? end;
    lia.
Qed.

(** C5.  After a successful pnoutrefresh the cursor of the screen is the
    cursor of the pad moved from the pad origin to the screen origin when
    the pad does not suppress cursor placement and its cursor lies in the
    displayed part of the pad, bottom and right edges included; otherwise
    the cursor of the screen is the one it had.  The origins are the
    arguments with negative values replaced by zero. *)
Theorem pnoutrefresh_cursor st w py px sy1 sx1 sy2 sx2 st' win scr scr' :
  screen_not_pad (cur st) ->
  pnoutrefresh st w py px sy1 sx1 sy2 sx2 = Done (st', OK) ->
  get_win (cur st) w = Done win ->
  get_win (cur st) (curscr (cur st)) = Done scr ->
  get_win (cur st') (curscr (cur st')) = Done scr' ->
  (cursor_shown win (clamp py) (clamp px) (clamp sy1) (clamp sx1) sy2 sx2 ->
     _cury scr' = _cury win - clamp py + clamp sy1 /\
     _curx scr' = _curx win - clamp px + clamp sx1) /\
  (~ cursor_shown win (clamp py) (clamp px) (clamp sy1) (clamp sx1) sy2 sx2 ->
     _cury scr' = _cury scr /\ _curx scr' = _curx scr).
Proof.
  intros Hnp H Hw Hs Hs'.
  destruct (pnoutrefresh_post _ _ _ _ _ _ _ _ _ _ _ Hnp H Hw Hs) as
    (c1 & win1 & scr1 & win' & scr0 & _ & _ & _ & _ & _ & _ & _ & _ & _ & Hc
     & _ & _ & Hs0 & _ & _ & Hcur & _).
  rewrite Hc, Hs0 in Hs'. injection Hs' as <-. tauto.
Qed.

(** C4.  After a successful pnoutrefresh every copied line of the pad has
    the "no change" sentinel as both ends of its damage range; every touched
    line of the screen has the union of its former range and
    [sx1 .. sx2], a former "no change" counting as no lower bound; and on
    no line of the screen does the range shrink. *)
Theorem pnoutrefresh_damage st w py px sy1 sx1 sy2 sx2 st' win scr win' scr' :
  screen_not_pad (cur st) ->
  pnoutrefresh st w py px sy1 sx1 sy2 sx2 = Done (st', OK) ->
  get_win (cur st) w = Done win ->
  get_win (cur st) (curscr (cur st)) = Done scr ->
  get_win (cur st') w = Done win' ->
  get_win (cur st') (curscr (cur st')) = Done scr' ->
  (forall p, pad_touched (clamp sy1) (clamp py) sy2 (_maxy win) p = true ->
     zget (_firstch win') p = Some _NO_CHANGE /\
     zget (_lastch win') p = Some _NO_CHANGE) /\
  (forall s, touched (clamp sy1) (clamp py) sy2 (_maxy win) s = true ->
     exists f l,
       zget (_firstch scr) s = Some f /\ zget (_lastch scr) s = Some l /\
       (zget (_firstch scr') s, zget (_lastch scr') s) =
       (Some (fst (damage_union f l (clamp sx1) sx2)),
        Some (snd (damage_union f l (clamp sx1) sx2)))) /\
  (forall s f l, zget (_firstch scr) s = Some f ->
     zget (_lastch scr) s = Some l ->
     exists f' l',
       zget (_firstch scr') s = Some f' /\ zget (_lastch scr') s = Some l' /\
       l <= l' /\ (f <> _NO_CHANGE -> f' <> _NO_CHANGE /\ f' <= f)).
Proof.
  intros Hnp H Hw Hs Hw' Hs'.
  destruct (pnoutrefresh_post _ _ _ _ _ _ _ _ _ _ _ Hnp H Hw Hs) as
    (c1 & win1 & scr1 & win0 & scr0 & Hne & Hy & Hx & Hloop & Hw1 & Hs1 & _ & _
     & Hpos & Hc & _ & Hw0 & Hs0 & Hkw & Hks & _ & _).
  rewrite Hc, Hs0 in Hs'. injection Hs' as <-.
  rewrite Hw0 in Hw'. injection Hw' as <-.
  destruct (copy_rows_damage _ _ _ _ _ _ _ _ _ _ _ win scr Hloop Hne Hw Hs)
    as (win2 & scr2 & Hw2 & Hs2 & _ & _ & _ & _ & _ & Hex & Hf & Hl & Hpf & Hpl).
  rewrite Hw1 in Hw2. injection Hw2 as <-.
  rewrite Hs1 in Hs2. injection Hs2 as <-.
  apply damage_of_clear in Hkw as (-> & -> & _).
  apply damage_of_frame in Hks as (-> & -> & _).
  destruct (touched_clamp _ _ _ _ Hy Hpos) as [Ht Hpt].
  split_and!.
  - intros p Hp. rewrite Hpt in Hp. by rewrite Hpf, Hpl, Hp.
  - intros s Htc. rewrite Ht in Htc.
    destruct (Hex s Htc) as (_ & _ & [f Hfs] & [l Hls]).
    exists f, l. rewrite Hf, Hl, Htc, Hfs, Hls.
    by rewrite <- upd_first_union.
  - intros s f l Hfs Hls. rewrite Hf, Hl, Hfs, Hls.
    destruct (touched _ _ _ _ s) eqn:Htc; simpl.
    + eexists _, _. split_and!; try done.
      * unfold upd_last. destruct (Z.gtb_spec sx2 l); lia.
      * intros Hnc. unfold upd_first. apply Z.eqb_neq in Hnc as Hnc'. rewrite Hnc'. simpl.
        pose proof (clamp_spec sx1).
        destruct (Z.gtb_spec f (clamp sx1)); unfold _NO_CHANGE in *; lia.
    + eexists _, _. split_and!; try done.
Qed.

Lemma zget_Some {A : Type} (l : list A) i x :
  zget l i = Some x -> 0 <= i /\ l !! Z.to_nat i = Some x.
Proof. unfold zget. destruct (Z.ltb_spec i 0); [discriminate|]. auto. Qed.

Lemma rows_apart_lines scr win :
  rows_apart scr win ->
  lines_distinct (_y scr) /\ lines_apart (_y scr) (_y win).
Proof.
  intros [Hnd Hfa]. split.
  - intros s s' b o o' [Hs H1]%zget_Some [Hs' H2]%zget_Some.
    assert (Z.to_nat s = Z.to_nat s'); [|lia].
    eapply (NoDup_lookup _ _ _ (Some b) Hnd);
      rewrite list_lookup_fmap; [by rewrite H1|by rewrite H2].
  - intros s p b o o' [Hs H1]%zget_Some [Hp H2]%zget_Some.
    eapply Forall_lookup_1 in Hfa; [|exact H2]. apply Hfa. simpl.
    apply list_elem_of_lookup. exists (Z.to_nat s).
    rewrite list_lookup_fmap. by rewrite H1.
Qed.

Lemma touched_nonneg sy1 py sy2 maxy s :
  (forall s, touched sy1 py sy2 maxy s = true ->
     0 <= s /\ 0 <= py + (s - sy1)) ->
  touched sy1 py sy2 maxy s = true -> clamp sy1 = sy1 /\ clamp py = py.
Proof.
  intros Hpos Ht. rewrite !clamp_spec.
  apply touched_spec in Ht. destruct (Hpos sy1); [apply touched_spec|]; lia.
Qed.

(** C3.  On a successful pnoutrefresh every screen line [s] of
    [sy1 .. sy2] whose pad line [py + (s - sy1)] is below the height of the
    pad receives [num_cols = min (sx2 - sx1 + 1) (_maxx - px)] cells of that
    pad line, from column [px] on, at column [sx1]; no cell of the screen
    outside the rectangle changes, none at or beyond column
    [sx1 + num_cols], and none on a line whose pad line is at or beyond the
    height of the pad.  The origins are the arguments with negative values
    replaced by zero. *)
Theorem pnoutrefresh_copy st w py px sy1 sx1 sy2 sx2 st' win scr :
  screen_not_pad (cur st) ->
  get_win (cur st) w = Done win ->
  get_win (cur st) (curscr (cur st)) = Done scr ->
  rows_apart scr win ->
  pnoutrefresh st w py px sy1 sx1 sy2 sx2 = Done (st', OK) ->
  let num_cols := Z.min (sx2 - clamp sx1 + 1) (_maxx win - clamp px) in
  (forall s x,
     clamp sy1 <= s <= sy2 -> clamp py + (s - clamp sy1) < _maxy win ->
     clamp sx1 <= x < clamp sx1 + num_cols ->
     is_Some (win_cell (cur st') (curscr (cur st')) s x) /\
     win_cell (cur st') (curscr (cur st')) s x =
     win_cell (cur st) w (clamp py + (s - clamp sy1))
       (clamp px + (x - clamp sx1))) /\
  (forall s x,
     ~ (clamp sy1 <= s <= sy2 /\ clamp sx1 <= x <= sx2) ->
     win_cell (cur st') (curscr (cur st')) s x =
     win_cell (cur st) (curscr (cur st)) s x) /\
  (forall s x,
     clamp sx1 + num_cols <= x ->
     win_cell (cur st') (curscr (cur st')) s x =
     win_cell (cur st) (curscr (cur st)) s x) /\
  (forall s x,
     clamp sy1 <= s <= sy2 -> _maxy win <= clamp py + (s - clamp sy1) ->
     win_cell (cur st') (curscr (cur st')) s x =
     win_cell (cur st) (curscr (cur st)) s x).
Proof.
  intros Hnp Hw Hs Hap H num_cols.
  destruct (pnoutrefresh_post _ _ _ _ _ _ _ _ _ _ _ Hnp H Hw Hs) as
    (c1 & win1 & scr1 & win0 & scr0 & Hne & Hy & Hx & Hloop & Hw1 & Hs1 & _ & Hks1
     & Hpos & Hc & Hm & Hw0 & Hs0 & Hkw & Hks & _ & _).
  destruct (rows_apart_lines _ _ Hap) as [HD1 HD2].
  destruct (copy_rows_cells _ _ _ _ _ _ _ _ _ _ _ win scr Hloop Hne Hw Hs HD1 HD2)
    as [HA HB].
  fold num_cols in HA, HB, Hloop.
  destruct (touched_clamp _ _ _ _ Hy Hpos) as [Ht _].
  apply damage_of_frame in Hks as (_ & _ & Hys).
  assert (Hys1 : _y scr1 = _y scr).
  { change (_y (skeleton scr1) = _y (skeleton scr)). by rewrite Hks1. }
  assert (Hcell : forall s x, win_cell (cur st') (curscr (cur st')) s x =
            match zget (_y scr) s with
            | Some q => cell_at (cells c1) (ptr_add q x)
            | None => None
            end).
  { intros s x. unfold win_cell. by rewrite Hc, Hs0, Hys, Hys1, Hm. }
  assert (Hsame : forall s x,
            ~ (touched (clamp sy1) (clamp py) sy2 (_maxy win) s = true /\
               clamp sx1 <= x < clamp sx1 + num_cols) ->
            win_cell (cur st') (curscr (cur st')) s x =
            win_cell (cur st) (curscr (cur st)) s x).
  { intros s x Hno. rewrite Hcell. unfold win_cell. rewrite Hs.
    destruct (zget (_y scr) s) as [[|b o]|] eqn:Hz; try done. simpl.
    apply HB. intros s' o' Ht' Hz' Hin.
    assert (s' = s) as -> by exact (HD1 _ _ _ _ _ Hz' Hz).
    rewrite Hz in Hz'. injection Hz' as <-.
    apply Hno. rewrite Ht. split; [done|lia]. }
  split_and!.
  - intros s x Hsr Hp Hxr.
    assert (Htc : touched sy1 py sy2 (_maxy win) s = true).
    { rewrite <- Ht. apply touched_spec. lia. }
    destruct (touched_nonneg _ _ _ _ _ Hpos Htc) as [Hcy Hcp].
    rewrite Hcy, Hcp in *.
    destruct (HA s Htc) as (b & o & bp & op & Hz & Hzp & Hn & Hk).
    destruct (Hk (x - clamp sx1)) as [Hsome Heq]; [lia|].
    rewrite Hcell, Hz. unfold win_cell. rewrite Hw, Hzp. cbn [ptr_add].
    replace (o + x) with (o + clamp sx1 + (x - clamp sx1)) by lia.
    replace (op + (clamp px + (x - clamp sx1)))
      with (op + clamp px + (x - clamp sx1)) by lia.
    rewrite Heq. done.
  - intros s x Hno. apply Hsame. rewrite touched_spec. subst num_cols. lia.
  - intros s x Hge. apply Hsame. lia.
  - intros s x Hsr Hp. apply Hsame. rewrite touched_spec. lia.
Qed.

(** ** subpad *)

Lemma PDC_makenew_inv c nlines ncols begy begx c' i :
  PDC_makenew c nlines ncols begy begx = (c', Some i) ->
  0 <= nlines /\ i = length (wins c) /\
  cells c' = cells c /\ LINES c' = LINES c /\ COLS c' = COLS c /\
  curscr c' = curscr c /\
  wins c' = wins c ++
    [mkWINDOW 0 0 nlines ncols begy begx 0 0
       ((nlines =? LINES c) && (ncols =? COLS c)) false false false false
       (replicate (Z.to_nat nlines) NullRow) (replicate (Z.to_nat nlines) 0)
       (replicate (Z.to_nat nlines) (ncols - 1)) None].
Proof.
  unfold PDC_makenew, next_alloc.
  destruct (alloc_fail c) as [|[] s]; simpl;
    destruct (Z.ltb_spec nlines 0); try discriminate;
    intros [= <- <-]; split_and!; try done.
Qed.

Lemma PDC_makenew_fail c nlines ncols begy begx c' :
  PDC_makenew c nlines ncols begy begx = (c', None) ->
  wins c' = wins c /\ cells c' = cells c /\ LINES c' = LINES c /\
  COLS c' = COLS c /\ curscr c' = curscr c.
Proof.
  unfold PDC_makenew, next_alloc.
  destruct (alloc_fail c) as [|[] s]; simpl;
    destruct (Z.ltb_spec nlines 0); try discriminate;
    intros [= <-]; split_and!; try done.
Qed.

Lemma get_win_app c c' i w :
  wins c' = wins c ++ [w] -> i = length (wins c) ->
  get_win c' (Some i) = Done w /\
  forall p x, get_win c p = Done x -> get_win c' p = Done x /\ p <> Some i.
Proof.
  intros Hw ->. unfold get_win. rewrite Hw. split.
  - rewrite lookup_app_r by done. by rewrite Nat.sub_diag.
  - intros [j|] x; [|discriminate].
    destruct (wins c !! j) eqn:E; [|discriminate]. intros [= ->].
    rewrite (lookup_app_l_Some _ _ _ _ E). split; [done|].
    intros [= ->]. apply lookup_lt_Some in E. lia.
Qed.

Section AliasRows.
Variables (win orig : option nat) (k nlines : Z).

Lemma alias_rows_spec fuel : forall c i j c' w ow,
  alias_rows fuel c win orig i j k nlines = Done c' ->
  win <> orig -> get_win c win = Done w -> get_win c orig = Done ow ->
  exists w',
    get_win c' win = Done w' /\ get_win c' orig = Done ow /\
    cells c' = cells c /\ curscr c' = curscr c /\
    LINES c' = LINES c /\ COLS c' = COLS c /\
    set_y w' [] = set_y w [] /\
    (forall r, i <= r < nlines -> is_Some (zget (_y ow) (j + (r - i)))) /\
    (forall r, zget (_y w') r =
       if (i <=? r) && (r <? nlines)
       then (fun q => ptr_add q k) <$> zget (_y ow) (j + (r - i))
       else zget (_y w) r).
Proof.
  induction fuel as [|fuel IH]; intros c i j c' w ow H Hne Hw Ho;
    simpl in H.
  - destruct (Z.ltb_spec i nlines); [discriminate|]. injection H as <-.
    exists w. split_and!; try done; [lia|].
    intros r. by replace ((i <=? r) && (r <? nlines)) with false by lia.
  - destruct (Z.ltb_spec i nlines) as [Hlt|Hge].
    2:{ injection H as <-. exists w. split_and!; try done; [lia|].
        intros r. by replace ((i <=? r) && (r <? nlines)) with false by lia. }
    inv_out. win_simpl.
    apply aget_zget in E0 as Hq. apply aset_Done in E3 as [Hir ->].
    set (w1 := set_y w _) in *.
    apply (IH _ _ _ _ w1 ow) in H as
      (w' & Hw' & Ho' & Hm & Hc & HL & HC & Hk & Hex & Hy); [|done|..].
    + exists w'. rewrite Hm, Hc, HL, HC.
      rewrite !curscr_put_win, !cells_put_win.
      split_and!; try done; try (by destruct win).
      * intros r Hr. destruct (Z.eq_dec r i) as [->|].
        -- replace (j + (i - i)) with j by lia. by rewrite Hq.
        -- replace (j + (r - i)) with (j + 1 + (r - (i + 1))) by lia.
           apply Hex. lia.
      * intros r. rewrite Hy. subst w1. simpl.
        rewrite zget_insert by done.
        destruct (Z.eqb_spec r i) as [->|].
        -- replace ((i + 1 <=? i) && _) with false by lia.
           replace ((i <=? i) && _) with true by lia.
           replace (j + (i - i)) with j by lia. by rewrite Hq.
        -- replace ((i + 1 <=? r) && (r <? nlines))
             with ((i <=? r) && (r <? nlines)) by lia.
           by replace (j + 1 + (r - (i + 1))) with (j + (r - i)) by lia.
    + by eapply get_put_same.
    + by rewrite get_put_ne.
Qed.
End AliasRows.

Lemma int_op_ok z : is_int z -> int_op z = Done z.
Proof.
  unfold is_int, int_op. intros H.
  by replace ((INT_MIN <=? z) && (z <=? INT_MAX)) with true by lia.
Qed.

Lemma ptr_add_add q a b : ptr_add (ptr_add q a) b = ptr_add q (a + b).
Proof. destruct q; simpl; [done|]. f_equal. lia. Qed.

(** C7.  subpad returns no window when the parent is null, when it is not
    flagged as a pad, and, on a pad with the origin (-1,-1) that newpad
    gives it and for offsets other than -1, when the region exceeds the
    extent of the parent: when it starts before line 0 or column 0 or ends
    beyond line [_maxy] or column [_maxx].  When it returns a window, a
    zero [nlines] has been replaced by [_maxy - 1 - begy] and a zero
    [ncols] by [_maxx - 1 - begx], and line [r] of the window is line
    [begy + r] of the parent moved [begx] columns to the right, so that
    both name the same cells. *)
Theorem subpad_derives st orig nlines ncols begy begx ow :
  get_win (cur st) orig = Done ow ->
  subpad st None nlines ncols begy begx = Done (st, None) /\
  (Z.land (_flags ow) _PAD = 0 ->
   subpad st orig nlines ncols begy begx = Done (st, None)) /\
  (_begy ow = -1 -> _begx ow = -1 -> begy <> -1 -> begx <> -1 ->
   is_int (begy + nlines) -> is_int (_begy ow + _maxy ow) ->
   is_int (begx + ncols) -> is_int (_begx ow + _maxx ow) ->
   begy < 0 \/ begx < 0 \/
   begy + nlines > _maxy ow \/ begx + ncols > _maxx ow ->
   subpad st orig nlines ncols begy begx = Done (st, None)) /\
  (forall st' i,
     subpad st orig nlines ncols begy begx = Done (st', Some i) ->
     let nl := if nlines =? 0 then _maxy ow - 1 - begy else nlines in
     let nc := if ncols =? 0 then _maxx ow - 1 - begx else ncols in
     exists sw,
       get_win (cur st') (Some i) = Done sw /\
       get_win (cur st') orig = Done ow /\
       cells (cur st') = cells (cur st) /\
       _maxy sw = nl /\ _maxx sw = nc /\ _begy sw = begy /\ _begx sw = begx /\
       _flags sw = _SUBPAD /\ _parent sw = orig /\
       (forall r, 0 <= r < nl ->
          exists q, zget (_y ow) (begy + r) = Some q /\
                    zget (_y sw) r = Some (ptr_add q begx)) /\
       (forall r x, 0 <= r < nl ->
          win_cell (cur st') (Some i) r x =
          win_cell (cur st') orig (begy + r) (begx + x))).
Proof.
  intros Ho. destruct orig as [o|]; [|discriminate]. split_and!.
  - done.
  - intros Hf. unfold subpad. rewrite Ho. simpl. by rewrite Hf.
  - intros Hby Hbx Hy1 Hx1 I1 I2 I3 I4 Hb. unfold subpad. rewrite Ho. simpl.
    destruct (_ =? 0); [done|].
    destruct (Z.ltb_spec begy (_begy ow)); [done|].
    destruct (Z.ltb_spec begx (_begx ow)); [done|]. simpl.
    rewrite (int_op_ok _ I1), (int_op_ok _ I2). simpl.
    destruct (Z.gtb_spec (begy + nlines) (_begy ow + _maxy ow)); [done|].
    rewrite (int_op_ok _ I3), (int_op_ok _ I4). simpl.
    destruct (Z.gtb_spec (begx + ncols) (_begx ow + _maxx ow)); [done|]. lia.
  - intros st' i H nl nc. unfold subpad in H. rewrite Ho in H.
    cbn [bind] in H.
    destruct (_ =? 0); [discriminate|].
    destruct (_ || _); [discriminate|].
    inv_out. destruct (_ >? _); [discriminate|].
    inv_out. destruct (_ >? _); [discriminate|].
    inv_out.
    assert (x = nl) as ->.
    { subst nl. destruct (nlines =? 0); [by inv_out|congruence]. }
    assert (x0 = nc) as ->.
    { subst nc. destruct (ncols =? 0); [by inv_out|congruence]. }
    clear E3 E4.
    destruct (PDC_makenew _ _ _ _ _) as [c [j|]] eqn:Hmk; [|discriminate].
    apply PDC_makenew_inv in Hmk as (Hnl & -> & Hm & HL & HC & Hcs & Hws).
    destruct (get_win_app _ _ _ _ Hws eq_refl) as [Hnew Hold].
    destruct (Hold _ _ Ho) as [Ho1 Hne].
    inv_out. win_simpl. subst st' i. cbn [cur].
    set (w0 := inherit _ ow _) in *.
    match goal with Hal : alias_rows _ _ _ _ _ _ _ _ = Done _ |- _ =>
      eapply (alias_rows_spec _ _ _ _ _ _ _ _ _ w0 ow) in Hal as
        (w' & Hw' & Ho' & Hm' & _ & _ & _ & Hk & Hex & Hy);
        [|congruence|by eapply get_put_same|by rewrite get_put_ne]
    end.
    win_simpl.
    exists (set_flags w' _SUBPAD).
    assert (Hfl : forall (f : WINDOW -> Z), 
              (forall a ys, f (set_y a ys) = f a) -> f w' = f w0).
    { intros f Hf. rewrite <- (Hf w' []), <- (Hf w0 []). by rewrite Hk. }
    assert (Hal : forall r, 0 <= r < nl ->
              exists q, zget (_y ow) (begy + r) = Some q /\
                        zget (_y w') r = Some (ptr_add q begx)).
    { intros r Hr. destruct (Hex r) as [q Hq]; [lia|].
      replace (begy + (r - 0)) with (begy + r) in Hq by lia.
      exists q. split; [done|]. rewrite Hy.
      replace ((0 <=? r) && (r <? nl)) with true by lia.
      replace (begy + (r - 0)) with (begy + r) by lia. by rewrite Hq. }
    fold (put_win x1 (Some (length (wins (cur st)))) (set_flags w' _SUBPAD)).
    split_and!.
    + by eapply get_put_same.
    + by rewrite get_put_ne.
    + rewrite cells_put_win. congruence.
    + change (_maxy w' = nl). by rewrite (Hfl _maxy).
    + change (_maxx w' = nc). by rewrite (Hfl _maxx).
    + change (_begy w' = begy). by rewrite (Hfl _begy).
    + change (_begx w' = begx). by rewrite (Hfl _begx).
    + done.
    + change (_parent (set_y w' []) = Some o). by rewrite Hk.
    + done.
    + intros r x Hr. destruct (Hal r Hr) as (q & Hq1 & Hq2).
      unfold win_cell. erewrite get_put_same by done.
      rewrite get_put_ne by done. rewrite Ho'. simpl.
      rewrite Hq1, Hq2. by rewrite ptr_add_add.
Qed.

(** ** The validation of pnoutrefresh *)

Lemma pnoutrefresh_ERR_unchanged st w py px sy1 sx1 sy2 sx2 st' :
  pnoutrefresh st w py px sy1 sx1 sy2 sx2 = Done (st', ERR) -> st' = st.
Proof.
  intros H. apply pnoutrefresh_inv in H as [(_ & -> & _)|(Hr & _)];
    [done|discriminate].
Qed.

Lemma pnoutrefresh_row_bound st w py px sy1 sx1 sy2 sx2 win :
  get_win (cur st) w = Done win -> LINES (cur st) <= sy2 ->
  pnoutrefresh st w py px sy1 sx1 sy2 sx2 = Done (st, ERR).
Proof.
  intros Hw Hl. unfold pnoutrefresh. destruct w; [|done].
  rewrite Hw. cbn [bind].
  replace (sy2 >=? LINES (cur st)) with true by lia.
  by rewrite orb_true_r.
Qed.

Lemma clamp_idem z : clamp (clamp z) = clamp z.
Proof. rewrite !clamp_spec. lia. Qed.

Lemma pnoutrefresh_clamps_columns st w py px sy1 sx1 sy2 sx2 :
  pnoutrefresh st w py px sy1 sx1 sy2 sx2 =
  pnoutrefresh st w py (clamp px) sy1 (clamp sx1) sy2 sx2.
Proof.
  unfold pnoutrefresh.
  fold (clamp px) (clamp sx1) (clamp (clamp px)) (clamp (clamp sx1)).
  by rewrite !clamp_idem.
Qed.

Lemma pnoutrefresh_keeps_saved st w py px sy1 sx1 sy2 sx2 st' r :
  pnoutrefresh st w py px sy1 sx1 sy2 sx2 = Done (st', r) ->
  saved st' = saved st.
Proof.
  intros H. apply pnoutrefresh_inv in H as [(_ & -> & _)|(_ & H)]; [done|].
  destruct H as (? & ? & ? & ? & H). by destruct H as (_&_&_&_&_&_&_&_&_&_&_&_&->).
Qed.

(** C1.  pnoutrefresh compares the far row of the screen rectangle, and
    not its far column, with the width of the screen: on a screen of 4
    lines and 6 columns the call with [sx2 = 9] returns OK and moves the end
    of the damage range of screen line 0 from "no change" to column 9. *)
Theorem pnoutrefresh_far_column_unchecked :
  (COLS (cur small_pad) <=? 9) = true /\
  pnoutrefresh small_pad (Some 1%nat) 0 0 0 0 2 9
    = Done (state_of (pnoutrefresh small_pad (Some 1%nat) 0 0 0 0 2 9), OK) /\
  zget (_lastch (win_of (cur small_pad) (Some 0%nat))) 0 = Some _NO_CHANGE /\
  zget (_lastch (win_of (cur (state_of (pnoutrefresh small_pad (Some 1%nat)
                                          0 0 0 0 2 9))) (Some 0%nat))) 0
    = Some 9.
Proof. repeat apply conj; by_eval. Qed.

(** C2.  pnoutrefresh takes the first screen line and the first pad line
    of its walk before it replaces negative arguments by zero: called with
    [sy1 = -1], or with [py = -1], it indexes line -1 of the screen, or of
    the pad, which is undefined behaviour, while the call with zero in
    their place returns OK. *)
Theorem pnoutrefresh_negative_row_walk :
  pnoutrefresh small_pad (Some 1%nat) 0 0 (-1) 0 2 2 = Undef /\
  pnoutrefresh small_pad (Some 1%nat) (-1) 0 0 0 2 2 = Undef /\
  pnoutrefresh small_pad (Some 1%nat) 0 0 0 0 2 2
    = Done (state_of (pnoutrefresh small_pad (Some 1%nat) 0 0 0 0 2 2), OK).
Proof. repeat apply conj; by_eval. Qed.

Lemma small_pad_not_pad y x : screen_not_pad (cur (drawn_pad y x)).
Proof. intros scr. vm_compute. by intros [= <-]. Qed.

(** ** The saved region *)

Lemma prefresh_keeps_saved doupdate st w py px sy1 sx1 sy2 sx2 st' r :
  prefresh doupdate st w py px sy1 sx1 sy2 sx2 = Done (st', r) ->
  saved st' = saved st.
Proof.
  unfold prefresh. intros H. inv_out. destruct x as [st1 rc].
  apply pnoutrefresh_keeps_saved in E.
  destruct (rc =? ERR); inv_out; by subst.
Qed.

Lemma pechochar_uses_saved waddch doupdate st pad ch c :
  waddch (cur st) pad ch = Done (c, OK) ->
  pechochar waddch doupdate st pad ch =
  prefresh doupdate (set_cur st c) pad (save_pminrow st) (save_pmincol st)
    (save_sminrow st) (save_smincol st) (save_smaxrow st) (save_smaxcol st).
Proof. intros H. unfold pechochar. by rewrite H. Qed.

Lemma PDC_makelines_globals c p c' r :
  PDC_makelines c p = Done (c', r) ->
  LINES c' = LINES c /\ COLS c' = COLS c.
Proof.
  unfold PDC_makelines, next_alloc. intros H. inv_out.
  destruct (alloc_fail c) as [|[] ?]; simpl in H;
    try (destruct (_maxx _ <? 0); simpl in H);
    injection H as <- <-; by destruct p.
Qed.

Lemma werase_globals c p c' :
  werase c p = Done c' -> LINES c' = LINES c /\ COLS c' = COLS c.
Proof. unfold werase. intros H. inv_out. subst c'. by destruct p. Qed.

Lemma newpad_saves st nlines ncols st' w :
  newpad st nlines ncols = Done (st', Some w) ->
  saved st' = [0; 0; 0; 0; Z.min (LINES (cur st)) nlines - 1;
               Z.min (COLS (cur st)) ncols - 1].
Proof.
  unfold newpad. intros H.
  destruct (PDC_makenew _ _ _ _ _) as [c [i|]] eqn:Hmk; [|discriminate].
  apply PDC_makenew_inv in Hmk as (_ & _ & _ & HL & HC & _).
  apply bind_Done in H as ([c1 [j|]] & Hml & H); [|discriminate].
  apply PDC_makelines_globals in Hml as [HL1 HC1].
  apply bind_Done in H as (c2 & Hwe & H).
  apply werase_globals in Hwe as [HL2 HC2].
  inv_out. subst st'. unfold saved. cbn -[Z.min Z.sub].
  congruence.
Qed.

(** C6.  An explicit prefresh does not record its viewport: after
    newpad the saved region is pad (0,0), screen (0,0)-(2,2), and it is the
    same after prefresh has displayed pad (1,1) at screen (1,2)-(2,3).  The
    pechochar that follows is waddch followed by prefresh of the saved
    region, so the character added at pad (0,0) appears at screen (0,0),
    where a redisplay of the viewport of the prefresh would have left the
    cell as it was. *)
Theorem pechochar_after_prefresh :
  prefresh doupdate_model small_pad (Some 1%nat) 1 1 1 2 2 3
    = Done (after_prefresh, OK) /\
  saved small_pad = [0; 0; 0; 0; 2; 2] /\
  saved after_prefresh = [0; 0; 0; 0; 2; 2] /\
  waddch_model (cur after_prefresh) (Some 1%nat) 65 = Done (after_waddch, OK) /\
  pechochar waddch_model doupdate_model after_prefresh (Some 1%nat) 65 =
  prefresh doupdate_model (set_cur after_prefresh after_waddch) (Some 1%nat)
    0 0 0 0 2 2 /\
  win_cell (cur (state_of (pechochar waddch_model doupdate_model
                             after_prefresh (Some 1%nat) 65)))
    (Some 0%nat) 0 0 = Some 65 /\
  win_cell (cur (state_of (prefresh doupdate_model
                             (set_cur after_prefresh after_waddch)
                             (Some 1%nat) 1 1 1 2 2 3)))
    (Some 0%nat) 0 0 = Some 0.
Proof. repeat apply conj; by_eval. Qed.

(** The cursor theorem on the drawn pad, displayed from pad (0,1) at screen
    (2,3)-(3,5): a pad cursor on the last displayed line, (1,2), moves the
    screen cursor to (3,4); one line below, (2,2), it leaves it at (0,0). *)
Lemma pnoutrefresh_cursor_witness :
  (let st' := state_of (pnoutrefresh (drawn_pad 1 2) (Some 1%nat) 0 1 2 3 3 5) in
   let scr' := win_of (cur st') (Some 0%nat) in
   _cury scr' = 3 /\ _curx scr' = 4) /\
  (let st' := state_of (pnoutrefresh (drawn_pad 2 2) (Some 1%nat) 0 1 2 3 3 5) in
   let scr' := win_of (cur st') (Some 0%nat) in
   _cury scr' = 0 /\ _curx scr' = 0).
Proof.
  split.
  - assert (H1 : pnoutrefresh (drawn_pad 1 2) (Some 1%nat) 0 1 2 3 3 5 =
      Done (state_of (pnoutrefresh (drawn_pad 1 2) (Some 1%nat) 0 1 2 3 3 5), OK))
      by by_eval.
    assert (H2 : get_win (cur (drawn_pad 1 2)) (Some 1%nat) =
      Done (win_of (cur (drawn_pad 1 2)) (Some 1%nat))) by by_eval.
    assert (H3 : get_win (cur (drawn_pad 1 2)) (curscr (cur (drawn_pad 1 2))) =
      Done (win_of (cur (drawn_pad 1 2)) (Some 0%nat))) by by_eval.
    assert (H4 : get_win
      (cur (state_of (pnoutrefresh (drawn_pad 1 2) (Some 1%nat) 0 1 2 3 3 5)))
      (curscr (cur (state_of (pnoutrefresh (drawn_pad 1 2) (Some 1%nat)
                                0 1 2 3 3 5)))) =
      Done (win_of (cur (state_of (pnoutrefresh (drawn_pad 1 2) (Some 1%nat)
                                     0 1 2 3 3 5))) (Some 0%nat))) by by_eval.
    assert (Hs : cursor_shown (win_of (cur (drawn_pad 1 2)) (Some 1%nat))
                   (clamp 0) (clamp 1) (clamp 2) (clamp 3) 3 5).
    { vm_compute. repeat split; discriminate. }
    destruct (proj1 (pnoutrefresh_cursor _ _ _ _ _ _ _ _ _ _ _ _
                       (small_pad_not_pad 1 2) H1 H2 H3 H4) Hs) as [Hy Hx].
    cbv zeta. rewrite Hy, Hx. split; by_eval.
  - assert (H1 : pnoutrefresh (drawn_pad 2 2) (Some 1%nat) 0 1 2 3 3 5 =
      Done (state_of (pnoutrefresh (drawn_pad 2 2) (Some 1%nat) 0 1 2 3 3 5), OK))
      by by_eval.
    assert (H2 : get_win (cur (drawn_pad 2 2)) (Some 1%nat) =
      Done (win_of (cur (drawn_pad 2 2)) (Some 1%nat))) by by_eval.
    assert (H3 : get_win (cur (drawn_pad 2 2)) (curscr (cur (drawn_pad 2 2))) =
      Done (win_of (cur (drawn_pad 2 2)) (Some 0%nat))) by by_eval.
    assert (H4 : get_win
      (cur (state_of (pnoutrefresh (drawn_pad 2 2) (Some 1%nat) 0 1 2 3 3 5)))
      (curscr (cur (state_of (pnoutrefresh (drawn_pad 2 2) (Some 1%nat)
                                0 1 2 3 3 5)))) =
      Done (win_of (cur (state_of (pnoutrefresh (drawn_pad 2 2) (Some 1%nat)
                                     0 1 2 3 3 5))) (Some 0%nat))) by by_eval.
    assert (Hs : ~ cursor_shown (win_of (cur (drawn_pad 2 2)) (Some 1%nat))
                   (clamp 0) (clamp 1) (clamp 2) (clamp 3) 3 5).
    { vm_compute. intros (_ & [_ Hc] & _). by apply Hc. }
    destruct (proj2 (pnoutrefresh_cursor _ _ _ _ _ _ _ _ _ _ _ _
                       (small_pad_not_pad 2 2) H1 H2 H3 H4) Hs) as [Hy Hx].
    cbv zeta. rewrite Hy, Hx. split; by_eval.
Defined.

(** The damage theorem on the drawn pad, displayed from pad (1,1) at screen
    (2,3)-(3,5). *)
Lemma pnoutrefresh_damage_witness :
  let st := drawn_pad 0 0 in
  let st' := state_of (pnoutrefresh st (Some 1%nat) 1 1 2 3 3 5) in
  (zget (_firstch (win_of (cur st') (Some 1%nat))) 1 = Some _NO_CHANGE /\
   zget (_lastch (win_of (cur st') (Some 1%nat))) 1 = Some _NO_CHANGE) /\
  (zget (_firstch (win_of (cur st') (Some 0%nat))) 2 = Some 3 /\
   zget (_lastch (win_of (cur st') (Some 0%nat))) 2 = Some 5).
Proof.
  assert (H1 : pnoutrefresh (drawn_pad 0 0) (Some 1%nat) 1 1 2 3 3 5 =
    Done (state_of (pnoutrefresh (drawn_pad 0 0) (Some 1%nat) 1 1 2 3 3 5), OK))
    by by_eval.
  assert (H2 : get_win (cur (drawn_pad 0 0)) (Some 1%nat) =
    Done (win_of (cur (drawn_pad 0 0)) (Some 1%nat))) by by_eval.
  assert (H3 : get_win (cur (drawn_pad 0 0)) (curscr (cur (drawn_pad 0 0))) =
    Done (win_of (cur (drawn_pad 0 0)) (Some 0%nat))) by by_eval.
  assert (H4 : get_win
    (cur (state_of (pnoutrefresh (drawn_pad 0 0) (Some 1%nat) 1 1 2 3 3 5)))
    (Some 1%nat) =
    Done (win_of (cur (state_of (pnoutrefresh (drawn_pad 0 0) (Some 1%nat)
                                   1 1 2 3 3 5))) (Some 1%nat))) by by_eval.
  assert (H5 : get_win
    (cur (state_of (pnoutrefresh (drawn_pad 0 0) (Some 1%nat) 1 1 2 3 3 5)))
    (curscr (cur (state_of (pnoutrefresh (drawn_pad 0 0) (Some 1%nat)
                              1 1 2 3 3 5)))) =
    Done (win_of (cur (state_of (pnoutrefresh (drawn_pad 0 0) (Some 1%nat)
                                   1 1 2 3 3 5))) (Some 0%nat))) by by_eval.
  destruct (pnoutrefresh_damage _ _ _ _ _ _ _ _ _ _ _ _ _
              (small_pad_not_pad 0 0) H1 H2 H3 H4 H5) as (Hp & Hs & _).
  assert (Ht1 : pad_touched (clamp 2) (clamp 1) 3
                  (_maxy (win_of (cur (drawn_pad 0 0)) (Some 1%nat))) 1 = true)
    by by_eval.
  assert (Ht2 : touched (clamp 2) (clamp 1) 3
                  (_maxy (win_of (cur (drawn_pad 0 0)) (Some 1%nat))) 2 = true)
    by by_eval.
  split.
  - exact (Hp 1 Ht1).
  - destruct (Hs 2 Ht2) as (f & l & Hf & Hl & H).
    assert (Hf' : zget (_firstch (win_of (cur (drawn_pad 0 0)) (Some 0%nat))) 2
                  = Some (-1)) by by_eval.
    assert (Hl' : zget (_lastch (win_of (cur (drawn_pad 0 0)) (Some 0%nat))) 2
                  = Some (-1)) by by_eval.
    rewrite Hf' in Hf. rewrite Hl' in Hl.
    injection Hf as <-. injection Hl as <-.
    pose proof (f_equal fst H) as Ha. pose proof (f_equal snd H) as Hb.
    cbn [fst snd] in Ha, Hb. cbv zeta. rewrite Ha, Hb. split; by_eval.
Defined.

Lemma small_pad_rows_apart y x :
  rows_apart (win_of (cur (drawn_pad y x)) (Some 0%nat))
    (win_of (cur (drawn_pad y x)) (Some 1%nat)).
Proof.
  split.
  - refine (bool_decide_unpack _ _). by_eval.
  - refine (bool_decide_unpack _ _). by_eval.
Qed.

(** The copy theorem on the drawn pad, displayed from pad (2,1) at screen
    (2,3)-(3,5): two cells of the last pad line arrive on screen line 2,
    and screen line 3, whose pad line would be line 3, keeps its cells. *)
Lemma pnoutrefresh_copy_witness :
  let st := drawn_pad 0 0 in
  let st' := state_of (pnoutrefresh st (Some 1%nat) 2 1 2 3 3 5) in
  win_cell (cur st') (curscr (cur st')) 2 3 = Some 21 /\
  win_cell (cur st') (curscr (cur st')) 2 4 = Some 22 /\
  win_cell (cur st') (curscr (cur st')) 1 3 = Some 0 /\
  win_cell (cur st') (curscr (cur st')) 2 5 = Some 0 /\
  win_cell (cur st') (curscr (cur st')) 3 3 = Some 0.
Proof.
  assert (H1 : pnoutrefresh (drawn_pad 0 0) (Some 1%nat) 2 1 2 3 3 5 =
    Done (state_of (pnoutrefresh (drawn_pad 0 0) (Some 1%nat) 2 1 2 3 3 5), OK))
    by by_eval.
  assert (H2 : get_win (cur (drawn_pad 0 0)) (Some 1%nat) =
    Done (win_of (cur (drawn_pad 0 0)) (Some 1%nat))) by by_eval.
  assert (H3 : get_win (cur (drawn_pad 0 0)) (curscr (cur (drawn_pad 0 0))) =
    Done (win_of (cur (drawn_pad 0 0)) (Some 0%nat))) by by_eval.
  destruct (pnoutrefresh_copy _ _ _ _ _ _ _ _ _ _ _
              (small_pad_not_pad 0 0) H2 H3 (small_pad_rows_apart 0 0) H1)
    as (Hc & Ho & Hb & Hk).
  cbv zeta. split_and!.
  - assert (H : clamp 2 <= 2 <= 3 /\ clamp 2 + (2 - clamp 2) <
                  _maxy (win_of (cur (drawn_pad 0 0)) (Some 1%nat)) /\
                clamp 3 <= 3 < clamp 3 +
                  Z.min (5 - clamp 3 + 1)
                    (_maxx (win_of (cur (drawn_pad 0 0)) (Some 1%nat)) - clamp 1))
      by (vm_compute; repeat split; congruence).
    destruct H as (Ha & Hb' & Hc').
    rewrite (proj2 (Hc 2 3 Ha Hb' Hc')). by_eval.
  - assert (H : clamp 2 <= 2 <= 3 /\ clamp 2 + (2 - clamp 2) <
                  _maxy (win_of (cur (drawn_pad 0 0)) (Some 1%nat)) /\
                clamp 3 <= 4 < clamp 3 +
                  Z.min (5 - clamp 3 + 1)
                    (_maxx (win_of (cur (drawn_pad 0 0)) (Some 1%nat)) - clamp 1))
      by (vm_compute; repeat split; congruence).
    destruct H as (Ha & Hb' & Hc').
    rewrite (proj2 (Hc 2 4 Ha Hb' Hc')). by_eval.
  - assert (Hn : ~ (clamp 2 <= 1 <= 3 /\ clamp 3 <= 3 <= 5)).
    { vm_compute. intros [[H _] _]. by apply H. }
    rewrite (Ho 1 3 Hn). by_eval.
  - assert (Hn : clamp 3 + Z.min (5 - clamp 3 + 1)
                   (_maxx (win_of (cur (drawn_pad 0 0)) (Some 1%nat)) - clamp 1)
                 <= 5)
      by (vm_compute; congruence).
    rewrite (Hb 2 5 Hn). by_eval.
  - assert (Hn : clamp 2 <= 3 <= 3 /\
                 _maxy (win_of (cur (drawn_pad 0 0)) (Some 1%nat))
                 <= clamp 2 + (3 - clamp 2))
      by (vm_compute; repeat split; congruence).
    rewrite (Hk 3 3 (proj1 Hn) (proj2 Hn)). by_eval.
Defined.

(** A zero [nlines] is not replaced by the number of parent lines from
    [begy] on: at line 1 of the pad of 3 lines the window gets 1 line, not
    2. *)
Lemma subpad_zero_height_counterexample :
  ~ (forall st orig ow ncols begy begx st' i sw,
       get_win (cur st) orig = Done ow ->
       subpad st orig 0 ncols begy begx = Done (st', Some i) ->
       get_win (cur st') (Some i) = Done sw ->
       _maxy sw = _maxy ow - begy).
Proof.
  intros H.
  assert (H1 : get_win (cur small_pad) (Some 1%nat) =
    Done (win_of (cur small_pad) (Some 1%nat))) by by_eval.
  assert (H2 : subpad small_pad (Some 1%nat) 0 0 1 1 =
    Done (state_of (subpad small_pad (Some 1%nat) 0 0 1 1), Some 2%nat))
    by by_eval.
  assert (H3 : get_win (cur (state_of (subpad small_pad (Some 1%nat) 0 0 1 1)))
                 (Some 2%nat) =
    Done (win_of (cur (state_of (subpad small_pad (Some 1%nat) 0 0 1 1)))
            (Some 2%nat))) by by_eval.
  specialize (H _ _ _ _ _ _ _ _ _ H1 H2 H3).
  assert (H4 : _maxy (win_of (cur (state_of
                  (subpad small_pad (Some 1%nat) 0 0 1 1))) (Some 2%nat)) = 1)
    by by_eval.
  assert (H5 : _maxy (win_of (cur small_pad) (Some 1%nat)) - 1 = 2) by by_eval.
  rewrite H4, H5 in H. discriminate H.
Qed.

(** The subpad theorem on the pad of 3 by 3: a region of 2 lines at line 2
    is refused, and the region with zero sizes at (1,1) gets 1 line, which
    is line 1 of the pad from column 1 on. *)
Lemma subpad_derives_witness :
  let st' := state_of (subpad small_pad (Some 1%nat) 0 0 1 1) in
  subpad small_pad (Some 1%nat) 2 1 2 1 = Done (small_pad, None) /\
  _maxy (win_of (cur st') (Some 2%nat)) = 1 /\
  zget (_y (win_of (cur st') (Some 2%nat))) 0 = Some (RowAt 5 1) /\
  win_cell (cur st') (Some 2%nat) 0 0 = win_cell (cur st') (Some 1%nat) 1 1.
Proof.
  assert (H1 : get_win (cur small_pad) (Some 1%nat) =
    Done (win_of (cur small_pad) (Some 1%nat))) by by_eval.
  assert (H2 : subpad small_pad (Some 1%nat) 0 0 1 1 =
    Done (state_of (subpad small_pad (Some 1%nat) 0 0 1 1), Some 2%nat))
    by by_eval.
  pose proof (subpad_derives small_pad (Some 1%nat) 2 1 2 1 _ H1)
    as (_ & _ & Hb & _).
  pose proof (subpad_derives small_pad (Some 1%nat) 0 0 1 1 _ H1)
    as (_ & _ & _ & Hs).
  destruct (Hs _ _ H2) as (sw & Hsw & _ & _ & Hmy & _ & _ & _ & _ & _
                           & Hal & Hcell).
  assert (Hw : win_of (cur (state_of (subpad small_pad (Some 1%nat) 0 0 1 1)))
                 (Some 2%nat) = sw).
  { unfold win_of. by rewrite Hsw. }
  assert (Hr : 0 <= 0 <
    (if 0 =? 0 then _maxy (win_of (cur small_pad) (Some 1%nat)) - 1 - 1 else 0))
    by (vm_compute; split; congruence).
  split_and!.
  - apply Hb; try by_eval; try (vm_compute; congruence);
      try (vm_compute; split; congruence).
    right. right. left. by_eval.
  - cbv zeta. rewrite Hw, Hmy. by_eval.
  - cbv zeta. rewrite Hw. destruct (Hal 0 Hr) as (q & Hq1 & Hq2).
    rewrite Hq2.
    assert (Hq : zget (_y (win_of (cur small_pad) (Some 1%nat))) (1 + 0)
                 = Some (RowAt 5 0)) by by_eval.
    rewrite Hq in Hq1. by injection Hq1 as <-.
  - exact (Hcell 0 0 Hr).
Defined.

(** ** The fuel of the loops is enough *)

Lemma copy_rows_fuel w sy2 sx1 sx2 px n fuel : forall c sline pline,
  (Z.to_nat (sy2 - sline + 1) <= fuel)%nat ->
  copy_rows fuel c w sline pline sy2 sx1 sx2 px n =
  copy_rows (Z.to_nat (sy2 - sline + 1)) c w sline pline sy2 sx1 sx2 px n.
Proof.
  induction fuel as [|fuel IH]; intros c sline pline Hf.
  - by replace (Z.to_nat (sy2 - sline + 1)) with 0%nat by lia.
  - destruct (Z.leb_spec sline sy2) as [Hle|Hgt].
    + replace (Z.to_nat (sy2 - sline + 1))
        with (S (Z.to_nat (sy2 - (sline + 1) + 1))) in * by lia.
      simpl. replace (sline <=? sy2) with true by lia.
      destruct (get_win c w); [|done]. simpl.
      destruct (if pline <? _maxy a then _ else _); [|done]. simpl.
      unfold int_op at 1 3. destruct (_ && _); [|done]. simpl.
      destruct (int_op (pline + 1)); [|done]. simpl.
      apply IH. lia.
    + replace (Z.to_nat (sy2 - sline + 1)) with 0%nat by lia.
      simpl. by replace (sline <=? sy2) with false by lia.
Qed.


(** ** More about pnoutrefresh and prefresh *)

(** X1.  pnoutrefresh validates before it changes anything: it returns ERR
    for a null window and, for a window, exactly when the window carries
    neither pad flag, [sy2] is not below LINES or not below COLS, or the far
    corner precedes the near corner once negative values count as zero; and
    whenever it returns ERR the state is the one it was called in. *)
Theorem pnoutrefresh_rejects st w py px sy1 sx1 sy2 sx2 win :
  get_win (cur st) w = Done win ->
  pnoutrefresh st None py px sy1 sx1 sy2 sx2 = Done (st, ERR) /\
  (Z.land (_flags win) (Z.lor _PAD _SUBPAD) = 0 \/
   LINES (cur st) <= sy2 \/ COLS (cur st) <= sy2 \/
   sy2 < clamp sy1 \/ sx2 < clamp sx1 <->
   pnoutrefresh st w py px sy1 sx1 sy2 sx2 = Done (st, ERR)) /\
  (forall st', pnoutrefresh st w py px sy1 sx1 sy2 sx2 = Done (st', ERR) ->
     st' = st).
Proof.
  intros Hw. split; [done|]. split; [split|].
  - intros Hc. unfold pnoutrefresh. destruct w as [i|]; [|done].
    rewrite Hw. cbn [bind]. fold (clamp sy1) (clamp sx1).
    destruct (Z.eqb_spec (Z.land (_flags win) (Z.lor _PAD _SUBPAD)) 0);
      [done|].
    destruct (Z.geb_spec sy2 (LINES (cur st))); [done|].
    destruct (Z.geb_spec sy2 (COLS (cur st))); [done|]. cbn [orb].
    destruct (Z.ltb_spec sy2 (clamp sy1)); [done|].
    destruct (Z.ltb_spec sx2 (clamp sx1)); [done|]. lia.
  - intros H. apply pnoutrefresh_inv in H as [(_ & _ & [->|H])|(H & _)].
    + discriminate.
    + destruct H as (win0 & Hw0 & H). rewrite Hw in Hw0.
      by injection Hw0 as <-.
    + discriminate.
  - intros st'. apply pnoutrefresh_ERR_unchanged.
Qed.

Lemma pnoutrefresh_rejects_witness :
  pnoutrefresh small_pad None 0 0 0 0 2 2 = Done (small_pad, ERR) /\
  pnoutrefresh small_pad (Some 1%nat) 0 0 0 0 4 2 = Done (small_pad, ERR) /\
  pnoutrefresh small_pad (Some 1%nat) 0 0 3 0 2 2 = Done (small_pad, ERR) /\
  pnoutrefresh small_pad (Some 0%nat) 0 0 0 0 2 2 = Done (small_pad, ERR).
Proof.
  assert (H1 : get_win (cur small_pad) (Some 1%nat) =
    Done (win_of (cur small_pad) (Some 1%nat))) by by_eval.
  assert (H0 : get_win (cur small_pad) (Some 0%nat) =
    Done (win_of (cur small_pad) (Some 0%nat))) by by_eval.
  split_and!.
  - exact (proj1 (pnoutrefresh_rejects small_pad (Some 1%nat) 0 0 0 0 2 2 _ H1)).
  - apply (pnoutrefresh_rejects small_pad (Some 1%nat) 0 0 0 0 4 2 _ H1).
    right. left. vm_compute. discriminate.
  - apply (pnoutrefresh_rejects small_pad (Some 1%nat) 0 0 3 0 2 2 _ H1).
    right. right. right. left. by_eval.
  - apply (pnoutrefresh_rejects small_pad (Some 0%nat) 0 0 0 0 2 2 _ H0).
    left. by_eval.
Defined.

(** X2.  Neither pnoutrefresh nor prefresh assigns the values saved for
    pechochar: whatever they return, the six values are the ones before the
    call. *)
Theorem refresh_keeps_saved doupdate st w py px sy1 sx1 sy2 sx2 :
  (forall st' r, pnoutrefresh st w py px sy1 sx1 sy2 sx2 = Done (st', r) ->
     saved st' = saved st) /\
  (forall st' r, prefresh doupdate st w py px sy1 sx1 sy2 sx2 = Done (st', r) ->
     saved st' = saved st).
Proof.
  split; intros st' r.
  - apply pnoutrefresh_keeps_saved.
  - apply prefresh_keeps_saved.
Qed.

(** X3.  A negative pad column or near screen column counts as zero: the
    call with [px] or [sx1] negative is the call with zero in its place. *)
Theorem pnoutrefresh_negative_columns st w py px sy1 sx1 sy2 sx2 :
  pnoutrefresh st w py px sy1 sx1 sy2 sx2 =
  pnoutrefresh st w py (Z.max 0 px) sy1 (Z.max 0 sx1) sy2 sx2.
Proof.
  rewrite pnoutrefresh_clamps_columns.
  assert (Hc : forall z, clamp z = Z.max 0 z) by (intros z; rewrite clamp_spec; lia).
  by rewrite !Hc.
Qed.

(** X4.  A successful pnoutrefresh hands a pending full redraw over to the
    screen: afterwards the pad's [_clear] is false, and the screen's is true
    when the pad's or its own was. *)
Theorem pnoutrefresh_clear st w py px sy1 sx1 sy2 sx2 st' win scr :
  screen_not_pad (cur st) ->
  pnoutrefresh st w py px sy1 sx1 sy2 sx2 = Done (st', OK) ->
  get_win (cur st) w = Done win ->
  get_win (cur st) (curscr (cur st)) = Done scr ->
  exists win' scr',
    get_win (cur st') w = Done win' /\
    get_win (cur st') (curscr (cur st')) = Done scr' /\
    _clear win' = false /\ _clear scr' = _clear scr || _clear win.
Proof.
  intros Hnp H Hw Hs.
  apply pnoutrefresh_inv in H as [(Hr & _)|(_ & win0 & c1 & c2 & c3 & Hnn & Hw0
    & Hfl & HL & HC & Hy & Hx & Hi1 & Hi2 & Hloop & Hclr & Hcur & ->)];
    [discriminate|].
  rewrite Hw in Hw0. injection Hw0 as <-.
  assert (Hne : w <> curscr (cur st)) by (by eapply not_pad_ne).
  destruct (copy_rows_damage _ _ _ _ _ _ _ _ _ _ _ win scr Hloop Hne Hw Hs)
    as (win1 & scr1 & Hw1 & Hs1 & Hc1 & _ & _ & Hkw & Hks & _).
  assert (Hcw : _clear win1 = _clear win) by (by injection Hkw).
  assert (Hcs : _clear scr1 = _clear scr) by (by injection Hks).
  rewrite <- Hc1 in Hs1, Hne.
  pose proof (move_clear_inv _ _ _ _ _ Hclr Hne Hw1 Hs1) as Hc2.
  assert (exists win2 scr2,
            get_win c2 w = Done win2 /\ get_win c2 (curscr c2) = Done scr2 /\
            curscr c2 = curscr c1 /\
            _clear win2 = false /\ _clear scr2 = _clear scr || _clear win)
    as (win2 & scr2 & Hw2 & Hs2 & Hcc2 & Hk2 & Hk2').
  { destruct (_clear win1) eqn:Hclear; subst c2.
    - exists (set_clear win1 false), (set_clear scr1 true).
      rewrite !curscr_put_win. split_and!; try done.
      + rewrite get_put_ne by congruence. by eapply get_put_same.
      + eapply get_put_same. by rewrite get_put_ne.
      + simpl. rewrite <- Hcw. by rewrite orb_true_r.
    - exists win1, scr1. split_and!; try done.
      by rewrite Hcs, <- Hcw, orb_false_r. }
  rewrite <- Hcc2 in Hne.
  destruct (move_cursor_inv _ _ _ _ _ _ _ _ _ _ _ Hcur Hne Hw2 Hs2)
    as [(_ & ->)|(_ & ->)]; cbn [cur set_cur].
  - exists win2, (set_cursor scr2 (_cury win2 - clamp py + clamp sy1)
                    (_curx win2 - clamp px + clamp sx1)).
    rewrite !curscr_put_win. split_and!; try done.
    + by rewrite get_put_ne by congruence.
    + by eapply get_put_same.
  - by exists win2, scr2.
Qed.

(** ** pnoutrefresh succeeds on well-formed windows *)

Lemma window_ok_spec c p w :
  get_win c p = Done w -> window_ok c p = true ->
  0 <= _maxx w <= INT_MAX /\
  Z.of_nat (length (_y w)) = _maxy w /\
  Z.of_nat (length (_firstch w)) = _maxy w /\
  Z.of_nat (length (_lastch w)) = _maxy w /\
  forall r, 0 <= r < _maxy w ->
    exists b o len, zget (_y w) r = Some (RowAt b o) /\
      (length <$> cells c) !! b = Some len /\
      0 <= o /\ o + _maxx w <= Z.of_nat len.
Proof.
  intros Hw. unfold window_ok. rewrite Hw. rewrite !andb_true_iff.
  intros (((((H1 & H2) & H3) & H4) & H5) & H6). bool_hyps.
  split_and!; try lia. intros r Hr.
  rewrite forallb_forall in H6.
  destruct (lookup_lt_is_Some_2 (_y w) (Z.to_nat r)) as [q Hq]; [lia|].
  assert (Hin : In q (_y w)).
  { apply list_elem_of_In, list_elem_of_lookup. by exists (Z.to_nat r). }
  apply H6 in Hin. unfold row_fits in Hin.
  destruct q as [|b o]; [discriminate|].
  destruct (cells c !! b) as [row|] eqn:Hb; [|discriminate].
  apply andb_true_iff in Hin as [Ho1 Ho2]. bool_hyps.
  exists b, o, (length row). split_and!; try lia.
  - unfold zget. by replace (r <? 0) with false by lia.
  - by rewrite list_lookup_fmap, Hb.
Qed.

Section CopySucceeds.

Variables (w cs : option nat) (win scr : WINDOW) (sh : list nat).
Variables (sy2 sx1 sx2 px n : Z).
Hypothesis Hne : w <> cs.
Hypothesis Hn : 0 <= n.
Hypothesis Hdst : forall s, 0 <= s <= sy2 ->
  s < Z.of_nat (length (_firstch scr)) /\ s < Z.of_nat (length (_lastch scr)) /\
  exists b o len, zget (_y scr) s = Some (RowAt b o) /\ sh !! b = Some len /\
    0 <= o + sx1 /\ o + sx1 + n <= Z.of_nat len.
Hypothesis Hsrc : forall p, 0 <= p < _maxy win ->
  p < Z.of_nat (length (_firstch win)) /\ p < Z.of_nat (length (_lastch win)) /\
  exists b o len, zget (_y win) p = Some (RowAt b o) /\ sh !! b = Some len /\
    0 <= o + px /\ o + px + n <= Z.of_nat len.
Hypothesis Hapart : lines_apart (_y scr) (_y win).

Lemma copy_row_ok c sline pline :
  copy_ready w cs win scr sh c -> 0 <= sline <= sy2 -> 0 <= pline < _maxy win ->
  exists c', copy_row c w sline pline sx1 sx2 px n = Done c' /\
             copy_ready w cs win scr sh c'.
Proof.
  intros (Hcs & Hsh & win' & scr' & Hw' & Hs' & Hyw & Hmy & Hys & Hl1 & Hl2
          & Hl3 & Hl4) Hsl Hpl.
  destruct (Hdst sline Hsl) as (Hf1 & Hf2 & b & o & len & Hb & Hlb & Ho1 & Ho2).
  destruct (Hsrc pline Hpl) as (Hg1 & Hg2 & bp & op & lenp & Hbp & Hlbp & Hp1
                                & Hp2).
  assert (Hbne : b <> bp).
  { intros ->. by eapply Hapart. }
  rewrite <- Hsh in Hlb, Hlbp. rewrite list_lookup_fmap in Hlb, Hlbp.
  destruct (cells c !! b) as [rowd|] eqn:Hrd; [|discriminate].
  destruct (cells c !! bp) as [rowp|] eqn:Hrp; [|discriminate].
  injection Hlb as <-. injection Hlbp as <-.
  unfold copy_row. rewrite Hw', Hcs, Hs'. cbn [bind].
  rewrite Hys, Hyw. rewrite (proj2 (aget_zget _ _ _) Hb),
    (proj2 (aget_zget _ _ _) Hbp). cbn [bind ptr_add].
  unfold memcpy, load_cells. rewrite Hrp.
  replace ((0 <=? op + px) && (0 <=? n) && (op + px + n <=? Z.of_nat (length rowp)))
    with true by lia. cbn [bind overlap].
  replace (Nat.eqb b bp) with false by (symmetry; by apply Nat.eqb_neq).
  cbn [andb]. unfold store_cells. rewrite Hrd.
  set (chunk := take (Z.to_nat n) (drop (Z.to_nat (op + px)) rowp)).
  assert (Hlc : length chunk = Z.to_nat n).
  { subst chunk. rewrite length_take_le; [done|]. rewrite length_drop. lia. }
  rewrite Hlc, Z2Nat.id by done.
  replace ((0 <=? o + sx1) && (o + sx1 + n <=? Z.of_nat (length rowd)))
    with true by lia. cbn [bind].
  set (rowd' := take (Z.to_nat (o + sx1)) rowd ++ chunk ++ _).
  assert (Hlr : length rowd' = length rowd).
  { subst rowd'. rewrite !length_app, length_take_le, length_drop, Hlc by lia.
    lia. }
  destruct (lookup_lt_is_Some_2 (_firstch scr') (Z.to_nat sline)) as [f Hf];
    [lia|].
  destruct (lookup_lt_is_Some_2 (_lastch scr') (Z.to_nat sline)) as [l Hl];
    [lia|].
  unfold aget at 1. replace (sline <? 0) with false by lia. rewrite Hf.
  cbn [bind].
  assert (Hfs : exists fs, (if (f =? _NO_CHANGE) || (f >? sx1)
                            then aset (_firstch scr') sline sx1
                            else Done (_firstch scr')) = Done fs /\
                           length fs = length (_firstch scr')).
  { destruct (_ || _); [|by eexists]. unfold aset.
    replace ((0 <=? sline) && _) with true by lia.
    eexists. split; [done|]. by rewrite length_insert. }
  destruct Hfs as (fs & -> & Hlfs). cbn [bind].
  unfold aget at 1. replace (sline <? 0) with false by lia. rewrite Hl.
  cbn [bind].
  assert (Hls : exists ls, (if sx2 >? l
                            then aset (_lastch scr') sline sx2
                            else Done (_lastch scr')) = Done ls /\
                           length ls = length (_lastch scr')).
  { destruct (_ >? _); [|by eexists]. unfold aset.
    replace ((0 <=? sline) && _) with true by lia.
    eexists. split; [done|]. by rewrite length_insert. }
  destruct Hls as (ls & -> & Hlls). cbn [bind].
  cbn [curscr set_cells]. rewrite Hcs.
  rewrite get_put_ne by congruence.
  change (get_win (set_cells c ?m) w) with (get_win c w). rewrite Hw'.
  cbn [bind]. unfold aset.
  replace ((0 <=? pline) && (pline <? Z.of_nat (length (_firstch win'))))
    with true by lia.
  replace ((0 <=? pline) && (pline <? Z.of_nat (length (_lastch win'))))
    with true by lia. cbn [bind].
  eexists. split; [done|]. split_and!.
  - by rewrite !curscr_put_win.
  - rewrite !cells_put_win. cbn [cells set_cells].
    rewrite list_fmap_insert, Hlr. rewrite list_insert_id; [done|].
    by rewrite list_lookup_fmap, Hrd.
  - eexists _, _. split_and!.
    + eapply get_put_same. rewrite get_put_ne by congruence. exact Hw'.
    + rewrite get_put_ne by done. eapply get_put_same. exact Hs'.
    + done.
    + done.
    + done.
    + simpl. by rewrite length_insert.
    + simpl. by rewrite length_insert.
    + simpl. congruence.
    + simpl. congruence.
Qed.

Lemma copy_rows_ok fuel : forall c sline pline,
  copy_ready w cs win scr sh c -> 0 <= sline -> 0 <= pline ->
  sy2 < INT_MAX -> pline + (sy2 - sline) < INT_MAX ->
  (Z.to_nat (sy2 - sline + 1) <= fuel)%nat ->
  exists c', copy_rows fuel c w sline pline sy2 sx1 sx2 px n = Done c' /\
             copy_ready w cs win scr sh c'.
Proof.
  induction fuel as [|fuel IH]; intros c sline pline Hc Hs Hp Hm Hm' Hf; simpl.
  - replace (sline <=? sy2) with false by lia. by exists c.
  - destruct (Z.leb_spec sline sy2); [|by exists c].
    pose proof Hc as (_ & _ & win' & scr' & Hw' & _ & _ & Hmy & _).
    rewrite Hw'. cbn [bind]. rewrite Hmy.
    assert (Hstep : exists c1,
              (if pline <? _maxy win
               then copy_row c w sline pline sx1 sx2 px n else Done c)
              = Done c1 /\ copy_ready w cs win scr sh c1).
    { destruct (Z.ltb_spec pline (_maxy win)); [|by exists c].
      apply copy_row_ok; [done|lia|lia]. }
    destruct Hstep as (c1 & -> & Hc1). cbn [bind].
    unfold int_op, INT_MIN, INT_MAX in *.
    replace ((- 2 ^ 31 <=? sline + 1) && (sline + 1 <=? 2 ^ 31 - 1))
      with true by lia. cbn [bind].
    replace ((- 2 ^ 31 <=? pline + 1) && (pline + 1 <=? 2 ^ 31 - 1))
      with true by lia. cbn [bind].
    apply IH; try done; lia.
Qed.

End CopySucceeds.

Lemma move_clear_ok c w win scr :
  w <> curscr c -> get_win c w = Done win ->
  get_win c (curscr c) = Done scr ->
  exists c' win' scr',
    move_clear c w = Done c' /\ curscr c' = curscr c /\
    get_win c' w = Done win' /\ get_win c' (curscr c) = Done scr'.
Proof.
  intros Hne Hw Hs. unfold move_clear. rewrite Hw. cbn [bind].
  destruct (_clear win).
  - rewrite curscr_put_win, get_put_ne, Hs by done. cbn [bind].
    eexists _, _, _. split; [done|]. rewrite !curscr_put_win.
    split_and!; try done.
    + rewrite get_put_ne by congruence. by eapply get_put_same.
    + eapply get_put_same. by rewrite get_put_ne.
  - by eexists _, _, _.
Qed.

Lemma move_cursor_ok c w py px sy1 sx1 sy2 sx2 win scr :
  w <> curscr c -> get_win c w = Done win ->
  get_win c (curscr c) = Done scr ->
  is_int (py + (sy2 - sy1)) -> is_int (px + (sx2 - sx1)) ->
  is_int sy1 -> is_int sy2 -> is_int sx1 -> is_int sx2 ->
  sy1 <= sy2 -> sx1 <= sx2 ->
  exists c', move_cursor c w py px sy1 sx1 sy2 sx2 = Done c'.
Proof.
  intros Hne Hw Hs Iy Ix I1 I2 I3 I4 Hy Hx. unfold move_cursor.
  rewrite Hw. cbn [bind].
  destruct (_ && _) eqn:Hc; [|by eexists].
  rewrite (int_op_ok _ Iy). cbn [bind].
  destruct (_ <=? _) eqn:Hc1; [|by eexists].
  rewrite (int_op_ok _ Ix). cbn [bind].
  destruct (_curx win <=? _) eqn:Hc2; [|by eexists].
  rewrite Hs. cbn [bind].
  apply andb_true_iff in Hc as [Hc Hc3]. apply andb_true_iff in Hc as [_ Hc].
  bool_hyps. unfold is_int in *.
  rewrite int_op_ok by (unfold is_int; lia). cbn [bind].
  rewrite curscr_put_win, get_put_ne, Hw by done. cbn [bind].
  erewrite get_put_same by done. cbn [bind].
  rewrite int_op_ok by (unfold is_int; lia). cbn [bind]. by eexists.
Qed.

Lemma pnoutrefresh_ok st w py px sy1 sx1 sy2 sx2 win scr :
  get_win (cur st) w = Done win ->
  get_win (cur st) (curscr (cur st)) = Done scr ->
  window_ok (cur st) w = true ->
  window_ok (cur st) (curscr (cur st)) = true ->
  screen_not_pad (cur st) -> rows_apart scr win ->
  Z.land (_flags win) (Z.lor _PAD _SUBPAD) <> 0 ->
  0 <= sy1 <= sy2 -> clamp sx1 <= sx2 ->
  sy2 < LINES (cur st) <= INT_MAX -> sy2 < COLS (cur st) ->
  sy2 < _maxy scr -> sx2 < _maxx scr ->
  0 <= py -> py + (sy2 - sy1) < INT_MAX ->
  clamp px <= _maxx win -> clamp px + (sx2 - clamp sx1) <= INT_MAX ->
  exists st', pnoutrefresh st w py px sy1 sx1 sy2 sx2 = Done (st', OK).
Proof.
  intros Hw Hs Hokw Hoks Hnp Hap Hfl Hsy Hsx HL HC Hmy Hmx Hpy Hpy' Hpx Hpx'.
  destruct (window_ok_spec _ _ _ Hw Hokw) as (Hw1 & Hw2 & Hw3 & Hw4 & Hw5).
  destruct (window_ok_spec _ _ _ Hs Hoks) as (Hs1 & Hs2 & Hs3 & Hs4 & Hs5).
  assert (Hne : w <> curscr (cur st)) by (by eapply not_pad_ne).
  destruct (rows_apart_lines _ _ Hap) as [_ Hla].
  pose proof (clamp_spec sx1) as Hcx. pose proof (clamp_spec px) as Hcp.
  unfold pnoutrefresh. fold (clamp py) (clamp px) (clamp sy1) (clamp sx1).
  destruct w as [i|]; [|done]. rewrite Hw. cbn [bind].
  replace (Z.land (_flags win) (Z.lor _PAD _SUBPAD) =? 0) with false by lia.
  replace (sy2 >=? LINES (cur st)) with false by lia.
  replace (sy2 >=? COLS (cur st)) with false by lia. cbn [orb].
  assert (clamp sy1 = sy1) as -> by (rewrite clamp_spec; lia).
  assert (clamp py = py) as -> by (rewrite clamp_spec; lia).
  replace (sy2 <? sy1) with false by lia.
  replace (sx2 <? clamp sx1) with false by lia. cbn [orb].
  unfold INT_MAX, INT_MIN in *.
  rewrite !int_op_ok by (unfold is_int, INT_MAX, INT_MIN; lia). cbn [bind].
  set (n := Z.min (sx2 - clamp sx1 + 1) (_maxx win - clamp px)).
  destruct (copy_rows_ok (Some i) (curscr (cur st)) win scr
              (length <$> cells (cur st)) sy2 (clamp sx1) sx2 (clamp px) n)
    with (fuel := Z.to_nat (sy2 - sy1 + 1)) (c := cur st) (sline := sy1)
         (pline := py) as (c1 & -> & Hc1); try done; try (unfold INT_MAX; lia).
  { intros s Hs'. split; [lia|]. split; [lia|].
    destruct (Hs5 s) as (b & o & len & H1 & H2 & H3 & H4); [lia|].
    exists b, o, len. split_and!; try done; lia. }
  { intros p Hp. split; [lia|]. split; [lia|].
    destruct (Hw5 p) as (b & o & len & H1 & H2 & H3 & H4); [lia|].
    exists b, o, len. split_and!; try done; lia. }
  { split; [done|]. split; [done|]. by exists win, scr. }
  cbn [bind].
  destruct Hc1 as (Hcs1 & _ & win1 & scr1 & Hw1' & Hs1' & _).
  rewrite <- Hcs1 in Hs1', Hne.
  destruct (move_clear_ok _ _ _ _ Hne Hw1' Hs1')
    as (c2 & win2 & scr2 & -> & Hcs2 & Hw2' & Hs2'). cbn [bind].
  rewrite <- Hcs2 in Hs2', Hne.
  destruct (move_cursor_ok c2 (Some i) py (clamp px) sy1 (clamp sx1) sy2 sx2
              _ _ Hne Hw2' Hs2') as (c3 & ->);
    try (unfold is_int, INT_MAX, INT_MIN; lia).
  cbn [bind]. by eexists.
Qed.

(** X5.  pnoutrefresh returns OK whenever the pad and the screen are
    well-formed windows with rows of their own, the coordinates are not
    negative where the walk starts, the screen rectangle lies on the
    screen, and the pad origin lies on the pad. *)
Theorem pnoutrefresh_succeeds st w py px sy1 sx1 sy2 sx2 win scr :
  get_win (cur st) w = Done win ->
  get_win (cur st) (curscr (cur st)) = Done scr ->
  window_ok (cur st) w = true ->
  window_ok (cur st) (curscr (cur st)) = true ->
  screen_not_pad (cur st) -> rows_apart scr win ->
  Z.land (_flags win) (Z.lor _PAD _SUBPAD) <> 0 ->
  0 <= sy1 <= sy2 -> clamp sx1 <= sx2 ->
  sy2 < LINES (cur st) <= INT_MAX -> sy2 < COLS (cur st) ->
  sy2 < _maxy scr -> sx2 < _maxx scr ->
  0 <= py -> py + (sy2 - sy1) < INT_MAX ->
  clamp px <= _maxx win -> clamp px + (sx2 - clamp sx1) <= INT_MAX ->
  exists st', pnoutrefresh st w py px sy1 sx1 sy2 sx2 = Done (st', OK).
Proof. apply pnoutrefresh_ok. Qed.

(** X6.  A successful pnoutrefresh reads the pad and does not write it: no
    cell of the pad changes, and the pad keeps its line pointers, its size,
    its flags and its cursor. *)
Theorem pnoutrefresh_keeps_pad st w py px sy1 sx1 sy2 sx2 st' win scr :
  screen_not_pad (cur st) ->
  get_win (cur st) w = Done win ->
  get_win (cur st) (curscr (cur st)) = Done scr ->
  rows_apart scr win ->
  pnoutrefresh st w py px sy1 sx1 sy2 sx2 = Done (st', OK) ->
  (forall r x, win_cell (cur st') w r x = win_cell (cur st) w r x) /\
  exists win',
    get_win (cur st') w = Done win' /\
    _y win' = _y win /\ _maxy win' = _maxy win /\ _maxx win' = _maxx win /\
    _flags win' = _flags win /\ _cury win' = _cury win /\
    _curx win' = _curx win.
Proof.
  intros Hnp Hw Hs Hap H.
  destruct (pnoutrefresh_post _ _ _ _ _ _ _ _ _ _ _ Hnp H Hw Hs) as
    (c1 & win1 & scr1 & win0 & scr0 & Hne & Hy & Hx & Hloop & Hw1 & Hs1 & Hkw1
     & _ & _ & Hc & Hm & Hw0 & _ & Hkw & _).
  destruct (rows_apart_lines _ _ Hap) as [HD1 HD2].
  destruct (copy_rows_cells _ _ _ _ _ _ _ _ _ _ _ win scr Hloop Hne Hw Hs HD1 HD2)
    as [_ HB].
  assert (Hfield : forall (f : WINDOW -> WINDOW -> Prop),
            (forall a b, f (set_clear a false) (skeleton b) -> f a b) ->
            f (set_clear win1 false) (skeleton win1) -> f win0 win).
  { intros f Hf Hf1. apply Hf. rewrite Hkw, <- Hkw1. exact Hf1. }
  assert (Hyw : _y win0 = _y win).
  { change (_y (set_clear win0 false) = _y (skeleton win)).
    by rewrite Hkw, <- Hkw1. }
  split.
  - intros r x. unfold win_cell. rewrite Hw0, Hw, Hyw, Hm.
    destruct (zget (_y win) r) as [[|b o]|] eqn:Hz; try done. simpl.
    apply HB. intros s o' _ Hz' _. by eapply HD2.
  - exists win0. split; [done|]. split; [done|].
    split_and!.
    + change (_maxy (set_clear win0 false) = _maxy (skeleton win)).
      by rewrite Hkw, <- Hkw1.
    + change (_maxx (set_clear win0 false) = _maxx (skeleton win)).
      by rewrite Hkw, <- Hkw1.
    + change (_flags (set_clear win0 false) = _flags (skeleton win)).
      by rewrite Hkw, <- Hkw1.
    + change (_cury (set_clear win0 false) = _cury (skeleton win)).
      by rewrite Hkw, <- Hkw1.
    + change (_curx (set_clear win0 false) = _curx (skeleton win)).
      by rewrite Hkw, <- Hkw1.
Qed.

(** ** newpad *)

Lemma next_alloc_ok c k :
  true ∉ take (S k) (alloc_fail c) ->
  exists s, next_alloc c = (set_alloc_fail c s, false) /\ true ∉ take k s.
Proof.
  unfold next_alloc. destruct c as [L C scr ws m [|[] s]]; simpl.
  - intros _. exists []. split; [done|]. rewrite take_nil. apply not_elem_of_nil.
  - intros H. exfalso. apply H. left.
  - intros H%not_elem_of_cons. exists s. split; [done|]. tauto.
Qed.

(** werase on lines that start row blocks of [k] cells. *)
Lemma erase_rows_spec k : forall ys m,
  (forall p, p ∈ ys -> exists b row,
     p = RowAt b 0 /\ m !! b = Some row /\ length row = k) ->
  exists m',
    erase_rows m ys (Z.of_nat k) = Done m' /\
    forall b', m' !! b' =
      if existsb (fun p => bool_decide (blk_of p = Some b')) ys
      then Some (replicate k blank) else m !! b'.
Proof.
  induction ys as [|p ys IH]; intros m Hys; simpl; [by exists m|].
  destruct (Hys p) as (b & row & -> & Hb & Hlen); [left|].
  unfold store_cells. rewrite Hb, Nat2Z.id, length_replicate.
  replace ((0 <=? 0) && (0 + Z.of_nat k <=? Z.of_nat (length row)))
    with true by lia. cbn [bind].
  change (Z.to_nat 0) with 0%nat. rewrite take_0, (drop_ge row) by (simpl; lia).
  rewrite app_nil_l, app_nil_r.
  destruct (IH (<[b := replicate k blank]> m)) as (m' & -> & Hm').
  { intros p Hp. destruct (Hys p) as (b1 & row1 & -> & Hb1 & Hl1); [by right|].
    destruct (decide (b = b1)) as [->|Hne].
    - exists b1, (replicate k blank). rewrite list_lookup_insert_eq.
      + by rewrite length_replicate.
      + by eapply lookup_lt_Some.
    - exists b1, row1. by rewrite list_lookup_insert_ne. }
  exists m'. split; [done|]. intros b'. rewrite Hm'. simpl.
  destruct (existsb _ ys); [by rewrite orb_true_r|]. rewrite orb_false_r.
  destruct (decide (b = b')) as [->|Hne].
  - rewrite bool_decide_eq_true_2 by done.
    rewrite list_lookup_insert_eq; [done|]. by eapply lookup_lt_Some.
  - rewrite bool_decide_eq_false_2 by congruence.
    by rewrite list_lookup_insert_ne.
Qed.

Lemma PDC_makenew_ok c nlines ncols begy begx k :
  true ∉ take (S k) (alloc_fail c) -> 0 <= nlines ->
  exists c',
    PDC_makenew c nlines ncols begy begx = (c', Some (length (wins c))) /\
    true ∉ take k (alloc_fail c').
Proof.
  intros Ha Hn. unfold PDC_makenew.
  destruct (next_alloc_ok _ _ Ha) as (s & -> & Hs).
  replace (nlines <? 0) with false by lia. cbn [orb]. by eexists.
Qed.

Lemma PDC_makelines_ok c i w :
  get_win c (Some i) = Done w -> true ∉ take 1 (alloc_fail c) ->
  0 <= _maxx w ->
  exists c',
    PDC_makelines c (Some i) = Done (c', Some i) /\
    LINES c' = LINES c /\ COLS c' = COLS c /\ curscr c' = curscr c /\
    wins c' = <[i := set_y w (map (fun j => RowAt (length (cells c) + j)%nat 0)
                          (seq 0 (length (_y w))))]> (wins c) /\
    cells c' = cells c ++ replicate (length (_y w))
                            (replicate (Z.to_nat (_maxx w)) 0).
Proof.
  intros Hw Ha Hx. unfold PDC_makelines. rewrite Hw. cbn [bind].
  destruct (next_alloc_ok _ _ Ha) as (s & -> & _).
  replace (_maxx w <? 0) with false by lia. cbn [orb]. by eexists.
Qed.

Lemma werase_ok c i w k :
  get_win c (Some i) = Done w -> _maxx w = Z.of_nat k ->
  (forall p, p ∈ _y w -> exists b row,
     p = RowAt b 0 /\ cells c !! b = Some row /\ length row = k) ->
  exists c',
    werase c (Some i) = Done c' /\
    LINES c' = LINES c /\ COLS c' = COLS c /\ curscr c' = curscr c /\
    wins c' = <[i := set_cursor
                       (set_damage w (replicate (length (_y w)) 0)
                          (replicate (length (_y w)) (_maxx w - 1))) 0 0]>
                (wins c) /\
    forall b', cells c' !! b' =
      if existsb (fun p => bool_decide (blk_of p = Some b')) (_y w)
      then Some (replicate k blank) else cells c !! b'.
Proof.
  intros Hw Hx Hys. unfold werase. rewrite Hw. cbn [bind].
  destruct (erase_rows_spec k (_y w) (cells c) Hys) as (m & Hm & Hm').
  rewrite Hx, Hm. cbn [bind]. by eexists.
Qed.

Lemma newpad_steps st nlines ncols :
  true ∉ take 2 (alloc_fail (cur st)) ->
  0 <= nlines <= INT_MAX -> 0 <= ncols <= INT_MAX ->
  0 <= LINES (cur st) -> 0 <= COLS (cur st) ->
  exists c',
    newpad st nlines ncols =
    Done (mkState c' 0 0 0 0 (Z.min (LINES (cur st)) nlines - 1)
            (Z.min (COLS (cur st)) ncols - 1),
          Some (length (wins (cur st)))) /\
    LINES c' = LINES (cur st) /\ COLS c' = COLS (cur st) /\
    curscr c' = curscr (cur st) /\
    wins c' = wins (cur st) ++
      [mkWINDOW 0 0 nlines ncols (-1) (-1) _PAD 0
         ((nlines =? LINES (cur st)) && (ncols =? COLS (cur st)))
         false false false false
         (map (fun i => RowAt (length (cells (cur st)) + i)%nat 0)
            (seq 0 (Z.to_nat nlines)))
         (replicate (Z.to_nat nlines) 0)
         (replicate (Z.to_nat nlines) (ncols - 1)) None] /\
    (forall b, cells c' !! b =
       if bool_decide (length (cells (cur st)) <= b
                       < length (cells (cur st)) + Z.to_nat nlines)%nat
       then Some (replicate (Z.to_nat ncols) blank)
       else cells (cur st) !! b).
Proof.
  intros Ha Hnl Hnc HL HC. unfold newpad.
  destruct (PDC_makenew_ok (cur st) nlines ncols (-1) (-1) 1 Ha) as
    (c1 & Hmk & Ha1); [lia|].
  rewrite Hmk.
  apply PDC_makenew_inv in Hmk as (_ & _ & Hm1 & HL1 & HC1 & Hs1 & Hw1).
  set (w0 := mkWINDOW _ _ _ _ _ _ _ _ _ _ _ _ _ _ _ _ _) in Hw1.
  destruct (get_win_app _ _ _ _ Hw1 eq_refl) as [Hg1 _].
  destruct (PDC_makelines_ok c1 _ w0 Hg1 Ha1) as
    (c2 & -> & HL2 & HC2 & Hs2 & Hw2 & Hm2); [simpl; lia|].
  cbn [bind].
  set (w1 := set_y w0 _) in Hw2.
  assert (Hg2 : get_win c2 (Some (length (wins (cur st)))) = Done w1).
  { simpl. rewrite Hw2, Hw1, list_lookup_insert_eq; [done|].
    rewrite length_app. simpl. lia. }
  destruct (werase_ok c2 _ w1 (Z.to_nat ncols) Hg2) as
    (c3 & -> & HL3 & HC3 & Hs3 & Hw3 & Hm3).
  { simpl. lia. }
  { intros p Hp. subst w1. cbn [_y set_y] in Hp.
    apply list_elem_of_fmap in Hp as (i & -> & Hi%elem_of_seq).
    cbn [_y w0] in Hi. rewrite length_replicate in Hi.
    eexists _, _. split; [done|]. rewrite Hm2. split.
    - rewrite lookup_app_r by lia.
      replace (length (cells c1) + i - length (cells c1))%nat with i by lia.
      apply lookup_replicate_2. cbn [_y w0]. rewrite length_replicate. lia.
    - by rewrite length_replicate. }
  cbn [bind].
  set (w2 := set_cursor _ 0 0) in Hw3.
  assert (Hg3 : get_win c3 (Some (length (wins (cur st)))) = Done w2).
  { simpl. rewrite Hw3, list_lookup_insert_eq; [done|].
    rewrite Hw2, length_insert, Hw1, length_app. simpl. lia. }
  rewrite Hg3. cbn [bind].
  assert (HLf : LINES (put_win c3 (Some (length (wins (cur st))))
                         (set_flags w2 _PAD)) = LINES (cur st))
    by (simpl; congruence).
  assert (HCf : COLS (put_win c3 (Some (length (wins (cur st))))
                        (set_flags w2 _PAD)) = COLS (cur st))
    by (simpl; congruence).
  rewrite HLf, HCf.
  rewrite !int_op_ok by (unfold is_int, INT_MIN, INT_MAX in *; lia).
  cbn [bind].
  eexists. split; [done|]. split; [done|]. split; [done|].
  split; [simpl; congruence|]. split.
  - simpl. rewrite Hw3, Hw2, Hw1, !list_insert_insert_eq.
    rewrite insert_app_r_alt, Nat.sub_diag by lia. simpl.
    do 2 f_equal. subst w2 w1 w0. simpl. rewrite length_replicate.
    by rewrite ?length_map, ?length_seq, ?HL1, ?HC1, ?Hm1.
  - intros b. rewrite cells_put_win, Hm3, Hm2.
    subst w1. cbn [_y set_y w0 _maxx]. rewrite length_replicate.
    set (base := length (cells c1)). set (n := Z.to_nat nlines).
    assert (Hbase : base = length (cells (cur st))) by (subst base; congruence).
    assert (Hex : existsb (fun p => bool_decide (blk_of p = Some b))
                    (map (fun j => RowAt (base + j)%nat 0) (seq 0 n)) =
                  bool_decide (base <= b < base + n)%nat).
    { apply eq_true_iff_eq. rewrite existsb_exists, bool_decide_eq_true.
      split.
      - intros (p & (j & <- & Hj%in_seq)%in_map_iff & Hp).
        apply bool_decide_eq_true in Hp. simpl in Hp. injection Hp as <-. lia.
      - intros Hb. exists (RowAt b 0). split.
        + apply in_map_iff. exists (b - base)%nat. split.
          * f_equal. lia.
          * apply in_seq. lia.
        + by apply bool_decide_eq_true. }
    rewrite Hex, <- Hbase. case_bool_decide as Hb; [done|].
    destruct (decide (b < base)%nat).
    + rewrite lookup_app_l by lia. by rewrite Hm1.
    + rewrite !lookup_ge_None_2; [done|lia|].
      rewrite length_app, length_replicate. fold base n. lia.
Qed.

(** X7.  When both allocations succeed, newpad returns a new window of
    [nlines] by [ncols] cells, all blank, flagged as a pad, with origin
    (-1,-1) and the cursor at (0,0), and saves the region pad (0,0), screen
    (0,0) to (min(LINES, nlines) - 1, min(COLS, ncols) - 1) for
    pechochar. *)
Theorem newpad_creates st nlines ncols :
  true ∉ take 2 (alloc_fail (cur st)) ->
  0 <= nlines <= INT_MAX -> 0 <= ncols <= INT_MAX ->
  0 <= LINES (cur st) -> 0 <= COLS (cur st) ->
  exists st' pad,
    newpad st nlines ncols = Done (st', Some (length (wins (cur st)))) /\
    get_win (cur st') (Some (length (wins (cur st)))) = Done pad /\
    _flags pad = _PAD /\ _maxy pad = nlines /\ _maxx pad = ncols /\
    _begy pad = -1 /\ _begx pad = -1 /\ _cury pad = 0 /\ _curx pad = 0 /\
    _parent pad = None /\
    saved st' = [0; 0; 0; 0; Z.min (LINES (cur st)) nlines - 1;
                 Z.min (COLS (cur st)) ncols - 1] /\
    forall r x, 0 <= r < nlines -> 0 <= x < ncols ->
      win_cell (cur st') (Some (length (wins (cur st)))) r x = Some blank.
Proof.
  intros Ha Hnl Hnc HL HC.
  destruct (newpad_steps st nlines ncols Ha Hnl Hnc HL HC) as
    (c' & -> & _ & _ & _ & Hw & Hm).
  eexists _, _. split; [done|]. cbn [cur].
  destruct (get_win_app (cur st) c' _ _ Hw eq_refl) as [Hg _].
  split; [exact Hg|]. split_and!; try done.
  intros r x Hr Hx. unfold win_cell. rewrite Hg. cbn [_y].
  unfold zget at 1. replace (r <? 0) with false by lia.
  rewrite list_lookup_fmap, lookup_seq_lt by lia. simpl.
  rewrite Hm. rewrite bool_decide_eq_true_2 by lia.
  unfold zget. replace (0 + x <? 0) with false by lia.
  apply lookup_replicate_2. lia.
Qed.

Lemma newpad_creates_witness :
  exists st' pad,
    newpad (screen 4 6) 3 3 = Done (st', Some (length (wins (cur (screen 4 6))))) /\
    get_win (cur st') (Some (length (wins (cur (screen 4 6))))) = Done pad /\
    _flags pad = _PAD /\ _maxy pad = 3 /\ _maxx pad = 3 /\
    _begy pad = -1 /\ _begx pad = -1 /\ _cury pad = 0 /\ _curx pad = 0 /\
    _parent pad = None /\
    saved st' = [0; 0; 0; 0; Z.min (LINES (cur (screen 4 6))) 3 - 1;
                 Z.min (COLS (cur (screen 4 6))) 3 - 1] /\
    forall r x, 0 <= r < 3 -> 0 <= x < 3 ->
      win_cell (cur st') (Some (length (wins (cur (screen 4 6))))) r x
      = Some blank.
Proof.
  assert (H1 : true ∉ take 2 (alloc_fail (cur (screen 4 6)))).
  { vm_compute. apply not_elem_of_nil. }
  assert (H2 : 0 <= 3 <= INT_MAX) by (vm_compute; split; congruence).
  assert (H3 : 0 <= LINES (cur (screen 4 6))) by (vm_compute; congruence).
  assert (H4 : 0 <= COLS (cur (screen 4 6))) by (vm_compute; congruence).
  exact (newpad_creates (screen 4 6) 3 3 H1 H2 H2 H3 H4).
Defined.

(** X8.  newpad leaves what was there alone: every window that existed is
    the same afterwards and so is every cell that existed, the screen and
    its size are the same, and the new pad is a window that did not
    exist. *)
Theorem newpad_keeps_others st nlines ncols :
  true ∉ take 2 (alloc_fail (cur st)) ->
  0 <= nlines <= INT_MAX -> 0 <= ncols <= INT_MAX ->
  0 <= LINES (cur st) -> 0 <= COLS (cur st) ->
  exists st',
    newpad st nlines ncols = Done (st', Some (length (wins (cur st)))) /\
    get_win (cur st) (Some (length (wins (cur st)))) = Undef /\
    LINES (cur st') = LINES (cur st) /\ COLS (cur st') = COLS (cur st) /\
    curscr (cur st') = curscr (cur st) /\
    (forall p w, get_win (cur st) p = Done w -> get_win (cur st') p = Done w) /\
    (forall p r x v, win_cell (cur st) p r x = Some v ->
       win_cell (cur st') p r x = Some v).
Proof.
  intros Ha Hnl Hnc HL HC.
  destruct (newpad_steps st nlines ncols Ha Hnl Hnc HL HC) as
    (c' & -> & HL' & HC' & Hs' & Hw & Hm).
  eexists. split; [done|]. cbn [cur].
  destruct (get_win_app (cur st) c' _ _ Hw eq_refl) as [_ Hold].
  split_and!; try done.
  - simpl. by rewrite lookup_ge_None_2.
  - intros p w Hp. by apply Hold.
  - intros p r x v. unfold win_cell.
    destruct (get_win (cur st) p) as [w|] eqn:Hp; [|done].
    rewrite (proj1 (Hold _ _ Hp)).
    destruct (zget (_y w) r) as [[|b o]|]; try done. simpl.
    rewrite Hm. destruct (cells (cur st) !! b) as [row|] eqn:Hb; [|done].
    apply lookup_lt_Some in Hb. by rewrite bool_decide_eq_false_2 by lia.
Qed.

Lemma newpad_keeps_others_witness :
  exists st',
    newpad small_pad 2 5 = Done (st', Some (length (wins (cur small_pad)))) /\
    get_win (cur small_pad) (Some (length (wins (cur small_pad)))) = Undef /\
    LINES (cur st') = LINES (cur small_pad) /\
    COLS (cur st') = COLS (cur small_pad) /\
    curscr (cur st') = curscr (cur small_pad) /\
    (forall p w, get_win (cur small_pad) p = Done w ->
       get_win (cur st') p = Done w) /\
    (forall p r x v, win_cell (cur small_pad) p r x = Some v ->
       win_cell (cur st') p r x = Some v).
Proof.
  assert (H1 : true ∉ take 2 (alloc_fail (cur small_pad))).
  { vm_compute. apply not_elem_of_nil. }
  assert (H2 : 0 <= 2 <= INT_MAX) by (vm_compute; split; congruence).
  assert (H3 : 0 <= 5 <= INT_MAX) by (vm_compute; split; congruence).
  assert (H4 : 0 <= LINES (cur small_pad)) by (vm_compute; congruence).
  assert (H5 : 0 <= COLS (cur small_pad)) by (vm_compute; congruence).
  exact (newpad_keeps_others small_pad 2 5 H1 H2 H3 H4 H5).
Defined.

(** X9.  When newpad returns no window, an allocation having failed, the
    saved region, the screen, the cells and every window that existed are
    as they were; it returns none when the first allocation fails and when
    the second does. *)
Theorem newpad_failure st nlines ncols :
  (forall st', newpad st nlines ncols = Done (st', None) ->
     saved st' = saved st /\ cells (cur st') = cells (cur st) /\
     LINES (cur st') = LINES (cur st) /\ COLS (cur st') = COLS (cur st) /\
     curscr (cur st') = curscr (cur st) /\
     forall p w, get_win (cur st) p = Done w -> get_win (cur st') p = Done w) /\
  (forall s, alloc_fail (cur st) = true :: s ->
     exists st', newpad st nlines ncols = Done (st', None)) /\
  (forall s, alloc_fail (cur st) = false :: true :: s -> 0 <= nlines ->
     exists st', newpad st nlines ncols = Done (st', None)).
Proof.
  split_and!.
  - intros st'. unfold newpad.
    destruct (PDC_makenew _ _ _ _ _) as [c [i|]] eqn:Hmk.
    + apply PDC_makenew_inv in Hmk as (_ & -> & Hm & HL & HC & Hs & Hw).
      destruct (get_win_app _ _ _ _ Hw eq_refl) as [Hg Hold].
      unfold PDC_makelines. rewrite Hg. cbn [bind].
      unfold next_alloc.
      destruct (alloc_fail c) as [|a s]; cbn [orb].
      * destruct (_ <? 0); cbn [bind].
        -- intros [= <-]. split_and!; try done. intros p w Hp.
           by apply Hold.
        -- intros H. by inv_out.
      * destruct (a || _); cbn [bind].
        -- intros [= <-]. split_and!; try done. intros p w Hp.
           by apply Hold.
        -- intros H. by inv_out.
    + apply PDC_makenew_fail in Hmk as (Hw & Hm & HL & HC & Hs).
      intros [= <-]. split_and!; try done. intros p w.
      destruct p as [i|]; simpl; [|done]. by rewrite Hw.
  - intros s Hs. unfold newpad, PDC_makenew, next_alloc. rewrite Hs.
    by eexists.
  - intros s Hs Hn. unfold newpad, PDC_makenew, next_alloc. rewrite Hs.
    replace (nlines <? 0) with false by lia. cbn [orb].
    unfold PDC_makelines. simpl. rewrite list_lookup_middle by done.
    cbn [bind]. by eexists.
Qed.

(** ** More about subpad *)

Lemma alias_rows_others win orig k nlines fuel :
  forall c i j c',
    alias_rows fuel c win orig i j k nlines = Done c' ->
    forall p, p <> win -> get_win c' p = get_win c p.
Proof.
  induction fuel as [|fuel IH]; intros c i j c'; simpl.
  - destruct (i <? nlines); [discriminate|]. by intros [= <-].
  - destruct (i <? nlines); [|by intros [= <-]].
    intros H p Hp. inv_out.
    match goal with H : alias_rows _ _ _ _ _ _ _ _ = Done _ |- _ =>
      rewrite (IH _ _ _ _ H p Hp) end.
    by rewrite get_put_ne.
Qed.

(** What a successful subpad leaves behind. *)
Lemma subpad_inv st orig nlines ncols begy begx ow st' i :
  get_win (cur st) orig = Done ow ->
  subpad st orig nlines ncols begy begx = Done (st', Some i) ->
  let nl := if nlines =? 0 then _maxy ow - 1 - begy else nlines in
  let nc := if ncols =? 0 then _maxx ow - 1 - begx else ncols in
  i = length (wins (cur st)) /\
  saved st' = [0; 0; 0; 0; Z.min (LINES (cur st)) nl - 1;
               Z.min (COLS (cur st)) nc - 1] /\
  LINES (cur st') = LINES (cur st) /\ COLS (cur st') = COLS (cur st) /\
  curscr (cur st') = curscr (cur st) /\ cells (cur st') = cells (cur st) /\
  (forall p x, get_win (cur st) p = Done x -> get_win (cur st') p = Done x) /\
  exists ys,
    get_win (cur st') (Some i) =
    Done (mkWINDOW 0 0 nl nc begy begx _SUBPAD (_attrs ow)
            ((nl =? LINES (cur st)) && (nc =? COLS (cur st)))
            (_leaveit ow) (_scroll ow) (_nodelay ow) (_use_keypad ow)
            ys (replicate (Z.to_nat nl) 0) (replicate (Z.to_nat nl) (nc - 1))
            orig) /\
    forall r, 0 <= r < nl ->
      exists q, zget (_y ow) (begy + r) = Some q /\
                zget ys r = Some (ptr_add q begx).
Proof.
  intros Ho H nl nc. destruct orig as [o|]; [|discriminate].
  unfold subpad in H. rewrite Ho in H. cbn [bind] in H.
  destruct (_ =? 0); [discriminate|].
  destruct (_ || _); [discriminate|].
  inv_out. destruct (_ >? _); [discriminate|].
  inv_out. destruct (_ >? _); [discriminate|].
  inv_out.
  assert (x = nl) as ->.
  { subst nl. destruct (nlines =? 0); [by inv_out|congruence]. }
  assert (x0 = nc) as ->.
  { subst nc. destruct (ncols =? 0); [by inv_out|congruence]. }
  clear E3 E4.
  destruct (PDC_makenew _ _ _ _ _) as [c [j|]] eqn:Hmk; [|discriminate].
  apply PDC_makenew_inv in Hmk as (Hnl & -> & Hm & HL & HC & Hcs & Hws).
  destruct (get_win_app _ _ _ _ Hws eq_refl) as [Hnew Hold].
  destruct (Hold _ _ Ho) as [Ho1 Hne].
  inv_out. win_simpl. subst st' i. cbn [cur].
  set (w0 := inherit _ ow _) in *.
  match goal with Hal : alias_rows _ _ _ _ _ _ _ _ = Done _ |- _ =>
    pose proof (alias_rows_others _ _ _ _ _ _ _ _ _ Hal) as Hoth;
    eapply (alias_rows_spec _ _ _ _ _ _ _ _ _ w0 ow) in Hal as
      (w' & Hw' & Ho' & Hm' & Hcs' & HL' & HC' & Hk & Hex & Hy);
      [|congruence|by eapply get_put_same|by rewrite get_put_ne]
  end.
  win_simpl.
  fold (put_win x1 (Some (length (wins (cur st)))) (set_flags w' _SUBPAD)).
  destruct (put_win_globals x1 (Some (length (wins (cur st))))
              (set_flags w' _SUBPAD)) as (G1 & G2 & G3 & G4 & _).
  destruct (put_win_globals c (Some (length (wins (cur st)))) w0)
    as (_ & G6 & G7 & _).
  split; [done|]. split.
  { unfold saved. cbn -[Z.min Z.sub].
    rewrite ?G2, ?G3, ?HL', ?HC', ?G6, ?G7. congruence. }
  split; [congruence|]. split; [congruence|]. split; [congruence|].
  split; [congruence|]. split.
  { intros p x Hp. destruct (Hold _ _ Hp) as [Hp1 Hpne].
    rewrite get_put_ne by congruence. rewrite Hoth by done.
    by rewrite get_put_ne by congruence. }
  exists (_y w'). split.
  - erewrite get_put_same by done. f_equal.
    destruct w'. subst w0. simpl in Hk. unfold inherit in Hk. simpl in Hk.
    injection Hk as -> -> -> -> -> -> -> -> -> -> -> -> -> -> -> ->.
    done.
  - intros r Hr. destruct (Hex r) as [q Hq]; [lia|].
    replace (begy + (r - 0)) with (begy + r) in Hq by lia.
    exists q. split; [done|]. rewrite Hy.
    replace ((0 <=? r) && (r <? nl)) with true by lia.
    replace (begy + (r - 0)) with (begy + r) by lia. by rewrite Hq.
Qed.

(** X10.  A successful subpad saves the region pad (0,0), screen (0,0) to
    (min(LINES, nlines) - 1, min(COLS, ncols) - 1) for pechochar, with the
    sizes it gave the window, and the window takes its attributes and its
    leaveok, scroll, nodelay and keypad settings from the parent and has
    its cursor at (0,0). *)
Theorem subpad_saves_and_inherits st orig nlines ncols begy begx ow st' i :
  get_win (cur st) orig = Done ow ->
  subpad st orig nlines ncols begy begx = Done (st', Some i) ->
  let nl := if nlines =? 0 then _maxy ow - 1 - begy else nlines in
  let nc := if ncols =? 0 then _maxx ow - 1 - begx else ncols in
  saved st' = [0; 0; 0; 0; Z.min (LINES (cur st)) nl - 1;
               Z.min (COLS (cur st)) nc - 1] /\
  exists sw,
    get_win (cur st') (Some i) = Done sw /\
    _attrs sw = _attrs ow /\ _leaveit sw = _leaveit ow /\
    _scroll sw = _scroll ow /\ _nodelay sw = _nodelay ow /\
    _use_keypad sw = _use_keypad ow /\ _cury sw = 0 /\ _curx sw = 0.
Proof.
  intros Ho H nl nc.
  destruct (subpad_inv _ _ _ _ _ _ _ _ _ Ho H)
    as (_ & Hsv & _ & _ & _ & _ & _ & ys & Hsw & _).
  split; [done|]. eexists. split; [exact Hsw|]. done.
Qed.

(** X11.  subpad allocates no cells and changes no window that existed, and
    the new window shares the parent's cells: whatever the cells hold
    later, the cell at line [r], column [x] of the sub-pad is the cell at
    line [begy + r], column [begx + x] of the parent. *)
Theorem subpad_shares_cells st orig nlines ncols begy begx ow st' i :
  get_win (cur st) orig = Done ow ->
  subpad st orig nlines ncols begy begx = Done (st', Some i) ->
  let nl := if nlines =? 0 then _maxy ow - 1 - begy else nlines in
  get_win (cur st) (Some i) = Undef /\
  cells (cur st') = cells (cur st) /\
  (forall p x, get_win (cur st) p = Done x -> get_win (cur st') p = Done x) /\
  forall m r x, 0 <= r < nl ->
    win_cell (set_cells (cur st') m) (Some i) r x =
    win_cell (set_cells (cur st') m) orig (begy + r) (begx + x).
Proof.
  intros Ho H nl.
  destruct (subpad_inv _ _ _ _ _ _ _ _ _ Ho H)
    as (-> & _ & _ & _ & _ & Hm & Hold & ys & Hsw & Hal).
  split_and!; try done.
  - simpl. by rewrite lookup_ge_None_2.
  - intros m r x Hr. destruct (Hal r Hr) as (q & Hq1 & Hq2).
    unfold win_cell.
    change (get_win (set_cells (cur st') m) ?p) with (get_win (cur st') p).
    rewrite Hsw, (Hold _ _ Ho). cbn [_y]. rewrite Hq1, Hq2.
    by rewrite ptr_add_add.
Qed.

(** X12.  When subpad returns no window, nothing has changed but the
    allocation schedule: the saved region, the windows, the cells and the
    screen are as they were. *)
Theorem subpad_failure st orig nlines ncols begy begx st' :
  subpad st orig nlines ncols begy begx = Done (st', None) ->
  saved st' = saved st /\ wins (cur st') = wins (cur st) /\
  cells (cur st') = cells (cur st) /\ LINES (cur st') = LINES (cur st) /\
  COLS (cur st') = COLS (cur st) /\ curscr (cur st') = curscr (cur st).
Proof.
  unfold subpad. destruct orig as [o|]; [|by intros [= <-]].
  intros H. inv_out.
  destruct (_ =? 0); [by injection H as <-|].
  destruct (_ || _); [by injection H as <-|].
  inv_out. destruct (_ >? _); [by injection H as <-|].
  inv_out. destruct (_ >? _); [by injection H as <-|].
  inv_out.
  destruct (PDC_makenew _ _ _ _ _) as [c [j|]] eqn:Hmk.
  - by inv_out.
  - apply PDC_makenew_fail in Hmk as (Hw & Hm & HL & HC & Hs).
    by injection H as <-.
Qed.

Lemma alias_rows_ok win orig k nlines ow fuel :
  forall c i j w,
    win <> orig -> get_win c win = Done w -> get_win c orig = Done ow ->
    Z.of_nat (length (_y w)) = nlines -> 0 <= i -> 0 <= j ->
    j + (nlines - i) <= Z.of_nat (length (_y ow)) ->
    Z.of_nat (length (_y ow)) <= INT_MAX -> nlines <= INT_MAX ->
    (Z.to_nat (nlines - i) <= fuel)%nat ->
    exists c', alias_rows fuel c win orig i j k nlines = Done c'.
Proof.
  induction fuel as [|fuel IH]; intros c i j w Hne Hw Ho Hlen Hi Hj Hb Hm Hm' Hf;
    simpl.
  - replace (i <? nlines) with false by lia. by eexists.
  - destruct (Z.ltb_spec i nlines); [|by eexists].
    rewrite Ho. cbn [bind].
    destruct (lookup_lt_is_Some_2 (_y ow) (Z.to_nat j)) as [q Hq]; [lia|].
    unfold aget. replace (j <? 0) with false by lia. rewrite Hq. cbn [bind].
    unfold INT_MAX in Hm, Hm'.
    rewrite int_op_ok by (unfold is_int, INT_MIN, INT_MAX; lia). cbn [bind].
    rewrite Hw. cbn [bind]. unfold aset.
    replace ((0 <=? i) && (i <? Z.of_nat (length (_y w)))) with true by lia.
    cbn [bind].
    rewrite int_op_ok by (unfold is_int, INT_MIN, INT_MAX; lia). cbn [bind].
    eapply (IH _ _ _ (set_y w (<[Z.to_nat i := ptr_add q k]> (_y w))));
      try done; try lia.
    + by eapply get_put_same.
    + by rewrite get_put_ne.
    + simpl. rewrite length_insert. lia.
Qed.

(** X13.  On a pad as newpad makes it, with origin (-1,-1), and with offsets
    and sizes that are not negative, subpad returns a window when the
    allocation succeeds and the region ends at least one line and one
    column before the end of the pad, and returns none, changing nothing,
    when it ends later; a region that reaches the last line or the last
    column of the pad is refused. *)
Theorem subpad_accepts st orig nlines ncols begy begx ow :
  get_win (cur st) orig = Done ow -> Z.land (_flags ow) _PAD <> 0 ->
  _begy ow = -1 -> _begx ow = -1 ->
  Z.of_nat (length (_y ow)) = _maxy ow ->
  _maxy ow <= INT_MAX -> 0 <= _maxx ow <= INT_MAX ->
  true ∉ take 1 (alloc_fail (cur st)) ->
  0 <= LINES (cur st) -> 0 <= COLS (cur st) ->
  0 <= begy -> 0 <= begx -> 0 <= nlines -> 0 <= ncols ->
  begy + nlines <= INT_MAX -> begx + ncols <= INT_MAX ->
  (begy + nlines <= _maxy ow - 1 /\ begx + ncols <= _maxx ow - 1 ->
   exists st', subpad st orig nlines ncols begy begx =
               Done (st', Some (length (wins (cur st))))) /\
  (begy + nlines > _maxy ow - 1 \/ begx + ncols > _maxx ow - 1 ->
   subpad st orig nlines ncols begy begx = Done (st, None)).
Proof.
  intros Ho Hfl Hby Hbx Hlen Hmy Hmx Ha HL HC Hy Hx Hnl Hnc Iy Ix.
  destruct orig as [o|]; [|done].
  unfold INT_MAX in *.
  assert (Hstart : subpad st (Some o) nlines ncols begy begx =
    if (begy + nlines >? _begy ow + _maxy ow) then Done (st, None)
    else if (begx + ncols >? _begx ow + _maxx ow) then Done (st, None)
    else
      bind (if nlines =? 0 then int_op (_maxy ow - 1 - begy) else Done nlines)
        (fun nlines =>
      bind (if ncols =? 0 then int_op (_maxx ow - 1 - begx) else Done ncols)
        (fun ncols =>
      let (c, win) := PDC_makenew (cur st) nlines ncols begy begx in
      match win with
      | None => Done (set_cur st c, None)
      | Some _ =>
        bind (get_win c win) (fun w =>
        bind (get_win c (Some o)) (fun ow =>
        let c := put_win c win (inherit w ow (Some o)) in
        bind (alias_rows (Z.to_nat nlines) c win (Some o) 0 begy begx nlines)
          (fun c =>
        bind (get_win c win) (fun w =>
        let c := put_win c win (set_flags w _SUBPAD) in
        bind (int_op (Z.min (LINES c) nlines - 1)) (fun smaxrow =>
        bind (int_op (Z.min (COLS c) ncols - 1)) (fun smaxcol =>
        Done (mkState c 0 0 0 0 smaxrow smaxcol, win)))))))
      end))).
  { unfold subpad. rewrite Ho. cbn [bind].
    replace (Z.land (_flags ow) _PAD =? 0) with false by lia.
    replace (begy <? _begy ow) with false by lia.
    replace (begx <? _begx ow) with false by lia. cbn [orb].
    rewrite (int_op_ok (begy + nlines)), (int_op_ok (_begy ow + _maxy ow))
      by (unfold is_int, INT_MIN, INT_MAX; lia).
    cbn [bind].
    destruct (_ >? _); [done|].
    rewrite (int_op_ok (begx + ncols)), (int_op_ok (_begx ow + _maxx ow))
      by (unfold is_int, INT_MIN, INT_MAX; lia).
    cbn [bind]. done. }
  rewrite Hstart. clear Hstart. split.
  - intros [Hr Hc].
    replace (begy + nlines >? _begy ow + _maxy ow) with false by lia.
    replace (begx + ncols >? _begx ow + _maxx ow) with false by lia.
    set (nl := if nlines =? 0 then _maxy ow - 1 - begy else nlines).
    set (nc := if ncols =? 0 then _maxx ow - 1 - begx else ncols).
    assert (Hnl' : 0 <= nl <= _maxy ow - 1 - begy).
    { subst nl. destruct (Z.eqb_spec nlines 0); lia. }
    assert (Hnc' : 0 <= nc <= _maxx ow - 1 - begx).
    { subst nc. destruct (Z.eqb_spec ncols 0); lia. }
    assert (H1 : (if nlines =? 0 then int_op (_maxy ow - 1 - begy)
                  else Done nlines) = Done nl).
    { subst nl. destruct (nlines =? 0); [|done].
      apply int_op_ok. unfold is_int, INT_MIN, INT_MAX. lia. }
    assert (H2 : (if ncols =? 0 then int_op (_maxx ow - 1 - begx)
                  else Done ncols) = Done nc).
    { subst nc. destruct (ncols =? 0); [|done].
      apply int_op_ok. unfold is_int, INT_MIN, INT_MAX. lia. }
    rewrite H1, H2. cbn [bind].
    destruct (PDC_makenew_ok (cur st) nl nc begy begx 0 Ha) as
      (c1 & Hmk & _); [lia|].
    rewrite Hmk.
    apply PDC_makenew_inv in Hmk as (_ & _ & Hm1 & HL1 & HC1 & Hs1 & Hw1).
    set (w0 := mkWINDOW _ _ _ _ _ _ _ _ _ _ _ _ _ _ _ _ _) in Hw1.
    destruct (get_win_app _ _ _ _ Hw1 eq_refl) as [Hg1 Hold].
    destruct (Hold _ _ Ho) as [Ho1 Hne].
    rewrite Hg1, Ho1. cbn [bind].
    assert (Hal : exists c2,
              alias_rows (Z.to_nat nl)
                (put_win c1 (Some (length (wins (cur st))))
                   (inherit w0 ow (Some o)))
                (Some (length (wins (cur st)))) (Some o) 0 begy begx nl
              = Done c2).
    { eapply (alias_rows_ok _ _ _ _ ow _ _ _ _ (inherit w0 ow (Some o))).
      - done.
      - by eapply get_put_same.
      - by rewrite get_put_ne.
      - simpl. rewrite length_replicate. lia.
      - lia.
      - lia.
      - lia.
      - unfold INT_MAX. lia.
      - unfold INT_MAX. lia.
      - lia. }
    destruct Hal as (c2 & Hc2).
    rewrite Hc2. cbn [bind].
    pose proof Hc2 as Hc2'.
    eapply (alias_rows_spec _ _ _ _ _ _ _ _ _ (inherit w0 ow (Some o)) ow)
      in Hc2' as (w' & Hw' & _ & _ & _ & HL2 & HC2 & _);
      [|done|by eapply get_put_same|by rewrite get_put_ne].
    rewrite Hw'. cbn [bind].
    destruct (put_win_globals c2 (Some (length (wins (cur st))))
                (set_flags w' _SUBPAD)) as (_ & G2 & G3 & _).
    destruct (put_win_globals c1 (Some (length (wins (cur st))))
                (inherit w0 ow (Some o))) as (_ & G6 & G7 & _).
    rewrite G2, G3, HL2, HC2, G6, G7, HL1, HC1.
    rewrite !int_op_ok by (unfold is_int, INT_MIN, INT_MAX; lia).
    cbn [bind]. by eexists.
  - intros [Hr|Hc].
    + by replace (begy + nlines >? _begy ow + _maxy ow) with true by lia.
    + destruct (_ >? _); [done|].
      by replace (begx + ncols >? _begx ow + _maxx ow) with true by lia.
Qed.

(** ** prefresh, pechochar and pecho_wchar *)

(** X14.  prefresh returns ERR, with nothing changed and doupdate not
    called, when pnoutrefresh does; otherwise it calls doupdate and returns
    OK whatever doupdate returns. *)
Theorem prefresh_result doupdate st w py px sy1 sx1 sy2 sx2 :
  (forall st1, pnoutrefresh st w py px sy1 sx1 sy2 sx2 = Done (st1, ERR) ->
     prefresh doupdate st w py px sy1 sx1 sy2 sx2 = Done (st, ERR)) /\
  (forall st1 c rc,
     pnoutrefresh st w py px sy1 sx1 sy2 sx2 = Done (st1, OK) ->
     doupdate (cur st1) = Done (c, rc) ->
     prefresh doupdate st w py px sy1 sx1 sy2 sx2 = Done (set_cur st1 c, OK)).
Proof.
  split.
  - intros st1 H. pose proof (pnoutrefresh_ERR_unchanged _ _ _ _ _ _ _ _ _ H).
    subst st1. unfold prefresh. by rewrite H.
  - intros st1 c rc H Hd. unfold prefresh. rewrite H. cbn [bind].
    change (OK =? ERR) with false. cbv iota. by rewrite Hd.
Qed.

Lemma prefresh_result_witness :
  prefresh doupdate_model small_pad (Some 1%nat) 0 0 0 0 4 2
  = Done (small_pad, ERR) /\
  prefresh (fun c => Done (c, ERR)) small_pad (Some 1%nat) 0 0 0 0 2 2
  = Done (set_cur
            (state_of (pnoutrefresh small_pad (Some 1%nat) 0 0 0 0 2 2))
            (cur (state_of (pnoutrefresh small_pad (Some 1%nat) 0 0 0 0 2 2))),
          OK).
Proof.
  assert (H1 : pnoutrefresh small_pad (Some 1%nat) 0 0 0 0 4 2
               = Done (small_pad, ERR)) by by_eval.
  assert (H2 : pnoutrefresh small_pad (Some 1%nat) 0 0 0 0 2 2
               = Done (state_of (pnoutrefresh small_pad (Some 1%nat)
                                   0 0 0 0 2 2), OK)) by by_eval.
  split.
  - exact (proj1 (prefresh_result doupdate_model small_pad (Some 1%nat)
                    0 0 0 0 4 2) _ H1).
  - exact (proj2 (prefresh_result (fun c => Done (c, ERR)) small_pad
                    (Some 1%nat) 0 0 0 0 2 2) _ _ ERR H2 eq_refl).
Defined.

(** X15.  pechochar and pecho_wchar never assign the values saved for them:
    whatever they return, the six values are the ones before the call; and
    pecho_wchar with a null character returns ERR without calling waddch. *)
Theorem echo_keeps_saved waddch doupdate st pad :
  (forall ch st' r, pechochar waddch doupdate st pad ch = Done (st', r) ->
     saved st' = saved st) /\
  (forall wch st' r, pecho_wchar waddch doupdate st pad wch = Done (st', r) ->
     saved st' = saved st) /\
  pecho_wchar waddch doupdate st pad None = Done (st, ERR).
Proof.
  assert (Hecho : forall ch st' r,
            pechochar waddch doupdate st pad ch = Done (st', r) ->
            saved st' = saved st).
  { intros ch st' r. unfold pechochar. intros H.
    apply bind_Done in H as ([c rc] & _ & H).
    destruct (rc =? ERR); [by injection H as <- <-|].
    by apply prefresh_keeps_saved in H. }
  split; [done|]. split; [|done].
  intros [ch|] st' r; [apply (Hecho ch)|]. by intros [= <- <-].
Qed.

(** X16.  The first pechochar on a new pad displays the region newpad saved:
    when waddch succeeds it is prefresh of pad (0,0) at screen (0,0) to
    (min(LINES, nlines) - 1, min(COLS, ncols) - 1), and when waddch
    returns ERR it returns ERR and refreshes nothing. *)
Theorem pechochar_after_newpad waddch doupdate st nlines ncols st1 pad ch c rc :
  newpad st nlines ncols = Done (st1, Some pad) ->
  waddch (cur st1) (Some pad) ch = Done (c, rc) ->
  (rc = ERR ->
   pechochar waddch doupdate st1 (Some pad) ch = Done (set_cur st1 c, ERR)) /\
  (rc <> ERR ->
   pechochar waddch doupdate st1 (Some pad) ch =
   prefresh doupdate (set_cur st1 c) (Some pad) 0 0 0 0
     (Z.min (LINES (cur st)) nlines - 1) (Z.min (COLS (cur st)) ncols - 1)).
Proof.
  intros Hn Hw. apply newpad_saves in Hn. unfold saved in Hn.
  injection Hn as H1 H2 H3 H4 H5 H6.
  unfold pechochar. rewrite Hw. cbn [bind]. split.
  - intros ->. done.
  - intros Hrc. replace (rc =? ERR) with false by lia.
    destruct st1. simpl in *. by subst.
Qed.

Lemma pechochar_after_newpad_witness :
  pechochar waddch_model doupdate_model small_pad (Some 1%nat) 65 =
  prefresh doupdate_model
    (set_cur small_pad
       (curses_of (waddch_model (cur small_pad) (Some 1%nat) 65)
          (cur small_pad)))
    (Some 1%nat) 0 0 0 0
    (Z.min (LINES (cur (screen 4 6))) 3 - 1)
    (Z.min (COLS (cur (screen 4 6))) 3 - 1).
Proof.
  assert (H1 : newpad (screen 4 6) 3 3 = Done (small_pad, Some 1%nat))
    by by_eval.
  assert (H2 : waddch_model (cur small_pad) (Some 1%nat) 65 =
               Done (curses_of (waddch_model (cur small_pad) (Some 1%nat) 65)
                       (cur small_pad), OK)) by by_eval.
  assert (H3 : OK <> ERR) by discriminate.
  exact (proj2 (pechochar_after_newpad waddch_model doupdate_model _ _ _ _ _
                  65 _ _ H1 H2) H3).
Defined.

(** ** The theorems on the pads of the examples *)

Lemma flagged_pad_not_pad : screen_not_pad (cur flagged_pad).
Proof. intros scr. vm_compute. by intros [= <-]. Qed.

Lemma pnoutrefresh_clear_witness :
  exists win' scr',
    get_win (cur (state_of (pnoutrefresh flagged_pad (Some 1%nat)
                              0 0 0 0 2 2))) (Some 1%nat) = Done win' /\
    get_win (cur (state_of (pnoutrefresh flagged_pad (Some 1%nat)
                              0 0 0 0 2 2)))
      (curscr (cur (state_of (pnoutrefresh flagged_pad (Some 1%nat)
                                0 0 0 0 2 2)))) = Done scr' /\
    _clear win' = false /\
    _clear scr' = _clear (win_of (cur flagged_pad) (Some 0%nat))
                  || _clear (win_of (cur flagged_pad) (Some 1%nat)).
Proof.
  assert (H1 : pnoutrefresh flagged_pad (Some 1%nat) 0 0 0 0 2 2 =
    Done (state_of (pnoutrefresh flagged_pad (Some 1%nat) 0 0 0 0 2 2), OK))
    by by_eval.
  assert (H2 : get_win (cur flagged_pad) (Some 1%nat) =
    Done (win_of (cur flagged_pad) (Some 1%nat))) by by_eval.
  assert (H3 : get_win (cur flagged_pad) (curscr (cur flagged_pad)) =
    Done (win_of (cur flagged_pad) (Some 0%nat))) by by_eval.
  exact (pnoutrefresh_clear _ _ _ _ _ _ _ _ _ _ _ flagged_pad_not_pad
           H1 H2 H3).
Defined.

Lemma pnoutrefresh_succeeds_witness :
  exists st', pnoutrefresh (drawn_pad 0 0) (Some 1%nat) 1 (-2) 2 3 3 5
              = Done (st', OK).
Proof.
  assert (H1 : get_win (cur (drawn_pad 0 0)) (Some 1%nat) =
    Done (win_of (cur (drawn_pad 0 0)) (Some 1%nat))) by by_eval.
  assert (H2 : get_win (cur (drawn_pad 0 0)) (curscr (cur (drawn_pad 0 0))) =
    Done (win_of (cur (drawn_pad 0 0)) (Some 0%nat))) by by_eval.
  assert (H3 : window_ok (cur (drawn_pad 0 0)) (Some 1%nat) = true)
    by by_eval.
  assert (H4 : window_ok (cur (drawn_pad 0 0)) (curscr (cur (drawn_pad 0 0)))
               = true) by by_eval.
  assert (H5 : Z.land (_flags (win_of (cur (drawn_pad 0 0)) (Some 1%nat)))
                 (Z.lor _PAD _SUBPAD) <> 0) by (vm_compute; discriminate).
  assert (H6 : 0 <= 2 <= 3) by (vm_compute; split; discriminate).
  assert (H7 : clamp 3 <= 5) by (vm_compute; discriminate).
  assert (H8 : 3 < LINES (cur (drawn_pad 0 0)) <= INT_MAX)
    by (vm_compute; split; [reflexivity|discriminate]).
  assert (H9 : 3 < COLS (cur (drawn_pad 0 0))) by by_eval.
  assert (H10 : 3 < _maxy (win_of (cur (drawn_pad 0 0)) (Some 0%nat)))
    by by_eval.
  assert (H11 : 5 < _maxx (win_of (cur (drawn_pad 0 0)) (Some 0%nat)))
    by by_eval.
  assert (H12 : 0 <= 1) by (vm_compute; discriminate).
  assert (H13 : 1 + (3 - 2) < INT_MAX) by by_eval.
  assert (H14 : clamp (-2)
                <= _maxx (win_of (cur (drawn_pad 0 0)) (Some 1%nat)))
    by (vm_compute; discriminate).
  assert (H15 : clamp (-2) + (5 - clamp 3) <= INT_MAX)
    by (vm_compute; discriminate).
  exact (pnoutrefresh_succeeds (drawn_pad 0 0) (Some 1%nat) 1 (-2) 2 3 3 5
           _ _ H1 H2 H3 H4 (small_pad_not_pad 0 0) (small_pad_rows_apart 0 0)
           H5 H6 H7 H8 H9 H10 H11 H12 H13 H14 H15).
Defined.

Lemma pnoutrefresh_keeps_pad_witness :
  win_cell (cur (state_of (pnoutrefresh (drawn_pad 0 0) (Some 1%nat)
                             1 1 2 3 3 5))) (Some 1%nat) 1 1
  = win_cell (cur (drawn_pad 0 0)) (Some 1%nat) 1 1.
Proof.
  assert (H1 : pnoutrefresh (drawn_pad 0 0) (Some 1%nat) 1 1 2 3 3 5 =
    Done (state_of (pnoutrefresh (drawn_pad 0 0) (Some 1%nat) 1 1 2 3 3 5), OK))
    by by_eval.
  assert (H2 : get_win (cur (drawn_pad 0 0)) (Some 1%nat) =
    Done (win_of (cur (drawn_pad 0 0)) (Some 1%nat))) by by_eval.
  assert (H3 : get_win (cur (drawn_pad 0 0)) (curscr (cur (drawn_pad 0 0))) =
    Done (win_of (cur (drawn_pad 0 0)) (Some 0%nat))) by by_eval.
  exact (proj1 (pnoutrefresh_keeps_pad _ _ _ _ _ _ _ _ _ _ _
                  (small_pad_not_pad 0 0) H2 H3 (small_pad_rows_apart 0 0) H1)
           1 1).
Defined.

Lemma newpad_failure_witness :
  exists st', newpad (set_cur small_pad
                        (set_alloc_fail (cur small_pad) [false; true])) 2 2
              = Done (st', None).
Proof.
  assert (H1 : alloc_fail (cur (set_cur small_pad
                                  (set_alloc_fail (cur small_pad)
                                     [false; true])))
               = false :: true :: []) by by_eval.
  assert (H2 : 0 <= 2) by (vm_compute; discriminate).
  exact (proj2 (proj2 (newpad_failure _ 2 2)) _ H1 H2).
Defined.

Lemma subpad_saves_and_inherits_witness :
  saved small_subpad =
  [0; 0; 0; 0;
   Z.min (LINES (cur small_pad))
     (if 0 =? 0 then _maxy (win_of (cur small_pad) (Some 1%nat)) - 1 - 1
      else 0) - 1;
   Z.min (COLS (cur small_pad))
     (if 0 =? 0 then _maxx (win_of (cur small_pad) (Some 1%nat)) - 1 - 1
      else 0) - 1].
Proof.
  assert (H1 : get_win (cur small_pad) (Some 1%nat) =
    Done (win_of (cur small_pad) (Some 1%nat))) by by_eval.
  assert (H2 : subpad small_pad (Some 1%nat) 0 0 1 1 =
    Done (small_subpad, Some 2%nat)) by by_eval.
  exact (proj1 (subpad_saves_and_inherits _ _ _ _ _ _ _ _ _ H1 H2)).
Defined.

Lemma subpad_shares_cells_witness :
  win_cell (set_cells (cur small_subpad)
              [[]; []; []; []; [1; 2; 3]; [4; 5; 6]; [7; 8; 9]])
    (Some 2%nat) 0 0
  = win_cell (set_cells (cur small_subpad)
                [[]; []; []; []; [1; 2; 3]; [4; 5; 6]; [7; 8; 9]])
      (Some 1%nat) (1 + 0) (1 + 0).
Proof.
  assert (H1 : get_win (cur small_pad) (Some 1%nat) =
    Done (win_of (cur small_pad) (Some 1%nat))) by by_eval.
  assert (H2 : subpad small_pad (Some 1%nat) 0 0 1 1 =
    Done (small_subpad, Some 2%nat)) by by_eval.
  assert (H3 : 0 <= 0 <
    (if 0 =? 0 then _maxy (win_of (cur small_pad) (Some 1%nat)) - 1 - 1
     else 0)) by (vm_compute; split; [discriminate|reflexivity]).
  destruct (subpad_shares_cells _ _ _ _ _ _ _ _ _ H1 H2) as (_ & _ & _ & H).
  exact (H _ 0 0 H3).
Defined.

Lemma subpad_failure_witness :
  let st := set_cur small_pad (set_alloc_fail (cur small_pad) [true]) in
  let st' := state_of (subpad st (Some 1%nat) 1 1 0 0) in
  saved st' = saved st /\ wins (cur st') = wins (cur st) /\
  cells (cur st') = cells (cur st) /\ LINES (cur st') = LINES (cur st) /\
  COLS (cur st') = COLS (cur st) /\ curscr (cur st') = curscr (cur st).
Proof.
  assert (H1 : subpad (set_cur small_pad
                         (set_alloc_fail (cur small_pad) [true]))
                 (Some 1%nat) 1 1 0 0 =
               Done (state_of (subpad (set_cur small_pad
                                         (set_alloc_fail (cur small_pad)
                                            [true]))
                                 (Some 1%nat) 1 1 0 0), None)) by by_eval.
  exact (subpad_failure _ _ _ _ _ _ _ H1).
Defined.

Lemma subpad_accepts_witness :
  (exists st', subpad small_pad (Some 1%nat) 2 2 0 0 =
               Done (st', Some (length (wins (cur small_pad))))) /\
  subpad small_pad (Some 1%nat) 3 3 0 0 = Done (small_pad, None).
Proof.
  assert (H1 : get_win (cur small_pad) (Some 1%nat) =
    Done (win_of (cur small_pad) (Some 1%nat))) by by_eval.
  assert (H2 : Z.land (_flags (win_of (cur small_pad) (Some 1%nat))) _PAD
               <> 0) by (vm_compute; discriminate).
  assert (H3 : _begy (win_of (cur small_pad) (Some 1%nat)) = -1) by by_eval.
  assert (H4 : _begx (win_of (cur small_pad) (Some 1%nat)) = -1) by by_eval.
  assert (H5 : Z.of_nat (length (_y (win_of (cur small_pad) (Some 1%nat))))
               = _maxy (win_of (cur small_pad) (Some 1%nat))) by by_eval.
  assert (H6 : _maxy (win_of (cur small_pad) (Some 1%nat)) <= INT_MAX)
    by (vm_compute; discriminate).
  assert (H7 : 0 <= _maxx (win_of (cur small_pad) (Some 1%nat)) <= INT_MAX)
    by (vm_compute; split; discriminate).
  assert (H8 : true ∉ take 1 (alloc_fail (cur small_pad))).
  { vm_compute. apply not_elem_of_nil. }
  assert (H9 : 0 <= LINES (cur small_pad)) by (vm_compute; discriminate).
  assert (H10 : 0 <= COLS (cur small_pad)) by (vm_compute; discriminate).
  assert (Hz : 0 <= 0) by (vm_compute; discriminate).
  assert (H2' : 0 <= 2) by (vm_compute; discriminate).
  assert (H3' : 0 <= 3) by (vm_compute; discriminate).
  assert (Hi2 : 0 + 2 <= INT_MAX) by (vm_compute; discriminate).
  assert (Hi3 : 0 + 3 <= INT_MAX) by (vm_compute; discriminate).
  split.
  - apply (subpad_accepts small_pad (Some 1%nat) 2 2 0 0 _ H1 H2 H3 H4 H5 H6
             H7 H8 H9 H10 Hz Hz H2' H2' Hi2 Hi2).
    vm_compute. split; discriminate.
  - apply (subpad_accepts small_pad (Some 1%nat) 3 3 0 0 _ H1 H2 H3 H4 H5 H6
             H7 H8 H9 H10 Hz Hz H3' H3' Hi3 Hi3).
    left. by_eval.
Defined.

(** ** A new pad can be displayed *)

Lemma row_fits_old m m' width p :
  (forall b row, m !! b = Some row -> m' !! b = Some row) ->
  row_fits m width p = true -> row_fits m' width p = true.
Proof.
  intros Hm. destruct p as [|b o]; [done|]. simpl.
  destruct (m !! b) as [row|] eqn:Hb; [|done]. by rewrite (Hm _ _ Hb).
Qed.

(** X17.  A pad fresh from newpad can be displayed: on a well-formed
    screen, newpad followed by pnoutrefresh of the new pad returns OK for
    every screen rectangle that lies on the screen and every pad origin
    that lies on the pad, the coordinates not being negative where the walk
    starts. *)
Theorem newpad_then_pnoutrefresh st nlines ncols py px sy1 sx1 sy2 sx2 scr :
  get_win (cur st) (curscr (cur st)) = Done scr ->
  window_ok (cur st) (curscr (cur st)) = true ->
  screen_not_pad (cur st) -> NoDup (blk_of <$> _y scr) ->
  true ∉ take 2 (alloc_fail (cur st)) ->
  0 <= nlines <= INT_MAX -> 0 <= ncols <= INT_MAX ->
  0 <= LINES (cur st) <= INT_MAX -> 0 <= COLS (cur st) ->
  0 <= sy1 <= sy2 -> clamp sx1 <= sx2 ->
  sy2 < LINES (cur st) -> sy2 < COLS (cur st) ->
  sy2 < _maxy scr -> sx2 < _maxx scr ->
  0 <= py -> py + (sy2 - sy1) < INT_MAX ->
  clamp px <= ncols -> clamp px + (sx2 - clamp sx1) <= INT_MAX ->
  exists st1 st2 pad,
    newpad st nlines ncols = Done (st1, Some pad) /\
    pnoutrefresh st1 (Some pad) py px sy1 sx1 sy2 sx2 = Done (st2, OK).
Proof.
  intros Hs Hoks Hnp Hnd Ha Hnl Hnc HL HC Hsy Hsx Hl1 Hl2 Hmy Hmx Hpy Hpy'
    Hpx Hpx'.
  destruct (newpad_steps st nlines ncols Ha Hnl Hnc (proj1 HL) HC) as
    (c' & -> & HL' & HC' & Hs' & Hw & Hm).
  set (base := length (cells (cur st))) in *.
  set (n := Z.to_nat nlines) in *.
  set (pad := mkWINDOW _ _ _ _ _ _ _ _ _ _ _ _ _ _ _ _ _) in Hw.
  destruct (get_win_app (cur st) c' _ _ Hw eq_refl) as [Hg Hold].
  destruct (Hold _ _ Hs) as [Hs1 Hne].
  assert (Hcells : forall b row, cells (cur st) !! b = Some row ->
            cells c' !! b = Some row).
  { intros b row Hb. rewrite Hm. pose proof (lookup_lt_Some _ _ _ Hb).
    by rewrite bool_decide_eq_false_2 by (fold base; lia). }
  assert (Hfit : forall p, p ∈ _y scr ->
            row_fits (cells (cur st)) (_maxx scr) p = true).
  { unfold window_ok in Hoks. rewrite Hs in Hoks.
    apply andb_true_iff in Hoks as [_ Hf]. rewrite forallb_forall in Hf.
    intros p Hp. by apply Hf, list_elem_of_In. }
  assert (Hex : exists st2,
            pnoutrefresh
              (mkState c' 0 0 0 0 (Z.min (LINES (cur st)) nlines - 1)
                 (Z.min (COLS (cur st)) ncols - 1))
              (Some (length (wins (cur st)))) py px sy1 sx1 sy2 sx2
            = Done (st2, OK)).
  2:{ destruct Hex as [st2 Hst2]. by eexists _, st2, _. }
  eapply (pnoutrefresh_ok _ _ _ _ _ _ _ _ pad scr); cbn [cur];
    rewrite ?Hs', ?HL', ?HC'; try done; try lia.
  - unfold window_ok. rewrite Hg. subst pad. cbn [_maxx _maxy _y _firstch _lastch].
    rewrite length_map, length_seq, !length_replicate.
    replace (0 <=? ncols) with true by lia.
    replace (ncols <=? INT_MAX) with true by lia.
    replace (Z.of_nat n =? nlines) with true by lia. cbn [andb].
    apply forallb_forall. intros p (i & <- & Hi%in_seq)%in_map_iff.
    simpl. rewrite Hm, bool_decide_eq_true_2 by (fold base n; lia).
    rewrite length_replicate, Z2Nat.id by lia. lia.
  - unfold window_ok in *. rewrite Hs1. rewrite Hs in Hoks.
    apply andb_true_iff in Hoks as [Hrest Hf]. rewrite Hrest. cbn [andb].
    rewrite forallb_forall in *. intros p Hp.
    eapply row_fits_old; [exact Hcells|]. by apply Hf.
  - intros scr' Hscr'. rewrite Hs', Hs1 in Hscr'. injection Hscr' as <-.
    by apply Hnp.
  - split; [done|]. subst pad. cbn [_y]. apply Forall_forall.
    intros p (i & -> & Hi%elem_of_seq)%list_elem_of_fmap.
    intros (q & Hq & Hin)%list_elem_of_fmap. simpl in Hq.
    destruct q as [|b o]; [done|]. injection Hq as <-.
    apply Hfit in Hin. simpl in Hin.
    destruct (cells (cur st) !! (base + i)%nat) eqn:Hb; [|done].
    apply lookup_lt_Some in Hb. fold base in Hb. lia.
Qed.

Lemma screen_4_6_not_pad : screen_not_pad (cur (screen 4 6)).
Proof. intros scr. vm_compute. by intros [= <-]. Qed.

Lemma screen_4_6_lines : NoDup (blk_of <$> _y (screen_window 4 6)).
Proof. refine (bool_decide_unpack _ _). by_eval. Qed.

Lemma newpad_then_pnoutrefresh_witness :
  exists st1 st2 pad,
    newpad (screen 4 6) 3 3 = Done (st1, Some pad) /\
    pnoutrefresh st1 (Some pad) 1 (-1) 1 2 2 3 = Done (st2, OK).
Proof.
  assert (H1 : get_win (cur (screen 4 6)) (curscr (cur (screen 4 6))) =
               Done (screen_window 4 6)) by by_eval.
  assert (H2 : window_ok (cur (screen 4 6)) (curscr (cur (screen 4 6)))
               = true) by by_eval.
  assert (H3 : true ∉ take 2 (alloc_fail (cur (screen 4 6)))).
  { vm_compute. apply not_elem_of_nil. }
  assert (H4 : 0 <= 3 <= INT_MAX) by (vm_compute; split; discriminate).
  assert (H5 : 0 <= LINES (cur (screen 4 6)) <= INT_MAX)
    by (vm_compute; split; discriminate).
  assert (H6 : 0 <= COLS (cur (screen 4 6))) by (vm_compute; discriminate).
  assert (H7 : 0 <= 1 <= 2) by (vm_compute; split; discriminate).
  assert (H8 : clamp 2 <= 3) by (vm_compute; discriminate).
  assert (H9 : 2 < LINES (cur (screen 4 6))) by by_eval.
  assert (H10 : 2 < COLS (cur (screen 4 6))) by by_eval.
  assert (H11 : 2 < _maxy (screen_window 4 6)) by by_eval.
  assert (H12 : 3 < _maxx (screen_window 4 6)) by by_eval.
  assert (H13 : 0 <= 1) by (vm_compute; discriminate).
  assert (H14 : 1 + (2 - 1) < INT_MAX) by by_eval.
  assert (H15 : clamp (-1) <= 3) by (vm_compute; discriminate).
  assert (H16 : clamp (-1) + (3 - clamp 2) <= INT_MAX)
    by (vm_compute; discriminate).
  exact (newpad_then_pnoutrefresh (screen 4 6) 3 3 1 (-1) 1 2 2 3 _ H1 H2
           screen_4_6_not_pad screen_4_6_lines H3 H4 H4 H5 H6 H7 H8 H9 H10
           H11 H12 H13 H14 H15 H16).
Defined.

End PadFacts.

(** * Facts about nsh_fsutils.c *)

Module NshFacts.
Import Nsh.

(** ** read() and nsh_write() *)

(** What a call of read() can do. *)
Lemma sys_read_cases w f count :
  (exists e r, reads w = RdFail e :: r /\
     sys_read w f count = (set_errno (set_reads w r) e, f, -1, [])) \/
  (exists w' n,
     sys_read w f count =
       (w', mkFile (data f) (pos f + Z.to_nat n), n,
        take (Z.to_nat n) (drop (pos f) (data f))) /\
     n <= count /\ n <= avail f /\ (0 <= count -> 0 <= n) /\
     (0 < count -> 0 < avail f -> 0 < n) /\
     (length (reads w') <= length (reads w))%nat /\
     (0 < n -> reads w = [] \/ (length (reads w') < length (reads w))%nat) /\
     reads w' = match reads w with [] => [] | _ :: r => r end /\
     files w' = files w /\ writes w' = writes w /\ errno w' = errno w /\
     malloc_fail w' = malloc_fail w /\ out w' = out w /\
     requests w' = requests w).
Proof.
  unfold sys_read, avail. destruct (reads w) as [|[e|k] r] eqn:Hr.
  - right. eexists w, _. rewrite Hr. split_and!; try done; try lia. by left.
  - left. by eexists _, _.
  - right. eexists _, _. split_and!; try done; simpl; try lia.
Qed.

Lemma written_app o1 o2 : written (o1 ++ o2) = written o1 ++ written o2.
Proof.
  induction o1 as [|[bs|m] o1 IH]; simpl; [done| |done].
  by rewrite IH, app_assoc.
Qed.

Lemma printed_app o1 o2 : printed (o1 ++ o2) = printed o1 ++ printed o2.
Proof.
  induction o1 as [|[bs|m] o1 IH]; simpl; [done|done|]. by rewrite IH.
Qed.

(** ** The inner loop of nsh_catfile *)

(** The loop returns for every behaviour of nsh_write(). *)
Lemma write_loop_returns cfg cmd buffer nbytesread ret fuel :
  forall w nbyteswritten,
    (length (writes w) < fuel)%nat -> 0 <= nbyteswritten ->
    exists r, write_loop fuel cfg w cmd buffer nbytesread nbyteswritten ret
              = Done r /\
      (snd r = ret \/ snd r = ERROR) /\ files (fst r) = files w /\
      reads (fst r) = reads w.
Proof.
  induction fuel as [|fuel IH]; intros w nw Hf Hnw; [lia|]. simpl.
  destruct (Z.ltb_spec nw nbytesread) as [Hlt|Hge].
  2:{ eexists. split; [done|]. simpl. auto. }
  unfold nsh_write. simpl.
  destruct (writes w) as [|[e|k] r] eqn:Hw; simpl.
  - destruct (Z.ltb_spec nbytesread 0).
    { eexists. split; [done|]. unfold report. destruct (_ && _); simpl; auto. }
    destruct fuel as [|fuel]; simpl.
    + replace (nw + nbytesread <? nbytesread) with false by lia.
      eexists. split; [done|]. simpl. auto.
    + replace (nw + nbytesread <? nbytesread) with false by lia.
      eexists. split; [done|]. simpl. auto.
  - eexists. split; [done|].
    unfold report. destruct (_ && _); simpl; auto.
  - destruct (Z.ltb_spec (Z.min (Z.of_nat k) nbytesread) 0).
    { eexists. split; [done|]. unfold report. destruct (_ && _); simpl; auto. }
    destruct (IH (emit (set_writes (log_request w
                  (take (Z.to_nat nbytesread) buffer)) r)
                  (Wrote (take (Z.to_nat (Z.min (Z.of_nat k) nbytesread)) buffer)))
                 (nw + Z.min (Z.of_nat k) nbytesread)) as (x & Hx & Hs & Hfl & Hrd).
    { simpl in *. lia. }
    { lia. }
    exists x. split_and!; try done.
Qed.

(** ** The outer loop of nsh_catfile *)

Lemma cat_loop_S fuel cfg w cmd f ret :
  cat_loop (S fuel) cfg w cmd f ret =
  let '(w, f, nbytesread, buffer) := sys_read w f (IOBUFFERSIZE cfg) in
  if nbytesread <? 0 then
    Done (report cfg w cmd "read" (errno w) (errno w), ERROR)
  else if nbytesread >? 0 then
    bind (write_loop (S (length (writes w))) cfg w cmd buffer nbytesread 0 ret)
      (fun r => cat_loop fuel cfg (fst r) cmd f (snd r))
  else Done (w, ret).
Proof. reflexivity. Qed.

(** The loop returns for every behaviour of read() and nsh_write(), and a
    failure recorded in [ret] stays. *)
Lemma cat_loop_returns cfg cmd fuel :
  forall w f ret,
    (length (reads w) + (length (data f) - pos f) < fuel)%nat ->
    exists r, cat_loop fuel cfg w cmd f ret = Done r /\
      (snd r = ret \/ snd r = ERROR).
Proof.
  induction fuel as [|fuel IH]; intros w f ret Hf; [lia|].
  rewrite cat_loop_S.
  destruct (sys_read_cases w f (IOBUFFERSIZE cfg)) as
    [(e & r & Hr & ->)|(w' & n & -> & Hc & Ha & Hn0 & Hn & Hl & Hl' & Hrs & _)].
  { cbv beta iota zeta. eexists. split; [done|]. auto. }
  cbv beta iota zeta.
  destruct (Z.ltb_spec n 0). { eexists. split; [done|]. auto. }
  destruct (Z.gtb_spec n 0) as [Hpos|]. 2:{ eexists. split; [done|]. auto. }
  destruct (write_loop_returns cfg cmd
              (take (Z.to_nat n) (drop (pos f) (data f))) n ret
              (S (length (writes w'))) w' 0) as (r1 & -> & Hr1 & _ & Hrd);
    [lia|lia|]. cbn [bind].
  destruct (IH (fst r1) (mkFile (data f) (pos f + Z.to_nat n)) (snd r1))
    as (r2 & -> & Hr2).
  { simpl. rewrite Hrd. unfold avail in Ha. lia. }
  exists r2. split; [done|]. destruct Hr1 as [H1|H1]; rewrite H1 in Hr2; tauto.
Qed.

(** With no failing read() and every nsh_write() complete, the loop sends
    the rest of the file, and nothing else, through nsh_write(). *)
Lemma cat_loop_echo cfg cmd fuel :
  forall w f ret,
    0 < IOBUFFERSIZE cfg -> writes w = [] ->
    (forall e, RdFail e ∉ reads w) ->
    (length (reads w) + (length (data f) - pos f) < fuel)%nat ->
    exists w', cat_loop fuel cfg w cmd f ret = Done (w', ret) /\
      written (out w') = written (out w) ++ drop (pos f) (data f) /\
      printed (out w') = printed (out w).
Proof.
  induction fuel as [|fuel IH]; intros w f ret Hio Hwr Hrd Hf; [lia|].
  rewrite cat_loop_S.
  destruct (sys_read_cases w f (IOBUFFERSIZE cfg)) as
    [(e & r & Hr & _)|(w' & n & -> & Hc & Ha & Hn0 & Hn & Hl & Hl' & Hrs & _
                        & Hws & _ & _ & Hout & _)].
  { exfalso. apply (Hrd e). rewrite Hr. left. }
  cbv beta iota zeta.
  destruct (Z.ltb_spec n 0); [lia|].
  destruct (Z.gtb_spec n 0) as [Hpos|Hz].
  - unfold avail in Ha. rewrite Hwr in Hws. rewrite Hws. simpl.
    replace (0 <? n) with true by lia. unfold nsh_write. simpl. rewrite Hws.
    replace (n <? 0) with false by lia. simpl.
    replace (0 + n <? n) with false by lia. simpl.
    set (chunk := take (Z.to_nat n) (drop (pos f) (data f))).
    assert (Hlen : length chunk = Z.to_nat n).
    { subst chunk. rewrite length_take_le; [done|]. rewrite length_drop. lia. }
    destruct (IH (emit (log_request w' (take (Z.to_nat n) chunk))
                    (Wrote (take (Z.to_nat n) chunk)))
                 (mkFile (data f) (pos f + Z.to_nat n)) ret)
      as (w2 & -> & Hw2 & Hp2); simpl; try done.
    + rewrite Hrs. intros e He. apply (Hrd e).
      destruct (reads w); [done|]. by right.
    + lia.
    + exists w2. split; [done|]. rewrite Hw2, Hp2. simpl.
      rewrite written_app, printed_app, Hout. simpl.
      rewrite !app_nil_r, <- app_assoc. split; [|done]. f_equal.
      rewrite take_ge by lia. subst chunk.
      rewrite <- (take_drop (Z.to_nat n) (drop (pos f) (data f))) at 2.
      by rewrite drop_drop.
  - assert (n = 0) as -> by lia. exists w'. split; [done|].
    rewrite Hout. split; [|done].
    unfold avail in Hn. rewrite drop_ge by lia. by rewrite app_nil_r.
Qed.

(** ** nsh_catfile *)

Lemma nsh_catfile_open cfg w cmd path d :
  lookup_file (files w) path = Some d -> malloc_fail w = false ->
  nsh_catfile cfg w cmd path =
  bind (cat_loop (S (length (reads w) + length d)) cfg w cmd (mkFile d 0) OK)
    (fun r => Done (nsh_output (fst r) (Text newline), snd r)).
Proof. intros Hl Hm. unfold nsh_catfile, sys_open. by rewrite Hl, Hm. Qed.

(** nsh_catfile returns whatever read() and nsh_write() do. *)
Lemma nsh_catfile_returns cfg w cmd path :
  exists r, nsh_catfile cfg w cmd path = Done r.
Proof.
  unfold nsh_catfile, sys_open.
  destruct (lookup_file (files w) path) as [d|]; [|by eexists].
  destruct (malloc_fail w); [by eexists|].
  destruct (cat_loop_returns cfg cmd (S (length (reads w) + length d)) w
              (mkFile d 0) OK) as (r & Hr & _); [simpl; lia|].
  cbn [data]. rewrite Hr. by eexists.
Qed.

Lemma nsh_catfile_echo cfg w cmd path d :
  lookup_file (files w) path = Some d -> malloc_fail w = false ->
  0 < IOBUFFERSIZE cfg -> writes w = [] -> (forall e, RdFail e ∉ reads w) ->
  exists w', nsh_catfile cfg w cmd path = Done (w', OK) /\
    written (out w') = written (out w) ++ d /\
    printed (out w') = printed (out w) ++ [Text newline].
Proof.
  intros Hl Hm Hio Hw Hr. rewrite (nsh_catfile_open _ _ _ _ _ Hl Hm).
  destruct (cat_loop_echo cfg cmd (S (length (reads w) + length d)) w
              (mkFile d 0) OK Hio Hw Hr) as (w' & -> & Hwr & Hpr);
    [simpl; lia|].
  eexists. split; [done|]. simpl.
  rewrite written_app, printed_app, Hwr, Hpr. simpl. by rewrite app_nil_r.
Qed.

(** C10.  When nsh_write accepts fewer bytes than it was given, the inner
    loop of nsh_catfile calls it again with the same buffer and the same
    length [nbytesread]: the two requests are equal.  When every nsh_write
    accepts all it is given (and no read() fails), the bytes written are
    the contents of the file; with one nsh_write that accepts 1 byte of the
    2 of the file "ab", the bytes written are "aab". *)
Theorem nsh_catfile_partial_write :
  (forall fuel cfg w cmd buffer nbytesread nbyteswritten ret k r,
     writes w = WrShort k :: r ->
     nbyteswritten < nbytesread -> Z.of_nat k < nbytesread ->
     let w1 := emit (set_writes (log_request w
                       (take (Z.to_nat nbytesread) buffer)) r)
                 (Wrote (take k buffer)) in
     write_loop (S fuel) cfg w cmd buffer nbytesread nbyteswritten ret =
     write_loop fuel cfg w1 cmd buffer nbytesread
       (nbyteswritten + Z.of_nat k) ret /\
     requests (fst (nsh_write w1 buffer nbytesread)) =
     requests w ++ [take (Z.to_nat nbytesread) buffer;
                    take (Z.to_nat nbytesread) buffer]) /\
  (forall cfg w cmd path d,
     lookup_file (files w) path = Some d -> malloc_fail w = false ->
     0 < IOBUFFERSIZE cfg -> writes w = [] ->
     (forall e, RdFail e ∉ reads w) ->
     exists w', nsh_catfile cfg w cmd path = Done (w', OK) /\
       written (out w') = written (out w) ++ d) /\
  (exists w', nsh_catfile default_config (one_file [97; 98] [] [WrShort 1])
                "cat" "/f" = Done (w', OK) /\
     written (out w') = [97; 97; 98]).
Proof.
  split_and!.
  - intros fuel cfg w cmd buffer nr nw ret k r Hw Hlt Hk w1. split.
    + simpl. replace (nw <? nr) with true by lia.
      unfold nsh_write. simpl. rewrite Hw.
      replace (Z.min (Z.of_nat k) nr) with (Z.of_nat k) by lia.
      replace (Z.of_nat k <? 0) with false by lia.
      by rewrite Nat2Z.id.
    + unfold nsh_write. subst w1. simpl.
      destruct r as [|[e|k'] r]; simpl; by rewrite <- app_assoc.
  - intros cfg w cmd path d Hl Hm Hio Hw Hr.
    destruct (nsh_catfile_echo cfg w cmd path d Hl Hm Hio Hw Hr)
      as (w' & H1 & H2 & _). eauto.
  - eexists. split; by_eval.
Qed.

(** ** nsh_readfile *)

Lemma read_loop_S fuel w cmd f buffer buflen bufptr remaining ntotal ret :
  read_loop (S fuel) w cmd f buffer buflen bufptr remaining ntotal ret =
  let '(w, f, nread, bs) := sys_read w f remaining in
  if nread <? 0 then
    if negb (errno w =? EINTR)
    then Done (nsh_output w (CmdFailed cmd "read" (errno w)), buffer, ret)
    else if buflen >? 0
         then read_loop fuel w cmd f buffer buflen bufptr remaining ntotal ret
         else Done (w, buffer, ret)
  else if nread =? 0 then Done (w, buffer, OK)
  else
    bind (blit buffer bufptr bs) (fun buffer =>
    bind (aset buffer (ntotal + nread) 0) (fun buffer =>
    if buflen >? 0
    then read_loop fuel w cmd f buffer buflen (bufptr + nread)
           (size_wrap (remaining - nread)) (ntotal + nread) ret
    else Done (w, buffer, ret))).
Proof. reflexivity. Qed.

Lemma nsh_readfile_open w cmd path buffer buflen d :
  lookup_file (files w) path = Some d ->
  nsh_readfile w cmd path buffer buflen =
  bind (aset buffer 0 0) (fun buffer =>
    read_loop (S (length (reads w) + Z.to_nat (size_wrap (buflen - 1)))) w cmd
      (mkFile d 0) buffer buflen 0 (size_wrap (buflen - 1)) 0 ERROR).
Proof. intros Hl. unfold nsh_readfile, sys_open. by rewrite Hl. Qed.

Lemma filled_length d buffer n :
  (n <= length d)%nat -> (n < length buffer)%nat ->
  length (filled d buffer n) = length buffer.
Proof.
  intros Hd Hb. unfold filled.
  rewrite !length_app, length_take_le, length_drop by done. simpl. lia.
Qed.

(** One successful read() of [k] bytes moves the terminator [k] places. *)
Lemma filled_step d buffer n k :
  (n + k <= length d)%nat -> (n + k < length buffer)%nat ->
  bind (blit (filled d buffer n) (Z.of_nat n) (take k (drop n d)))
    (fun b => aset b (Z.of_nat n + Z.of_nat k) 0)
  = Done (filled d buffer (n + k)).
Proof.
  intros Hd Hb. unfold blit.
  assert (Hlk : length (take k (drop n d)) = k).
  { rewrite length_take_le; [done|]. rewrite length_drop. lia. }
  rewrite Hlk, filled_length by lia.
  replace ((0 <=? Z.of_nat n) && _) with true by lia. cbn [bind].
  rewrite Nat2Z.id.
  assert (Hb1 : take n (filled d buffer n) = take n d).
  { unfold filled. rewrite take_app_length'; [done|].
    rewrite length_take_le; lia. }
  set (b := take n (filled d buffer n) ++ _).
  assert (Hbl : length b = length buffer).
  { subst b. rewrite !length_app, length_take_le, Hlk, length_drop,
      filled_length by (rewrite ?filled_length; lia). lia. }
  unfold aset. rewrite Hbl.
  replace ((0 <=? _) && _) with true by lia.
  f_equal. replace (Z.to_nat (Z.of_nat n + Z.of_nat k)) with (n + k)%nat by lia.
  subst b. rewrite Hb1. rewrite app_assoc, take_take_drop.
  assert (Hl : length (take (n + k) d) = (n + k)%nat)
    by (rewrite length_take_le; lia).
  rewrite <- Hl at 1. rewrite <- (Nat.add_0_r (length (take (n + k) d))).
  rewrite insert_app_r. unfold filled. f_equal.
  destruct (decide (k = 0)%nat) as [->|Hk].
  - rewrite Nat.add_0_r. unfold filled.
    rewrite drop_app_length' by (rewrite length_take_le; lia). done.
  - unfold filled. rewrite drop_app_ge by (rewrite length_take_le; lia).
    rewrite length_take_le by lia.
    replace (n + k - n)%nat with (S (k - 1)) by lia. simpl.
    rewrite drop_drop.
    destruct (lookup_lt_is_Some_2 buffer (n + k)) as [x Hx]; [lia|].
    replace (n + 1 + (k - 1))%nat with (n + k)%nat by lia.
    rewrite (drop_S _ _ _ Hx). simpl. do 2 f_equal. lia.
Qed.

(** The loop of nsh_readfile: entered with [n] bytes of the file and the
    terminator in the buffer, it returns with at least as many. *)
Lemma read_loop_filled cmd d buffer buflen fuel :
  forall w n ret,
    Z.of_nat (length buffer) = buflen -> buflen < 2 ^ 32 ->
    (n <= length d)%nat -> Z.of_nat n <= buflen - 1 ->
    (length (reads w) + (Z.to_nat buflen - 1 - n) < fuel)%nat ->
    exists w' n' r,
      read_loop fuel w cmd (mkFile d n) (filled d buffer n) buflen
        (Z.of_nat n) (buflen - 1 - Z.of_nat n) (Z.of_nat n) ret
      = Done (w', filled d buffer n', r) /\
      (n <= n')%nat /\ (n' <= length d)%nat /\ Z.of_nat n' <= buflen - 1 /\
      (r = OK \/ r = ret).
Proof.
  induction fuel as [|fuel IH]; intros w n ret Hlen Hmax Hd Hn Hf; [lia|].
  rewrite read_loop_S.
  destruct (sys_read_cases w (mkFile d n) (buflen - 1 - Z.of_nat n)) as
    [(e & r & Hr & ->)|(w' & k & -> & Hc & Ha & Hk0 & Hk & Hl & _)].
  - cbv beta iota zeta. simpl (errno _). replace (-1 <? 0) with true by done.
    destruct (Z.eqb_spec e EINTR) as [->|Hne]; simpl negb; cbv iota.
    + replace (buflen >? 0) with true by lia.
      destruct (IH (set_errno (set_reads w r) EINTR) n ret) as
        (w' & n' & r' & H & ?); try done.
      { simpl. rewrite Hr in Hf. simpl in Hf. lia. }
      by exists w', n', r'.
    + eexists _, n, ret. split; [done|]. split_and!; try done. by right.
  - cbv beta iota zeta. unfold avail in *. simpl in Ha, Hk |- *.
    destruct (Z.ltb_spec k 0); [lia|].
    destruct (Z.eqb_spec k 0) as [->|Hk1].
    { eexists _, n, OK. split; [done|]. split_and!; try done. by left. }
    pose proof (filled_step d buffer n (Z.to_nat k)) as Hs.
    apply bind_Done in Hs as (b1 & Hb1 & Hb2); [|lia..].
    rewrite Hb1. cbn [bind].
    replace (Z.of_nat n + k) with (Z.of_nat n + Z.of_nat (Z.to_nat k)) by lia.
    rewrite Hb2. cbn [bind].
    replace (buflen >? 0) with true by lia.
    replace (size_wrap (buflen - 1 - Z.of_nat n - k))
      with (buflen - 1 - Z.of_nat (n + Z.to_nat k)).
    2:{ unfold size_wrap. rewrite Z.mod_small; lia. }
    replace (Z.of_nat n + Z.of_nat (Z.to_nat k))
      with (Z.of_nat (n + Z.to_nat k)) by lia.
    destruct (IH w' (n + Z.to_nat k)%nat ret) as
      (w2 & n' & r' & H2 & Hn1 & Hn2 & Hn3 & Hr2); try done; try lia.
    exists w2, n', r'. split; [done|]. split_and!; try done; lia.
Qed.

Lemma c_string_prefix a b : c_string (a ++ 0 :: b) `prefix_of` a.
Proof.
  induction a as [|x a IH]; simpl; [apply prefix_nil|].
  destruct (x =? 0); [apply prefix_nil|]. by apply prefix_cons.
Qed.

(** C9.  When the file can be opened and [buflen] is at least 1 (and the
    buffer has [buflen] bytes), nsh_readfile returns with [n] bytes of the
    file at the start of the buffer, [n <= buflen - 1], and the terminator
    at index [n], whatever the result; the C string in the buffer is then a
    prefix of the contents of the file.  When the first read() fails with
    an error other than EINTR the terminator is at index 0.  A call for a
    file that cannot be opened returns the buffer as it was. *)
Theorem nsh_readfile_terminated w cmd path buffer buflen d :
  lookup_file (files w) path = Some d ->
  1 <= buflen < 2 ^ 32 -> Z.of_nat (length buffer) = buflen ->
  (exists w' n r,
     nsh_readfile w cmd path buffer buflen
       = Done (w', take n d ++ [0] ++ drop (n + 1) buffer, r) /\
     Z.of_nat n <= buflen - 1 /\ (r = OK \/ r = ERROR) /\
     (take n d ++ [0] ++ drop (n + 1) buffer) !! n = Some 0 /\
     c_string (take n d ++ [0] ++ drop (n + 1) buffer) `prefix_of` d) /\
  (forall e rs, reads w = RdFail e :: rs -> e <> EINTR ->
     exists w', nsh_readfile w cmd path buffer buflen
                = Done (w', [0] ++ drop 1 buffer, ERROR)) /\
  (forall path', lookup_file (files w) path' = None ->
     exists w', nsh_readfile w cmd path' buffer buflen
                = Done (w', buffer, ERROR)).
Proof.
  intros Hl Hb Hlen.
  assert (Hopen : forall path', lookup_file (files w) path' = None ->
            exists w', nsh_readfile w cmd path' buffer buflen
                       = Done (w', buffer, ERROR)).
  { intros path' Hn. unfold nsh_readfile, sys_open. rewrite Hn. by eexists. }
  rewrite (nsh_readfile_open _ _ _ _ _ _ Hl).
  assert (Hset : aset buffer 0 0 = Done (filled d buffer 0)).
  { unfold aset. replace ((0 <=? 0) && _) with true by lia. f_equal.
    destruct buffer; [simpl in Hlen; lia|]. unfold filled. simpl.
    by rewrite ?take_0, ?drop_0. }
  rewrite Hset. cbn [bind].
  assert (Hrem : size_wrap (buflen - 1) = buflen - 1).
  { unfold size_wrap. rewrite Z.mod_small; lia. }
  rewrite Hrem. split.
  - destruct (read_loop_filled cmd d buffer buflen
                (S (length (reads w) + Z.to_nat (buflen - 1))) w 0 ERROR)
      as (w' & n & r & H & _ & Hn1 & Hn2 & Hr); try done; try lia.
    change (Z.of_nat 0) with 0 in H. rewrite Z.sub_0_r in H.
    exists w', n, r. split; [exact H|]. split_and!; try done.
    + rewrite lookup_app_r; rewrite length_take_le by done; [|done].
      by rewrite Nat.sub_diag.
    + etrans; [apply c_string_prefix|apply prefix_take].
  - split; [|exact Hopen].
    intros e rs Hr Hne. rewrite read_loop_S. unfold sys_read. rewrite Hr.
    cbv beta iota zeta. simpl (errno _). replace (-1 <? 0) with true by done.
    destruct (Z.eqb_spec e EINTR); [done|]. simpl negb. cbv iota.
    eexists. unfold filled. by rewrite take_0.
Qed.

(** ** Failures of open(), read() and nsh_write() *)



(** ** What reaches the console is never taken back *)

Lemma nsh_write_out w buffer nbytes :
  exists o, out (fst (nsh_write w buffer nbytes)) = out w ++ o.
Proof.
  unfold nsh_write. simpl. destruct (writes w) as [|[e|k] r]; simpl.
  - by eexists.
  - exists []. by rewrite app_nil_r.
  - by eexists.
Qed.

Lemma report_out cfg w cmd op errval e :
  exists m, out (report cfg w cmd op errval e) = out w ++ [Printed m].
Proof. unfold report. destruct (_ && _); by eexists. Qed.

Lemma write_loop_out cfg cmd buffer nbytesread fuel :
  forall w nbyteswritten ret r,
    write_loop fuel cfg w cmd buffer nbytesread nbyteswritten ret = Done r ->
    exists o, out (fst r) = out w ++ o.
Proof.
  induction fuel as [|fuel IH]; intros w nw ret r; simpl.
  - destruct (nw <? nbytesread); [discriminate|]. intros [= <-].
    exists []. by rewrite app_nil_r.
  - destruct (nw <? nbytesread).
    2:{ intros [= <-]. exists []. by rewrite app_nil_r. }
    destruct (nsh_write_out w buffer nbytesread) as [o1 Ho1].
    destruct (nsh_write w buffer nbytesread) as [w1 n]. simpl in Ho1.
    destruct (n <? 0).
    + intros [= <-]. simpl.
      destruct (report_out cfg w1 cmd "write" (errno w1) (errno w1)) as [m ->].
      rewrite Ho1, <- app_assoc. by eexists.
    + intros (o2 & ->)%IH. rewrite Ho1, <- app_assoc. by eexists.
Qed.

Lemma sys_read_out w f count :
  out (sys_read w f count).1.1.1 = out w.
Proof. unfold sys_read. by destruct (reads w) as [|[e|k] r]. Qed.

Lemma cat_loop_out cfg cmd fuel :
  forall w f ret r,
    cat_loop fuel cfg w cmd f ret = Done r -> exists o, out (fst r) = out w ++ o.
Proof.
  induction fuel as [|fuel IH]; intros w f ret r; [discriminate|].
  rewrite cat_loop_S. pose proof (sys_read_out w f (IOBUFFERSIZE cfg)) as Ho.
  destruct (sys_read w f (IOBUFFERSIZE cfg)) as [[[w1 f1] n] bs].
  simpl in Ho. rewrite <- Ho.
  destruct (n <? 0).
  { intros [= <-]. simpl.
    destruct (report_out cfg w1 cmd "read" (errno w1) (errno w1)) as [m ->].
    by eexists. }
  destruct (n >? 0).
  2:{ intros [= <-]. exists []. by rewrite app_nil_r. }
  intros (r1 & (o1 & H1)%write_loop_out & (o2 & ->)%IH)%bind_Done.
  rewrite H1, <- app_assoc. by eexists.
Qed.


Lemma aset_cons {A : Type} (x : A) l v : aset (x :: l) 0 v = Done (v :: l).
Proof.
  unfold aset. cbn [length]. rewrite Nat2Z.inj_succ.
  destruct (Z.ltb_spec 0 (Z.succ (Z.of_nat (length l)))); [done|lia].
Qed.

(** When the file cannot be opened nsh_readfile leaves the buffer as it
    was, with no terminator in it. *)
Lemma nsh_readfile_open_counterexample :
  ~ (forall w cmd path buffer buflen w' buf' r,
       1 <= buflen -> Z.of_nat (length buffer) = buflen ->
       nsh_readfile w cmd path buffer buflen = Done (w', buf', r) ->
       0 ∈ buf').
Proof.
  intros H.
  assert (H1 : 1 <= 1) by done.
  assert (H2 : Z.of_nat (length [65]) = 1) by by_eval.
  assert (H3 : nsh_readfile (one_file [104; 105] [] []) "cat" "/g" [65] 1
               = Done (mkWorld [("/f"%string, [104; 105])] [] [] ENOENT false
                         [Printed (CmdFailed "cat" "open" ENOENT)] [],
                       [65], ERROR)) by by_eval.
  specialize (H _ _ _ _ _ _ _ _ H1 H2 H3).
  apply list_elem_of_singleton in H. discriminate H.
Qed.

(** The theorem on the file "abc" and a buffer of 3 bytes, with the first
    read() short and the second interrupted: "ab" and the terminator. *)
Lemma nsh_readfile_terminated_witness :
  (exists w' n r,
     nsh_readfile (one_file [97; 98; 99] [RdShort 0; RdFail EINTR] []) "cat"
       "/f" [1; 1; 1] 3
       = Done (w', take n [97; 98; 99] ++ [0] ++ drop (n + 1) [1; 1; 1], r) /\
     Z.of_nat n <= 3 - 1 /\ (r = OK \/ r = ERROR) /\
     (take n [97; 98; 99] ++ [0] ++ drop (n + 1) [1; 1; 1]) !! n = Some 0 /\
     c_string (take n [97; 98; 99] ++ [0] ++ drop (n + 1) [1; 1; 1])
       `prefix_of` [97; 98; 99]) /\
  nsh_readfile (one_file [97; 98; 99] [RdShort 0; RdFail EINTR] []) "cat"
    "/f" [1; 1; 1] 3
  = Done (mkWorld [("/f"%string, [97; 98; 99])] [] [] EINTR false [] [],
          [97; 98; 0], OK).
Proof.
  assert (H1 : lookup_file
                 (files (one_file [97; 98; 99] [RdShort 0; RdFail EINTR] []))
                 "/f" = Some [97; 98; 99]) by by_eval.
  assert (H2 : 1 <= 3 < 2 ^ 32) by (vm_compute; split; congruence).
  assert (H3 : Z.of_nat (length [1; 1; 1]) = 3) by by_eval.
  split.
  - exact (proj1 (nsh_readfile_terminated _ "cat" "/f" _ _ _ H1 H2 H3)).
  - by_eval.
Defined.

(** ** nsh_catfile with every nsh_write complete *)

Lemma cat_loop_prefix cfg cmd fuel :
  forall w f ret,
    0 < IOBUFFERSIZE cfg -> writes w = [] ->
    (length (reads w) + (length (data f) - pos f) < fuel)%nat ->
    exists w' r k,
      cat_loop fuel cfg w cmd f ret = Done (w', r) /\
      written (out w') = written (out w) ++ take k (drop (pos f) (data f)) /\
      (r = ret /\ take k (drop (pos f) (data f)) = drop (pos f) (data f) \/
       r = ERROR /\ exists e, RdFail e ∈ reads w).
Proof.
  induction fuel as [|fuel IH]; intros w f ret Hio Hwr Hf; [lia|].
  rewrite cat_loop_S.
  destruct (sys_read_cases w f (IOBUFFERSIZE cfg)) as
    [(e & r & Hr & ->)|(w' & n & -> & Hc & Ha & Hn0 & Hn & Hl & Hl' & Hrs & _
                        & Hws & _ & _ & Hout & _)].
  { cbv beta iota zeta. replace (-1 <? 0) with true by done.
    eexists _, ERROR, 0%nat. split; [done|]. split.
    - unfold report. destruct (_ && _); simpl;
        by rewrite written_app, take_0.
    - right. split; [done|]. exists e. rewrite Hr. left. }
  cbv beta iota zeta.
  destruct (Z.ltb_spec n 0); [lia|].
  destruct (Z.gtb_spec n 0) as [Hpos|Hz].
  - unfold avail in Ha. rewrite Hwr in Hws. rewrite Hws. simpl.
    replace (0 <? n) with true by lia. unfold nsh_write. simpl. rewrite Hws.
    replace (n <? 0) with false by lia. simpl.
    replace (0 + n <? n) with false by lia. simpl.
    set (chunk := take (Z.to_nat n) (drop (pos f) (data f))).
    assert (Hlen : length chunk = Z.to_nat n).
    { subst chunk. rewrite length_take_le; [done|]. rewrite length_drop. lia. }
    destruct (IH (emit (log_request w' (take (Z.to_nat n) chunk))
                    (Wrote (take (Z.to_nat n) chunk)))
                 (mkFile (data f) (pos f + Z.to_nat n)) ret)
      as (w2 & r2 & k & -> & Hw2 & Hr2); simpl; try done.
    { lia. }
    exists w2, r2, (Z.to_nat n + k)%nat. split; [done|]. simpl in Hw2, Hr2.
    rewrite written_app, Hout in Hw2. simpl in Hw2.
    rewrite app_nil_r, take_ge in Hw2 by lia. subst chunk.
    rewrite <- app_assoc, <- drop_drop, take_take_drop in Hw2.
    split; [done|].
    destruct Hr2 as [[-> Hk]|[-> (e & He)]]; [left|right]; split; try done.
    + rewrite <- take_take_drop, drop_drop, Hk, <- drop_drop.
      apply take_drop.
    + exists e. rewrite Hrs in He. destruct (reads w); [done|]. by right.
  - assert (n = 0) as -> by lia. exists w', ret, 0%nat. split; [done|].
    rewrite Hout, take_0, app_nil_r. split; [done|]. left. split; [done|].
    unfold avail in Hn. by rewrite drop_ge by lia.
Qed.

(** X18.  With every nsh_write complete, whatever the read() calls do, the
    bytes nsh_catfile writes are an initial part of the file; they are the
    whole file when the result is OK, and the result is ERROR only when a
    read() failed. *)
Theorem nsh_catfile_writes_prefix cfg w cmd path d :
  lookup_file (files w) path = Some d -> malloc_fail w = false ->
  0 < IOBUFFERSIZE cfg -> writes w = [] ->
  exists w' r k,
    nsh_catfile cfg w cmd path = Done (w', r) /\
    written (out w') = written (out w) ++ take k d /\
    (r = OK /\ take k d = d \/ r = ERROR /\ exists e, RdFail e ∈ reads w).
Proof.
  intros Hl Hm Hio Hw. rewrite (nsh_catfile_open _ _ _ _ _ Hl Hm).
  destruct (cat_loop_prefix cfg cmd (S (length (reads w) + length d)) w
              (mkFile d 0) OK Hio Hw) as (w' & r & k & -> & Hwr & Hr);
    [simpl; lia|].
  simpl in Hwr, Hr. exists (nsh_output w' (Text newline)), r, k.
  split; [done|]. split; [|done].
  simpl. by rewrite written_app, Hwr, app_nil_r.
Qed.

Lemma nsh_catfile_writes_prefix_witness :
  exists w' r k,
    nsh_catfile default_config
      (one_file [97; 98; 99; 100; 101; 102] [RdShort 1; RdFail 5] [])
      "cat" "/f" = Done (w', r) /\
    written (out w') = [] ++ take k [97; 98; 99; 100; 101; 102] /\
    (r = OK /\ take k [97; 98; 99; 100; 101; 102] = [97; 98; 99; 100; 101; 102]
     \/ r = ERROR /\ exists e, RdFail e ∈ [RdShort 1; RdFail 5]).
Proof.
  assert (H1 : lookup_file
                 (files (one_file [97; 98; 99; 100; 101; 102]
                           [RdShort 1; RdFail 5] [])) "/f"
               = Some [97; 98; 99; 100; 101; 102]) by by_eval.
  assert (H2 : malloc_fail (one_file [97; 98; 99; 100; 101; 102]
                              [RdShort 1; RdFail 5] []) = false) by by_eval.
  assert (H3 : 0 < IOBUFFERSIZE default_config) by by_eval.
  assert (H4 : writes (one_file [97; 98; 99; 100; 101; 102]
                         [RdShort 1; RdFail 5] []) = []) by by_eval.
  exact (nsh_catfile_writes_prefix default_config _ "cat" "/f" _ H1 H2 H3 H4).
Defined.

(** ** The buffers nsh_catfile hands to nsh_write *)

Lemma write_loop_requests cfg cmd buffer nbytesread fuel :
  forall w nbyteswritten ret r,
    write_loop fuel cfg w cmd buffer nbytesread nbyteswritten ret = Done r ->
    exists j, requests (fst r) =
              requests w ++ replicate j (take (Z.to_nat nbytesread) buffer).
Proof.
  induction fuel as [|fuel IH]; intros w nw ret r; simpl.
  - destruct (nw <? nbytesread); [discriminate|]. intros [= <-].
    exists 0%nat. by rewrite app_nil_r.
  - destruct (nw <? nbytesread).
    2:{ intros [= <-]. exists 0%nat. by rewrite app_nil_r. }
    assert (Hq : requests (fst (nsh_write w buffer nbytesread)) =
                 requests w ++ [take (Z.to_nat nbytesread) buffer]).
    { unfold nsh_write. simpl. by destruct (writes w) as [|[e|k] r0]. }
    destruct (nsh_write w buffer nbytesread) as [w1 n]. simpl in Hq.
    destruct (n <? 0).
    + intros [= <-]. exists 1%nat. simpl. unfold report.
      by destruct (_ && _).
    + intros (j & ->)%IH. exists (S j). by rewrite Hq, <- app_assoc.
Qed.

Lemma cat_loop_requests cfg cmd fuel :
  forall w f ret r,
    cat_loop fuel cfg w cmd f ret = Done r ->
    exists rq, requests (fst r) = requests w ++ rq /\
      Forall (fun bs => bs <> [] /\ Z.of_nat (length bs) <= IOBUFFERSIZE cfg /\
                exists p, bs = take (length bs) (drop p (data f))) rq.
Proof.
  induction fuel as [|fuel IH]; intros w f ret r; [discriminate|].
  rewrite cat_loop_S.
  destruct (sys_read_cases w f (IOBUFFERSIZE cfg)) as
    [(e & r0 & Hr & ->)|(w' & n & -> & Hc & Ha & _ & _ & _ & _ & _ & _ & _ & _
                         & _ & _ & Hq)].
  { cbv beta iota zeta. replace (-1 <? 0) with true by done. intros [= <-].
    exists []. split; [|done]. unfold report.
    destruct (_ && _); simpl; by rewrite app_nil_r. }
  cbv beta iota zeta. rewrite <- Hq.
  destruct (Z.ltb_spec n 0).
  { intros [= <-]. exists []. split; [|done]. unfold report.
    destruct (_ && _); simpl; by rewrite app_nil_r. }
  destruct (Z.gtb_spec n 0) as [Hpos|].
  2:{ intros [= <-]. exists []. by rewrite app_nil_r. }
  intros (r1 & (j & Hj)%write_loop_requests & (rq & Hrq & Hall)%IH)%bind_Done.
  set (bs := take (Z.to_nat n) (drop (pos f) (data f))) in *.
  assert (Hlen : length bs = Z.to_nat n).
  { subst bs. unfold avail in Ha. rewrite length_take_le; [done|].
    rewrite length_drop. lia. }
  rewrite take_ge in Hj by lia.
  exists (replicate j bs ++ rq). split.
  - by rewrite Hrq, Hj, <- app_assoc.
  - apply Forall_app. split; [|done]. apply Forall_replicate.
    split_and!.
    + intros E. rewrite E in Hlen. simpl in Hlen. lia.
    + lia.
    + exists (pos f). subst bs. by rewrite Hlen.
Qed.

(** X19.  nsh_catfile returns for every behaviour of read() and nsh_write(),
    and every buffer it hands to nsh_write is a piece of the file that is
    not empty and has at most IOBUFFERSIZE bytes. *)
Theorem nsh_catfile_requests cfg w cmd path :
  exists w' r rq,
    nsh_catfile cfg w cmd path = Done (w', r) /\
    requests w' = requests w ++ rq /\
    Forall (fun bs => bs <> [] /\ Z.of_nat (length bs) <= IOBUFFERSIZE cfg /\
              exists d p, lookup_file (files w) path = Some d /\
                          bs = take (length bs) (drop p d)) rq.
Proof.
  destruct (nsh_catfile_returns cfg w cmd path) as [[w' r] H].
  exists w', r. rewrite H. unfold nsh_catfile, sys_open in H.
  destruct (lookup_file (files w) path) as [d|] eqn:Hl.
  2:{ injection H as <- <-. exists []. simpl. by rewrite app_nil_r. }
  destruct (malloc_fail w).
  { injection H as <- <-. exists []. simpl. by rewrite app_nil_r. }
  apply bind_Done in H as (r1 & (rq & Hrq & Hall)%cat_loop_requests & [= <- <-]).
  exists rq. split; [done|]. split; [done|].
  eapply Forall_impl; [exact Hall|]. simpl.
  intros bs (? & ? & p & ?). split_and!; try done. by exists d, p.
Qed.

(** X20.  When the buffer of nsh_catfile cannot be allocated, the failure is
    reported as "malloc" and the result is ERROR; no read() and no
    nsh_write() takes place.  Once the buffer is there, the last thing
    nsh_catfile sends to the console is a newline, whatever the result. *)
Theorem nsh_catfile_malloc_and_newline cfg w cmd path d :
  lookup_file (files w) path = Some d ->
  (malloc_fail w = true ->
   exists w' e,
     nsh_catfile cfg w cmd path = Done (w', ERROR) /\
     out w' = out w ++ [Printed (CmdFailed cmd "malloc" e)] /\
     reads w' = reads w /\ writes w' = writes w /\
     requests w' = requests w) /\
  (malloc_fail w = false ->
   exists w' r o,
     nsh_catfile cfg w cmd path = Done (w', r) /\
     out w' = out w ++ o ++ [Printed (Text newline)]).
Proof.
  intros Hl. split; intros Hm.
  - unfold nsh_catfile, sys_open. rewrite Hl, Hm. by eexists _, _.
  - destruct (nsh_catfile_returns cfg w cmd path) as [[w' r] H].
    exists w', r. rewrite H. rewrite (nsh_catfile_open _ _ _ _ d) in H by done.
    apply bind_Done in H as (r1 & (o & Ho)%cat_loop_out & [= <- <-]).
    exists o. split; [done|]. simpl. by rewrite Ho, <- app_assoc.
Qed.

Lemma nsh_catfile_malloc_and_newline_witness :
  (exists w' e,
     nsh_catfile default_config
       (mkWorld [("/f"%string, [104; 105])] [] [] 0 true [] []) "cat" "/f"
       = Done (w', ERROR) /\
     out w' = [] ++ [Printed (CmdFailed "cat" "malloc" e)] /\
     reads w' = [] /\ writes w' = [] /\ requests w' = []) /\
  (exists w' r o,
     nsh_catfile default_config (one_file [104; 105] [] [WrFail 5]) "cat" "/f"
       = Done (w', r) /\
     out w' = [] ++ o ++ [Printed (Text newline)]).
Proof.
  assert (H1 : lookup_file
                 (files (mkWorld [("/f"%string, [104; 105])] [] [] 0 true [] []))
                 "/f" = Some [104; 105]) by by_eval.
  assert (H2 : malloc_fail
                 (mkWorld [("/f"%string, [104; 105])] [] [] 0 true [] [])
               = true) by by_eval.
  assert (H3 : lookup_file (files (one_file [104; 105] [] [WrFail 5])) "/f"
               = Some [104; 105]) by by_eval.
  assert (H4 : malloc_fail (one_file [104; 105] [] [WrFail 5]) = false)
    by by_eval.
  split.
  - exact (proj1 (nsh_catfile_malloc_and_newline default_config _ "cat" "/f"
                    _ H1) H2).
  - exact (proj2 (nsh_catfile_malloc_and_newline default_config _ "cat" "/f"
                    _ H3) H4).
Defined.

(** ** nsh_readfile with no fatal read() failure *)

(** Without a failure other than EINTR the loop of nsh_readfile stops only
    at the end of the file or of the buffer, and with OK. *)
Lemma read_loop_complete cmd d buffer buflen fuel :
  forall w n ret,
    Z.of_nat (length buffer) = buflen -> buflen < 2 ^ 32 ->
    (n <= length d)%nat -> Z.of_nat n <= buflen - 1 ->
    (forall e, RdFail e ∈ reads w -> e = EINTR) ->
    (length (reads w) + (Z.to_nat buflen - 1 - n) < fuel)%nat ->
    exists w',
      read_loop fuel w cmd (mkFile d n) (filled d buffer n) buflen
        (Z.of_nat n) (buflen - 1 - Z.of_nat n) (Z.of_nat n) ret
      = Done (w', filled d buffer (Nat.min (length d) (Z.to_nat (buflen - 1))),
              OK) /\
      out w' = out w.
Proof.
  induction fuel as [|fuel IH]; intros w n ret Hlen Hmax Hd Hn He Hf; [lia|].
  rewrite read_loop_S.
  destruct (sys_read_cases w (mkFile d n) (buflen - 1 - Z.of_nat n)) as
    [(e & r & Hr & ->)|(w' & k & -> & Hc & Ha & Hk0 & Hk & Hl & _ & Hrs & _
                        & _ & _ & _ & Hout & _)].
  - cbv beta iota zeta. simpl (errno _). replace (-1 <? 0) with true by done.
    assert (e = EINTR) as ->. { apply He. rewrite Hr. left. }
    rewrite Z.eqb_refl. simpl negb. cbv iota.
    replace (buflen >? 0) with true by lia.
    destruct (IH (set_errno (set_reads w r) EINTR) n ret) as (w' & H & Ho);
      try done.
    { simpl. intros e He'. apply He. rewrite Hr. by right. }
    { simpl. rewrite Hr in Hf. simpl in Hf. lia. }
    by exists w'.
  - cbv beta iota zeta. unfold avail in *. simpl in Ha, Hk |- *.
    destruct (Z.ltb_spec k 0); [lia|].
    destruct (Z.eqb_spec k 0) as [->|Hk1].
    { exists w'. split; [|done].
      by replace (Nat.min (length d) (Z.to_nat (buflen - 1))) with n by lia. }
    pose proof (filled_step d buffer n (Z.to_nat k)) as Hs.
    apply bind_Done in Hs as (b1 & Hb1 & Hb2); [|lia..].
    rewrite Hb1. cbn [bind].
    replace (Z.of_nat n + k) with (Z.of_nat n + Z.of_nat (Z.to_nat k)) by lia.
    rewrite Hb2. cbn [bind].
    replace (buflen >? 0) with true by lia.
    replace (size_wrap (buflen - 1 - Z.of_nat n - k))
      with (buflen - 1 - Z.of_nat (n + Z.to_nat k)).
    2:{ unfold size_wrap. rewrite Z.mod_small; lia. }
    replace (Z.of_nat n + Z.of_nat (Z.to_nat k))
      with (Z.of_nat (n + Z.to_nat k)) by lia.
    destruct (IH w' (n + Z.to_nat k)%nat ret) as (w2 & H2 & Ho2);
      try done; try lia.
    { rewrite Hrs. intros e He'. apply He.
      destruct (reads w); [done|]. by right. }
    exists w2. split; [done|]. congruence.
Qed.

Lemma nsh_readfile_complete w cmd path buffer buflen d :
  lookup_file (files w) path = Some d ->
  1 <= buflen < 2 ^ 32 -> Z.of_nat (length buffer) = buflen ->
  (forall e, RdFail e ∈ reads w -> e = EINTR) ->
  exists w',
    nsh_readfile w cmd path buffer buflen
    = Done (w', filled d buffer (Nat.min (length d) (Z.to_nat (buflen - 1))),
            OK) /\
    out w' = out w.
Proof.
  intros Hl Hb Hlen He. rewrite (nsh_readfile_open _ _ _ _ _ _ Hl).
  assert (Hset : aset buffer 0 0 = Done (filled d buffer 0)).
  { destruct buffer; [simpl in Hlen; lia|]. rewrite aset_cons.
    unfold filled. simpl. by rewrite ?take_0, ?drop_0. }
  rewrite Hset. cbn [bind].
  assert (Hrem : size_wrap (buflen - 1) = buflen - 1).
  { unfold size_wrap. rewrite Z.mod_small; lia. }
  rewrite Hrem.
  destruct (read_loop_complete cmd d buffer buflen
              (S (length (reads w) + Z.to_nat (buflen - 1))) w 0 ERROR)
    as (w' & H & Ho); try done; try lia.
  change (Z.of_nat 0) with 0 in H. rewrite Z.sub_0_r in H. by exists w'.
Qed.

Lemma c_string_app a b : 0 ∉ a -> c_string (a ++ 0 :: b) = a.
Proof.
  induction a as [|x a IH]; simpl; [done|].
  intros [Hx Ha]%not_elem_of_cons. destruct (Z.eqb_spec x 0); [congruence|].
  by rewrite IH.
Qed.

(** X21.  A file that leaves room for the terminator is read whole: with no
    read() failure other than EINTR, however short the reads are,
    nsh_readfile returns OK, prints nothing, and the buffer holds the file,
    the terminator and, after it, what it held before; when the file has no
    NUL byte the C string in the buffer is the file. *)
Theorem nsh_readfile_whole_file w cmd path buffer buflen d :
  lookup_file (files w) path = Some d ->
  Z.of_nat (length d) < buflen < 2 ^ 32 -> Z.of_nat (length buffer) = buflen ->
  (forall e, RdFail e ∈ reads w -> e = EINTR) ->
  exists w',
    nsh_readfile w cmd path buffer buflen
    = Done (w', d ++ [0] ++ drop (length d + 1) buffer, OK) /\
    out w' = out w /\
    (0 ∉ d -> c_string (d ++ [0] ++ drop (length d + 1) buffer) = d).
Proof.
  intros Hl Hb Hlen He.
  destruct (nsh_readfile_complete w cmd path buffer buflen d Hl) as
    (w' & H & Ho); try done; try lia.
  exists w'. replace (Nat.min (length d) (Z.to_nat (buflen - 1)))
    with (length d) in H by lia.
  unfold filled in H. rewrite firstn_all in H.
  split; [done|]. split; [done|]. apply c_string_app.
Qed.

Lemma nsh_readfile_whole_file_witness :
  exists w',
    nsh_readfile (one_file [104; 105] [RdShort 0; RdFail EINTR] []) "cat" "/f"
      [7; 7; 7; 7] 4
    = Done (w', [104; 105] ++ [0] ++ drop (length [104; 105] + 1) [7; 7; 7; 7],
            OK) /\
    out w' = [] /\
    (0 ∉ [104; 105] ->
     c_string ([104; 105] ++ [0] ++ drop (length [104; 105] + 1) [7; 7; 7; 7])
     = [104; 105]).
Proof.
  assert (H1 : lookup_file
                 (files (one_file [104; 105] [RdShort 0; RdFail EINTR] []))
                 "/f" = Some [104; 105]) by by_eval.
  assert (H2 : Z.of_nat (length [104; 105]) < 4 < 2 ^ 32)
    by (vm_compute; split; congruence).
  assert (H3 : Z.of_nat (length [7; 7; 7; 7]) = 4) by by_eval.
  assert (H4 : forall e, RdFail e ∈ reads (one_file [104; 105]
                                              [RdShort 0; RdFail EINTR] []) ->
                         e = EINTR).
  { intros e He. simpl in He. apply elem_of_cons in He as [He|He]; [done|].
    apply list_elem_of_singleton in He. by injection He. }
  exact (nsh_readfile_whole_file _ "cat" "/f" _ _ _ H1 H2 H3 H4).
Defined.

(** X22.  A file that does not fit is cut off without an error: with no
    read() failure other than EINTR, nsh_readfile fills the buffer with the
    first [buflen - 1] bytes of the file and the terminator, prints nothing
    and returns OK. *)
Theorem nsh_readfile_truncates w cmd path buffer buflen d :
  lookup_file (files w) path = Some d ->
  1 <= buflen <= Z.of_nat (length d) -> buflen < 2 ^ 32 ->
  Z.of_nat (length buffer) = buflen ->
  (forall e, RdFail e ∈ reads w -> e = EINTR) ->
  exists w',
    nsh_readfile w cmd path buffer buflen
    = Done (w', take (Z.to_nat (buflen - 1)) d ++ [0], OK) /\
    out w' = out w.
Proof.
  intros Hl Hb Hmax Hlen He.
  destruct (nsh_readfile_complete w cmd path buffer buflen d Hl) as
    (w' & H & Ho); try done; try lia.
  exists w'. replace (Nat.min (length d) (Z.to_nat (buflen - 1)))
    with (Z.to_nat (buflen - 1)) in H by lia.
  unfold filled in H. rewrite (drop_ge buffer) in H by lia.
  by rewrite app_nil_r in H.
Qed.

Lemma nsh_readfile_truncates_witness :
  exists w',
    nsh_readfile (one_file [97; 98; 99; 100; 101] [RdShort 0] []) "cat" "/f"
      [7; 7; 7] 3
    = Done (w', take (Z.to_nat (3 - 1)) [97; 98; 99; 100; 101] ++ [0], OK) /\
    out w' = [].
Proof.
  assert (H1 : lookup_file
                 (files (one_file [97; 98; 99; 100; 101] [RdShort 0] []))
                 "/f" = Some [97; 98; 99; 100; 101]) by by_eval.
  assert (H2 : 1 <= 3 <= Z.of_nat (length [97; 98; 99; 100; 101]))
    by (vm_compute; split; congruence).
  assert (H3 : 3 < 2 ^ 32) by by_eval.
  assert (H4 : Z.of_nat (length [7; 7; 7]) = 3) by by_eval.
  assert (H5 : forall e, RdFail e ∈ reads (one_file [97; 98; 99; 100; 101]
                                              [RdShort 0] []) -> e = EINTR).
  { intros e He. simpl in He. by apply list_elem_of_singleton in He. }
  exact (nsh_readfile_truncates _ "cat" "/f" _ _ _ H1 H2 H3 H4 H5).
Defined.

(** ** Failures of read() and nsh_write() on any pass of the loops *)









End NshFacts.
